(** * AnxietyPredictor_ML: feature construction, prediction and tip selection

    A shallow embedding of [serve.py], [train_model.py] and [tip_proxy.py].

    Conventions of the embedding.
    - A Python [str] is a [string] whose characters are the code points
      0..255; whitespace, line boundaries and case mapping are Python's on
      that range.
    - A Python [float] is a rational number ([Q]) and, where the code can
      meet them, an infinity or NaN ([F64.float]).  The rounding of binary64
      arithmetic ([F64.round]) is written out at the two operations where
      it decides a result of the service: the subtraction [10.0 - mood] and
      the product by ten inside [np.round]; elsewhere a float stands for
      the rational it approximates.  [float(np.sin(..))] and
      [float(np.cos(..))] are kept symbolic.
    - A Python [dict] is a [gmap] and a [set] is a [gset]; a [dict] whose
      order of items is read is a list of pairs.
    - A raised exception is the left injection of a sum (or [None] for a
      collaborator whose message is never inspected). *)

From Stdlib Require Import Ascii QArith Qround Qpower Lqa.
From Stdlib Require PrimFloat FloatOps SpecFloat.
From stdpp Require Import gmap strings list.

Local Open Scope string_scope.
Local Open Scope list_scope.

(** ** Python string primitives *)

Module PyStr.

Definition code (c : ascii) : N := Ascii.N_of_ascii c.

Definition in_range (lo hi : N) (c : ascii) : bool :=
  ((lo <=? code c) && (code c <=? hi))%N.

(** [str.isspace] on one character, also the class [\s] of [re]. *)
Definition isspace (c : ascii) : bool :=
  in_range 9 13 c || in_range 28 32 c
  || (code c =? 133)%N || (code c =? 160)%N.

(** Line boundaries of [str.splitlines]. *)
Definition islinebreak (c : ascii) : bool :=
  in_range 10 13 c || in_range 28 30 c || (code c =? 133)%N.

(** The class [\d] (and [[0-9]]). *)
Definition isdigit (c : ascii) : bool := in_range 48 57 c.

Definition lower_char (c : ascii) : ascii :=
  if in_range 65 90 c
     || (in_range 192 222 c && negb (code c =? 215)%N)
  then Ascii.ascii_of_N (code c + 32)
  else c.

(** [s.lower()] *)
Fixpoint lower (s : string) : string :=
  match s with
  | EmptyString => EmptyString
  | String c s' => String (lower_char c) (lower s')
  end.

Definition is_empty (s : string) : bool :=
  match s with EmptyString => true | _ => false end.

Fixpoint mem_char (c : ascii) (chars : string) : bool :=
  match chars with
  | EmptyString => false
  | String d chars' => Ascii.eqb c d || mem_char c chars'
  end.

Fixpoint lstrip_by (p : ascii -> bool) (s : string) : string :=
  match s with
  | EmptyString => EmptyString
  | String c s' => if p c then lstrip_by p s' else s
  end.

Fixpoint rstrip_by (p : ascii -> bool) (s : string) : string :=
  match s with
  | EmptyString => EmptyString
  | String c s' =>
      let r := rstrip_by p s' in
      if is_empty r && p c then EmptyString else String c r
  end.

Definition strip_by (p : ascii -> bool) (s : string) : string :=
  rstrip_by p (lstrip_by p s).

(** [s.strip()] *)
Definition strip (s : string) : string := strip_by isspace s.

(** [s.strip(chars)] *)
Definition strip_chars (chars s : string) : string :=
  strip_by (fun c => mem_char c chars) s.


Definition snoc (s : string) (c : ascii) : string :=
  s +:+ String c EmptyString.

Definition flush (cur : string) : list string :=
  if is_empty cur then [] else [cur].

(** [s.split()] : the maximal runs of non-whitespace characters. *)
Fixpoint split_from (cur s : string) : list string :=
  match s with
  | EmptyString => flush cur
  | String c s' =>
      if isspace c then flush cur ++ split_from EmptyString s'
      else split_from (snoc cur c) s'
  end.

Definition split (s : string) : list string := split_from EmptyString s.

(** [s.splitlines()] : a carriage return followed by a line feed is one
    boundary; no empty last line is produced. *)
Fixpoint splitlines_from (cur s : string) : list string :=
  match s with
  | EmptyString => flush cur
  | String c s' =>
      if islinebreak c then
        match s' with
        | String d s'' =>
            if (code c =? 13)%N && (code d =? 10)%N
            then cur :: splitlines_from EmptyString s''
            else cur :: splitlines_from EmptyString s'
        | EmptyString => [cur]
        end
      else splitlines_from (snoc cur c) s'
  end.

Definition splitlines (s : string) : list string :=
  splitlines_from EmptyString s.

(** [s.startswith(p)] *)
Fixpoint startswith (p s : string) : bool :=
  match p, s with
  | EmptyString, _ => true
  | String a p', String b s' => Ascii.eqb a b && startswith p' s'
  | String _ _, EmptyString => false
  end.

(** [sub in s] *)
Fixpoint contains (sub s : string) : bool :=
  startswith sub s
  || match s with
     | EmptyString => false
     | String _ s' => contains sub s'
     end.

(** [s.replace(old, new)] for a non-empty [old]: the occurrences are
    replaced from the left and do not overlap.  [skip] counts the
    characters of the occurrence being replaced that are still to drop. *)
Fixpoint replace_from (old new : string) (skip : nat) (s : string) : string :=
  match s with
  | EmptyString => EmptyString
  | String c s' =>
      match skip with
      | S k => replace_from old new k s'
      | O =>
          if startswith old s
          then new +:+ replace_from old new (Nat.pred (String.length old)) s'
          else String c (replace_from old new O s')
      end
  end.

Definition replace (old new s : string) : string :=
  replace_from old new O s.

(** [sep.join(parts)] *)
Fixpoint join (sep : string) (parts : list string) : string :=
  match parts with
  | [] => EmptyString
  | [p] => p
  | p :: rest => p +:+ sep +:+ join sep rest
  end.

(** [s.split(sep)] for a one-character separator: every occurrence of
    [sep] ends a field, and empty fields are kept. *)
Fixpoint split_on_from (sep : ascii) (cur s : string) : list string :=
  match s with
  | EmptyString => [cur]
  | String c s' =>
      if Ascii.eqb c sep then cur :: split_on_from sep EmptyString s'
      else split_on_from sep (snoc cur c) s'
  end.

Definition split_on (sep : ascii) (s : string) : list string :=
  split_on_from sep EmptyString s.

(** [x in l] for a list of strings. *)
Definition mem (x : string) (l : list string) : bool :=
  existsb (String.eqb x) l.

End PyStr.

(** ** Python numbers *)

Module PyNum.

Definition ltb (a b : Q) : bool := negb (Qle_bool b a).
Definition geb (a b : Q) : bool := Qle_bool b a.

(** [min(a, b)] and [max(a, b)] : the first argument is kept on a tie. *)
Definition min (a b : Q) : Q := if ltb b a then b else a.
Definition max (a b : Q) : Q := if ltb a b then b else a.

(** [float(n)] for an integer [n]. *)
Definition of_int (n : Z) : Q := inject_Z n.
Definition of_len (n : nat) : Q := inject_Z (Z.of_nat n).

(** [1.0 if b else 0.0] *)
Definition flag (b : bool) : Q := if b then 1 else 0.

End PyNum.

(** ** Binary64 arithmetic *)

Module F64.
Local Open Scope Q_scope.

(** What a Python [float] can hold. *)
Inductive float :=
| Finite (q : Q)
| PosInf
| NegInf
| NaN.

(** Round half to even: the rounding of [np.rint], and of binary64
    arithmetic in units of the last place. *)
Definition rint (x : Q) : Z :=
  let f := Qfloor x in
  let d := (x - inject_Z f)%Q in
  if PyNum.ltb d (1 # 2) then f
  else if PyNum.ltb (1 # 2) d then (f + 1)%Z
  else if Z.even f then f else (f + 1)%Z.

(** [2 ** k] *)
Definition pow2 (k : Z) : Q := 2 ^ k.

(** The exponent [e] of a positive number [x]:
    [2 ** e <= x < 2 ** (e + 1)]. *)
Definition binade (x : Q) : Z :=
  let c := (Z.log2 (Qnum x) - Z.log2 (Z.pos (Qden x)))%Z in
  if Qle_bool (pow2 c) x then c else (c - 1)%Z.

(** The unit in the last place of the binary64 numbers around [x]: 53
    significant bits, and no exponent below that of the subnormal
    numbers. *)
Definition ulp (x : Q) : Q := pow2 (Z.max (binade x - 52) (-1074)).

Definition round_pos (x : Q) : Q := inject_Z (rint (x / ulp x)) * ulp x.

(** The binary64 number nearest to [x], ties to even, for an [x] below
    the overflow threshold. *)
Definition round (x : Q) : Q :=
  if PyNum.ltb 0 x then round_pos x
  else if PyNum.ltb x 0 then - round_pos (- x)
  else 0.

(** [a - b] and [a * b] on binary64 numbers with a finite result. *)
Definition sub (a b : Q) : Q := round (a - b).
Definition mul (a b : Q) : Q := round (a * b).

(** The value of a primitive binary64 number of Rocq, against which the
    rounding above is checked. *)
Definition of_prim (f : PrimFloat.float) : float :=
  match FloatOps.Prim2SF f with
  | SpecFloat.S754_zero _ => Finite 0
  | SpecFloat.S754_finite s m e =>
      Finite (Qred ((if s then - (1) else 1) * inject_Z (Z.pos m) * pow2 e))
  | SpecFloat.S754_infinity s => if s then NegInf else PosInf
  | SpecFloat.S754_nan => NaN
  end.

End F64.

(** ** train_model.py : the feature manifest and the notes helpers *)

Module Train.

Definition BASE_NUMERIC : list string :=
  ["sleep"; "energy"; "mood"; "anxiety_7d_avg"].
Definition NOTE_NUMERIC : list string :=
  ["notes_len"; "notes_words"; "notes_sentiment"].
Definition NOTE_KEYWORDS : list string :=
  ["kw_work"; "kw_school"; "kw_exam"; "kw_sleep"; "kw_social";
   "kw_finance"; "kw_health"].
Definition NUMERIC_FEATURES : list string :=
  BASE_NUMERIC ++ NOTE_NUMERIC ++ NOTE_KEYWORDS.
Definition TRIGGER_FEATURES : list string := ["triggers"].

Definition _POS : gset string :=
  list_to_set ["calm"; "better"; "rested"; "relaxed"; "improved"; "ok";
               "good"; "great"].
Definition _NEG : gset string :=
  list_to_set ["anxious"; "panic"; "stressed"; "overwhelmed"; "tired";
               "exhausted"; "worried"; "nervous"; "insomnia"].

(** [sum(1 for w in words if w in lexicon)] *)
Definition hits (lexicon words : gset string) : Z :=
  Z.of_nat (length (filter (fun w => w ∈ lexicon) (elements words))).

Definition _simple_sentiment (text : string) : Q :=
  if PyStr.is_empty text then 0
  else
    let words : gset string :=
      list_to_set
        (map (fun w => PyStr.lower (PyStr.strip_chars ".,!?" w))
             (PyStr.split text)) in
    let score := 0%Z in
    let score := (score + hits _POS words)%Z in
    let score := (score - hits _NEG words)%Z in
    PyNum.max (-1) (PyNum.min 1 (PyNum.of_int score / 5)).

Definition notes_featurize (text : option string) : gmap string Q :=
  let t := PyStr.strip (default "" text) in
  let toks := filter (fun w => negb (PyStr.is_empty w)) (PyStr.split t) in
  let sent := _simple_sentiment t in
  let feats : gmap string Q :=
    list_to_map
      [("notes_len", PyNum.of_len (String.length t));
       ("notes_words", PyNum.of_len (length toks));
       ("notes_sentiment", sent)] in
  let low := PyStr.lower t in
  let feats := <["kw_work" := PyNum.flag (PyStr.contains "work" low)]> feats in
  let feats :=
    <["kw_school" := PyNum.flag (PyStr.contains "school" low
                                 || PyStr.contains "class" low)]> feats in
  let feats :=
    <["kw_exam" := PyNum.flag (PyStr.contains "exam" low
                               || PyStr.contains "test" low
                               || PyStr.contains "deadline" low)]> feats in
  let feats :=
    <["kw_sleep" := PyNum.flag (PyStr.contains "sleep" low
                                || PyStr.contains "insomnia" low)]> feats in
  let feats :=
    <["kw_social" := PyNum.flag (PyStr.contains "social" low
                                 || PyStr.contains "party" low
                                 || PyStr.contains "crowd" low)]> feats in
  let feats :=
    <["kw_finance" := PyNum.flag (PyStr.contains "money" low
                                  || PyStr.contains "rent" low
                                  || PyStr.contains "bills" low)]> feats in
  let feats :=
    <["kw_health" := PyNum.flag (PyStr.contains "health" low
                                 || PyStr.contains "sick" low
                                 || PyStr.contains "doctor" low)]> feats in
  feats.

End Train.


(** ** Model bundles, as [joblib] stores and loads them *)

Module Bundle.

(** The values a bundle holds. *)
Inductive pyval :=
| PyNone
| PyList (l : list string)
| PyStr (s : string)
| PyInt (n : Z)
| PyMetrics (m : gmap string Q)
| PyObject.

(** Truth value of a Python object. *)
Definition truthy (v : pyval) : bool :=
  match v with
  | PyNone => false
  | PyList l => negb (bool_decide (l = []))
  | PyStr s => negb (PyStr.is_empty s)
  | PyInt n => negb (n =? 0)%Z
  | PyMetrics m => negb (bool_decide (m = ∅))
  | PyObject => true
  end.

(** [a or b] *)
Definition py_or (a b : pyval) : pyval := if truthy a then a else b.

(** [bundle.get(key)] *)
Definition get (bundle : gmap string pyval) (key : string) : pyval :=
  default PyNone (bundle !! key).

End Bundle.

Module TrainMain.
Import Bundle.

(** The bundle written by [main]; the fitted pipeline, the row counts,
    the metrics and the time stamp are the results of the run. *)
Definition bundle (trained_at : string) (n_train n_test : Z)
    (mae rmse r2 : Q) : gmap string pyval :=
  list_to_map
    [("pipeline", PyObject);
     ("numeric_features", PyList Train.NUMERIC_FEATURES);
     ("trigger_features", PyList Train.TRIGGER_FEATURES);
     ("trained_at", PyStr (trained_at +:+ "Z"));
     ("n_train", PyInt n_train);
     ("n_test", PyInt n_test);
     ("metrics",
      PyMetrics (list_to_map [("mae", mae); ("rmse", rmse); ("r2", r2)]));
     ("version", PyStr "1.3.0-notes")].

End TrainMain.

(** ** serve.py : notes helpers, manifest, feature rows and the prediction
    endpoint *)

Module Serve.
Import Bundle.

Definition _POS : gset string :=
  list_to_set ["calm"; "better"; "rested"; "relaxed"; "improved"; "ok";
               "good"; "great"].
Definition _NEG : gset string :=
  list_to_set ["anxious"; "panic"; "stressed"; "overwhelmed"; "tired";
               "exhausted"; "worried"; "nervous"; "insomnia"].

Definition hits (lexicon words : gset string) : Z :=
  Z.of_nat (length (filter (fun w => w ∈ lexicon) (elements words))).

Definition _simple_sentiment (text : string) : Q :=
  if PyStr.is_empty text then 0
  else
    let words : gset string :=
      list_to_set
        (map (fun w => PyStr.lower (PyStr.strip_chars ".,!?" w))
             (PyStr.split text)) in
    let score := 0%Z in
    let score := (score + hits _POS words)%Z in
    let score := (score - hits _NEG words)%Z in
    PyNum.max (-1) (PyNum.min 1 (PyNum.of_int score / 5)).

Definition notes_featurize (text : option string) : gmap string Q :=
  let t := PyStr.strip (default "" text) in
  let toks := filter (fun w => negb (PyStr.is_empty w)) (PyStr.split t) in
  let sent := _simple_sentiment t in
  let low := PyStr.lower t in
  list_to_map
    [("notes_len", PyNum.of_len (String.length t));
     ("notes_words", PyNum.of_len (length toks));
     ("notes_sentiment", sent);
     ("kw_work", PyNum.flag (PyStr.contains "work" low));
     ("kw_school", PyNum.flag (PyStr.contains "school" low
                               || PyStr.contains "class" low));
     ("kw_exam", PyNum.flag (PyStr.contains "exam" low
                             || PyStr.contains "test" low
                             || PyStr.contains "deadline" low));
     ("kw_sleep", PyNum.flag (PyStr.contains "sleep" low
                              || PyStr.contains "insomnia" low));
     ("kw_social", PyNum.flag (PyStr.contains "social" low
                               || PyStr.contains "party" low
                               || PyStr.contains "crowd" low));
     ("kw_finance", PyNum.flag (PyStr.contains "money" low
                                || PyStr.contains "rent" low
                                || PyStr.contains "bills" low));
     ("kw_health", PyNum.flag (PyStr.contains "health" low
                               || PyStr.contains "sick" low
                               || PyStr.contains "doctor" low))].

Definition numeric_features_of (bundle : gmap string pyval) : pyval :=
  py_or (py_or (get bundle "numeric_features") (get bundle "numeric"))
        (PyList ["sleep"; "energy"; "mood"; "anxiety_7d_avg"]).

Definition trigger_features_of (bundle : gmap string pyval) : pyval :=
  py_or (py_or (get bundle "trigger_features") (get bundle "trigger_cols"))
        (PyList ["triggers"]).

(** Values of a feature row.  [VSin k p] and [VCos k p] stand for
    [float(np.sin(2 * np.pi * k / p))] and [float(np.cos(2 * np.pi * k / p))]. *)
Inductive value :=
| VFloat (q : Q)
| VInt (n : Z)
| VStr (s : string)
| VSin (k period : Z)
| VCos (k period : Z).

(** [Union[str, List[str]]] *)
Inductive trigger_field :=
| TrigStr (s : string)
| TrigList (l : list string).

Record CheckInEntry := {
  sleep : Q;
  energy : Q;
  mood : Q;
  anxiety_7d_avg : Q;
  triggers : trigger_field;
  timestamp : string;
  notes : option string
}.

(** What the builder reads of a parsed [datetime]: [dt.hour] and
    [dt.weekday()] (0 is Monday). *)
Record datetime := { hour : Z; weekday : Z }.

Section Service.

(** [datetime.fromisoformat]; [None] when it raises. *)
Variable fromisoformat : string -> option datetime.

(** The manifest of the loaded bundle. *)
Variables numeric_features trigger_features : list string.

(** [float(pipeline.predict(df)[0])] on the one-row frame; the left
    injection carries the message of a raised exception. *)
Variable pipeline_predict : gmap string value -> string + F64.float.

Definition wanted (col : string) : bool :=
  bool_decide (col ∈ numeric_features).

Definition USE_DOW_SIN : bool := wanted "dow_sin".
Definition USE_DOW_COS : bool := wanted "dow_cos".
Definition USE_HOUR_SIN : bool := wanted "hour_sin".
Definition USE_HOUR_COS : bool := wanted "hour_cos".

(** The base columns; [10.0 - float(entry.mood)] is a subtraction of
    binary64 numbers. *)
Definition add_base (entry : CheckInEntry) (row : gmap string value)
  : gmap string value :=
  let base_map : gmap string value :=
    list_to_map
      [("sleep", VFloat (sleep entry));
       ("energy", VFloat (energy entry));
       ("mood", VFloat (F64.sub 10 (mood entry)));
       ("anxiety_7d_avg", VFloat (anxiety_7d_avg entry))] in
  foldl (fun row nf =>
           if wanted nf then
             match base_map !! nf with
             | Some v => <[nf := v]> row
             | None => row
             end
           else row)
        row ["sleep"; "energy"; "mood"; "anxiety_7d_avg"].

Definition add_time (dt : datetime) (row : gmap string value)
  : gmap string value :=
  let hour_ := hour dt in
  let is_weekend := if (5 <=? weekday dt)%Z then 1%Z else 0%Z in
  let row := if wanted "hour"
             then <["hour" := VFloat (PyNum.of_int hour_)]> row else row in
  let row := if wanted "is_weekend"
             then <["is_weekend" := VFloat (PyNum.of_int is_weekend)]> row
             else row in
  let row :=
    if USE_DOW_SIN || USE_DOW_COS then
      let dow := weekday dt in
      let row := if USE_DOW_SIN
                 then <["dow_sin" := VSin dow 7]> row else row in
      if USE_DOW_COS then <["dow_cos" := VCos dow 7]> row else row
    else row in
  if USE_HOUR_SIN || USE_HOUR_COS then
    let hour_ := hour dt in
    let row := if USE_HOUR_SIN
               then <["hour_sin" := VSin hour_ 24]> row else row in
    if USE_HOUR_COS then <["hour_cos" := VCos hour_ 24]> row else row
  else row.

(** The lowered, trimmed trigger names of the pre-expanded mode. *)
Definition trig_list (t : trigger_field) : list string :=
  match t with
  | TrigList l => map (fun t => PyStr.lower (PyStr.strip t)) l
  | TrigStr s =>
      map (fun x => PyStr.lower (PyStr.strip x))
          (filter (fun x => negb (PyStr.is_empty (PyStr.strip x)))
                  (PyStr.split_on "," s))
  end.

Definition add_triggers (entry : CheckInEntry) (row : gmap string value)
  : gmap string value :=
  if bool_decide ("triggers" ∈ trigger_features) then
    let trig_str :=
      match triggers entry with
      | TrigList l => PyStr.join "," l
      | TrigStr s => s
      end in
    <["triggers" := VStr trig_str]> row
  else
    let trig_list := trig_list (triggers entry) in
    foldl (fun row tf =>
             if PyStr.startswith "trigger_" tf then
               let base := PyStr.lower (PyStr.replace "trigger_" "" tf) in
               <[tf := VInt (if PyStr.mem base trig_list then 1 else 0)]> row
             else row)
          row trigger_features.

Definition add_notes (entry : CheckInEntry) (row : gmap string value)
  : gmap string value :=
  let note_feats := notes_featurize (notes entry) in
  let row :=
    foldl (fun row kv =>
             if wanted kv.1 then <[kv.1 := VFloat kv.2]> row else row)
          row (map_to_list note_feats) in
  if wanted "notes_sent" then
    match note_feats !! "notes_sentiment" with
    | Some v => <["notes_sent" := VFloat v]> row
    | None => row
    end
  else row.

(** The defaults of the columns the steps above left out.  The order in
    which the set is visited does not show in the result. *)
Definition fill_defaults (row : gmap string value) : gmap string value :=
  let expected_cols : gset string :=
    list_to_set numeric_features ∪ list_to_set trigger_features in
  foldl (fun row col =>
           match row !! col with
           | Some _ => row
           | None =>
               <[col := if String.eqb col "triggers"
                        then VStr "" else VFloat 0]> row
           end)
        row (elements expected_cols).

(** The row as it stands before the defaults are filled in. *)
Definition computed_columns (entry : CheckInEntry) (dt : datetime)
  : gmap string value :=
  let row : gmap string value := ∅ in
  let row := add_base entry row in
  let row := add_time dt row in
  let row := add_triggers entry row in
  add_notes entry row.

Definition build_feature_row (entry : CheckInEntry)
  : string + gmap string value :=
  match fromisoformat (PyStr.replace "Z" "+00:00" (timestamp entry)) with
  | None => inl ("Invalid timestamp format: " +:+ timestamp entry)
  | Some dt => inr (fill_defaults (computed_columns entry dt))
  end.

(** [np.clip(x, lo, hi)] on a finite [x] *)
Definition np_clip (x lo hi : Q) : Q := PyNum.min (PyNum.max x lo) hi.

(** [np.round(x, 1)] on a finite [x] : the product by ten, a binary64
    number, is rounded to the nearest integer, ties to even, and divided by
    ten.  The quotient is left exact: it stands for the binary64 number
    nearest to it. *)
Definition np_round1 (x : Q) : Q :=
  (inject_Z (F64.rint (F64.mul x 10)) / 10)%Q.

(** [float(np.clip(x, lo, hi))] : an infinity is clamped, NaN stays NaN. *)
Definition clip (x : F64.float) (lo hi : Q) : F64.float :=
  match x with
  | F64.Finite q => F64.Finite (np_clip q lo hi)
  | F64.PosInf => F64.Finite hi
  | F64.NegInf => F64.Finite lo
  | F64.NaN => F64.NaN
  end.

(** [float(np.round(x, 1))] : an infinity and NaN are left as they are. *)
Definition round1 (x : F64.float) : F64.float :=
  match x with
  | F64.Finite q => F64.Finite (np_round1 q)
  | F64.PosInf => F64.PosInf
  | F64.NegInf => F64.NegInf
  | F64.NaN => F64.NaN
  end.

(** Responses of the endpoint. *)
Inductive response :=
| Ok200 (predicted_anxiety : F64.float)
| Http400 (detail : string).

Definition predict (entry : CheckInEntry) : response :=
  match build_feature_row entry with
  | inl e => Http400 e
  | inr feature_row =>
      match pipeline_predict feature_row with
      | inl e => Http400 e
      | inr raw =>
          let clamped := clip raw 0 10 in
          let rounded := round1 clamped in
          Ok200 rounded
      end
  end.

End Service.

End Serve.

(** ** Regular expressions, matched by derivatives *)

Module Regex.

Inductive re :=
| Void
| Eps
| Class (p : ascii -> bool)
| Cat (r1 r2 : re)
| Alt (r1 r2 : re)
| Star (r : re).

Definition Plus (r : re) : re := Cat r (Star r).
Definition Opt (r : re) : re := Alt r Eps.

Fixpoint Lit (s : string) : re :=
  match s with
  | EmptyString => Eps
  | String c s' => Cat (Class (Ascii.eqb c)) (Lit s')
  end.

Fixpoint AltOf (rs : list re) : re :=
  match rs with
  | [] => Void
  | [r] => r
  | r :: rs' => Alt r (AltOf rs')
  end.

Fixpoint nullable (r : re) : bool :=
  match r with
  | Void => false
  | Eps => true
  | Class _ => false
  | Cat r1 r2 => nullable r1 && nullable r2
  | Alt r1 r2 => nullable r1 || nullable r2
  | Star _ => true
  end.

Fixpoint deriv (c : ascii) (r : re) : re :=
  match r with
  | Void => Void
  | Eps => Void
  | Class p => if p c then Eps else Void
  | Cat r1 r2 =>
      if nullable r1
      then Alt (Cat (deriv c r1) r2) (deriv c r2)
      else Cat (deriv c r1) r2
  | Alt r1 r2 => Alt (deriv c r1) (deriv c r2)
  | Star r1 => Cat (deriv c r1) (Star r1)
  end.

(** [re.fullmatch(r, s)] as a truth value. *)
Fixpoint fullmatch (r : re) (s : string) : bool :=
  match s with
  | EmptyString => nullable r
  | String c s' => fullmatch (deriv c r) s'
  end.

(** The language of an expression, to check the matcher against. *)
Inductive matches : re -> string -> Prop :=
| m_eps : matches Eps EmptyString
| m_class p c : p c = true -> matches (Class p) (String c EmptyString)
| m_cat r1 r2 s1 s2 :
    matches r1 s1 -> matches r2 s2 -> matches (Cat r1 r2) (s1 +:+ s2)
| m_alt_l r1 r2 s : matches r1 s -> matches (Alt r1 r2) s
| m_alt_r r1 r2 s : matches r2 s -> matches (Alt r1 r2) s
| m_star_nil r : matches (Star r) EmptyString
| m_star_cons r c s1 s2 :
    matches r (String c s1) -> matches (Star r) s2 ->
    matches (Star r) (String c s1 +:+ s2).

End Regex.

(** ** tip_proxy.py : prompt, selection filter and the tip endpoints *)

Module TipProxy.
Import Regex.

Definition nl : string := String (Ascii.ascii_of_nat 10) EmptyString.

Definition VALID_CLIENT_KEY : string := "local_secret_key_123".

(** [weeklyTrend] keeps the order of its items. *)
Record TipRequest := {
  predicted_anxiety : Q;
  sleep : Q;
  energy : Q;
  mood : Q;
  triggers : list string;
  weeklyTrend : list (string * Q)
}.

Definition verbs : list string :=
  ["try"; "take"; "do"; "journal"; "walk"; "breathe"; "reflect"; "plan";
   "schedule"; "pause"; "break"; "focus"; "stretch"; "meditate"].

(** The substitution that removes a leading number: a run of digits, one
    of [.] and [)], and the whitespace that follows are dropped from the
    front of the line; any other line is left as it is. *)
Definition strip_numbering (line : string) : string :=
  match line with
  | String c _ =>
      if PyStr.isdigit c then
        match PyStr.lstrip_by PyStr.isdigit line with
        | String d rest =>
            if PyStr.mem_char d ".)"
            then PyStr.lstrip_by PyStr.isspace rest
            else line
        | EmptyString => line
        end
      else line
  | EmptyString => line
  end.

(** The pattern of a trend echo: optionally [tip], an optional [s], a
    colon and any whitespace; then one group or more, each a day name
    among mon, tue, wed, thu, fri, sat, sun, a colon, one digit, and any
    run of whitespace and commas. *)
Definition trend_re : re :=
  Cat (Opt (Cat (Lit "tip")
                (Cat (Opt (Lit "s"))
                     (Cat (Lit ":") (Star (Class PyStr.isspace))))))
      (Plus (Cat (AltOf (map Lit ["mon"; "tue"; "wed"; "thu"; "fri";
                                  "sat"; "sun"]))
                 (Cat (Lit ":")
                      (Cat (Class PyStr.isdigit)
                           (Star (Class (fun c => PyStr.isspace c
                                                  || Ascii.eqb c ","))))))).

(** [re.search(pat, s, re.IGNORECASE)] for a pattern of literal
    characters, as a truth value. *)
Definition search_ignorecase (pat s : string) : bool :=
  PyStr.contains (PyStr.lower pat) (PyStr.lower s).

(** The outcome of the scan of one candidate: the function returned, or
    the loop goes on with the tips and the lowered lines seen so far. *)
Inductive flow :=
| Return (tips : list string)
| Continue (tips : list string) (seen : gset string).

Fixpoint scan_lines (lines : list string) (tips : list string)
    (seen : gset string) : flow :=
  match lines with
  | [] => Continue tips seen
  | line :: rest =>
      let line := PyStr.strip line in
      if PyStr.is_empty line then scan_lines rest tips seen
      else
        let line := strip_numbering line in
        let low := PyStr.lower line in
        let trend_echo := fullmatch trend_re low in
        if trend_echo then scan_lines rest tips seen
        else if search_ignorecase "anxiety:" line
                && search_ignorecase "sleep:" line
                && search_ignorecase "mood:" line
        then scan_lines rest tips seen
        else if PyStr.startswith "tips:" low
                && negb (existsb (fun verb => PyStr.contains verb low) verbs)
        then scan_lines rest tips seen
        else if (length (PyStr.split line) <? 5)%nat
        then scan_lines rest tips seen
        else if bool_decide (low ∈ seen) then scan_lines rest tips seen
        else
          let seen := {[ low ]} ∪ seen in
          let tips := (tips ++ [line])%list in
          if (3 <=? length tips)%nat then Return tips
          else scan_lines rest tips seen
  end.

Fixpoint scan_outputs (raw_outputs : list string) (tips : list string)
    (seen : gset string) : list string :=
  match raw_outputs with
  | [] => tips
  | t :: rest =>
      let clean := PyStr.strip t in
      match scan_lines (PyStr.splitlines clean) tips seen with
      | Return tips => tips
      | Continue tips seen => scan_outputs rest tips seen
      end
  end.

Definition select_best_tips (raw_outputs : list string) : list string :=
  scan_outputs raw_outputs [] ∅.

Definition high_tips : list string :=
  ["Take 5 deep breaths and go for a short walk to reduce immediate stress.";
   "Try a grounding exercise: name 5 things you can see, 4 you can touch.";
   "Limit screen time for 30 minutes to lower cognitive overload."].

Definition moderate_tips : list string :=
  ["Write down one worry and schedule a 10-minute worry window later.";
   "Journal for 5 minutes to externalize anxious thoughts.";
   "Set a small achievable goal for the next hour to regain control."].

Definition low_tips : list string :=
  ["Reflect on one recent success to reinforce positive momentum.";
   "Maintain consistent sleep by going to bed 15 minutes earlier tonight.";
   "Take time to plan tomorrow so you start with clarity."].

Section Endpoints.

(** [str(x)] of a number inside an f-string. *)
Variable render : Q -> string.

(** The text generator on a prompt: [None] when the call raises,
    otherwise the returned entries, each with its [generated_text]
    when it has one. *)
Variable generator : string -> option (list (option string)).

Definition examples : string :=
  nl
  +:+ "Example 1:" +:+ nl
  +:+ "Anxiety: 2/10; Sleep: 8h; Energy: 7/10; Mood: 6/10; Triggers: Social; Trend: Mon:3, Tue:4, Wed:3, Thu:2, Fri:3, Sat:2, Sun:3." +:+ nl
  +:+ "Tip: Keep up the routine and schedule a short mindfulness break on days anxiety tends to rise." +:+ nl
  +:+ nl
  +:+ "Example 2:" +:+ nl
  +:+ "Anxiety: 8/10; Sleep: 4h; Energy: 3/10; Mood: 2/10; Triggers: Work, Deadline pressure; Trend: Mon:7, Tue:8, Wed:7, Thu:6, Fri:7, Sat:5, Sun:4." +:+ nl
  +:+ "Tip: Break your work into 25-minute focused sprints with 5-minute breaks to reduce overwhelm." +:+ nl
  +:+ nl
  +:+ "Example 3:" +:+ nl
  +:+ "Anxiety: 5/10; Sleep: 6h; Energy: 5/10; Mood: 4/10; Triggers: Uncertainty; Trend: Mon:5, Tue:5, Wed:6, Thu:5, Fri:4, Sat:4, Sun:5." +:+ nl
  +:+ "Tip: Write down the top three uncertainties and identify one small action to address each." +:+ nl.

Definition instruction : string :=
  "You are a mental health coach. Based on the latest check-in and weekly anxiety trend, "
  +:+ "provide three distinct, concise, actionable tips (1 sentence each) tailored to their current state. "
  +:+ "Avoid generic or self-referential statements. Format as a numbered list.".

(** The arrow of the source text (U+2192) is written [->] here. *)
Definition build_prompt (req : TipRequest) : string :=
  let weekly :=
    PyStr.join ", "
      (map (fun item => item.1 +:+ ":" +:+ render item.2)
           (weeklyTrend req)) in
  let latest :=
    "Anxiety: " +:+ render (predicted_anxiety req) +:+ "/10; Sleep: "
    +:+ render (sleep req) +:+ "h; Energy: " +:+ render (energy req)
    +:+ "/10; " +:+ "Mood: " +:+ render (mood req) +:+ "/10; Triggers: "
    +:+ PyStr.join ", " (triggers req) +:+ "; Trend: " +:+ weekly +:+ "." in
  instruction +:+ nl +:+ examples +:+ nl +:+ "Latest -> " +:+ latest
  +:+ nl +:+ "Tips:" +:+ nl +:+ "1.".

Definition fallback (score : Q) : list string :=
  if PyNum.geb score 7 then high_tips
  else if PyNum.geb score 4 then moderate_tips
  else low_tips.

Inductive response :=
| Tip (tip : string)
| Tips (tips : list string)
| Http401 (detail : string).

(** The body of the [try] block: [None] when an exception reaches the
    handler. *)
Definition generate_tip (prompt : string) : option string :=
  match generator prompt with
  | None => None
  | Some out =>
      let raw_texts := map (default "") out in
      let selected := select_best_tips raw_texts in
      match selected with
      | [] => None
      | _ => Some (PyStr.join nl (take 3 selected))
      end
  end.

Definition get_tip (req : TipRequest) (x_api_key : option string)
  : response :=
  let api_key := default "" x_api_key in
  if negb (String.eqb api_key VALID_CLIENT_KEY)
  then Http401 "Invalid API key"
  else
    let prompt := build_prompt req in
    match generate_tip prompt with
    | Some tip_text => Tip tip_text
    | None =>
        let tip_text :=
          PyStr.join nl (take 3 (fallback (predicted_anxiety req))) in
        Tip tip_text
    end.

Definition get_tip_batch (req : TipRequest) (x_api_key : option string)
  : response :=
  let api_key := default "" x_api_key in
  if negb (String.eqb api_key VALID_CLIENT_KEY)
  then Http401 "Invalid API key"
  else
    let prompt := build_prompt req in
    match generator prompt with
    | None => Tips []
    | Some out =>
        match select_best_tips (map (default "") out) with
        | [] => Tips []
        | selected => Tips selected
        end
    end.

End Endpoints.

End TipProxy.

(** The parts of the pattern of a trend echo, by name: a day, a separator
    and an item. *)
Module TrendParts.
Import Regex.

Definition day_re : re :=
  AltOf (map Lit ["mon"; "tue"; "wed"; "thu"; "fri"; "sat"; "sun"]).

Definition sep (c : ascii) : bool := PyStr.isspace c || Ascii.eqb c ",".

Definition item_re : re :=
  Cat day_re (Cat (Lit ":") (Cat (Class PyStr.isdigit) (Star (Class sep)))).

End TrendParts.

(** ** A reader of ISO-8601 time stamps

    [read] accepts the shape [YYYY-MM-DDTHH:MM:SS], optionally followed by
    an offset [+HH:MM] or [-HH:MM], and agrees with [datetime.fromisoformat]
    on it.  It is the clock the service is run with on concrete check-ins. *)

Module IsoClock.

Definition digit (c : ascii) : option Z :=
  if PyStr.isdigit c then Some (Z.of_N (PyStr.code c) - 48)%Z else None.

Definition two (a b : ascii) : option Z :=
  x ← digit a; y ← digit b; Some (10 * x + y)%Z.

Definition four (a b c d : ascii) : option Z :=
  x ← two a b; y ← two c d; Some (100 * x + y)%Z.

Definition is_leap (y : Z) : bool :=
  ((y mod 4 =? 0) && (negb (y mod 100 =? 0) || (y mod 400 =? 0)))%Z.

Definition days_in_month (y m : Z) : Z :=
  if (m =? 2)%Z then (if is_leap y then 29 else 28)%Z
  else if ((m =? 4) || (m =? 6) || (m =? 9) || (m =? 11))%Z then 30%Z
  else 31%Z.

(** Days since 1970-01-01 of a date of the proleptic Gregorian calendar. *)
Definition days_from_civil (y m d : Z) : Z :=
  let y' := (if m <=? 2 then y - 1 else y)%Z in
  let era := (y' / 400)%Z in
  let yoe := (y' - era * 400)%Z in
  let mp := (if 2 <? m then m - 3 else m + 9)%Z in
  let doy := ((153 * mp + 2) / 5 + d - 1)%Z in
  let doe := (yoe * 365 + yoe / 4 - yoe / 100 + doy)%Z in
  (era * 146097 + doe - 719468)%Z.

(** 1970-01-01 was a Thursday. *)
Definition weekday_of (y m d : Z) : Z := ((days_from_civil y m d + 3) mod 7)%Z.

Definition offset_ok (rest : list ascii) : bool :=
  match rest with
  | [] => true
  | [sg; h1; h2; col; m1; m2] =>
      (Ascii.eqb sg "+" || Ascii.eqb sg "-") && Ascii.eqb col ":"
      && match two h1 h2, two m1 m2 with
         | Some h, Some m => ((h <? 24) && (m <? 60))%Z
         | _, _ => false
         end
  | _ => false
  end.

Definition read (s : string) : option Serve.datetime :=
  match String.list_ascii_of_string s with
  | y1 :: y2 :: y3 :: y4 :: d1 :: mo1 :: mo2 :: d2 :: da1 :: da2 :: sep
    :: h1 :: h2 :: c1 :: mi1 :: mi2 :: c2 :: s1 :: s2 :: rest =>
      y ← four y1 y2 y3 y4;
      mo ← two mo1 mo2;
      da ← two da1 da2;
      h ← two h1 h2;
      mi ← two mi1 mi2;
      se ← two s1 s2;
      if Ascii.eqb d1 "-" && Ascii.eqb d2 "-" && Ascii.eqb sep "T"
         && Ascii.eqb c1 ":" && Ascii.eqb c2 ":"
         && ((1 <=? y) && (1 <=? mo) && (mo <=? 12) && (1 <=? da)
             && (da <=? days_in_month y mo)
             && (h <? 24) && (mi <? 60) && (se <? 60))%Z
         && offset_ok rest
      then Some {| Serve.hour := h; Serve.weekday := weekday_of y mo da |}
      else None
  | _ => None
  end.

End IsoClock.

(** ** The statements of the specification, as functions *)

Module Spec.

(** The ten keys of the mapping of the notes featurizer, and the keys of
    the time features. *)
Definition note_keys : list string :=
  Train.NOTE_NUMERIC ++ Train.NOTE_KEYWORDS.
Definition time_keys : list string :=
  ["hour"; "is_weekend"; "dow_sin"; "dow_cos"; "hour_sin"; "hour_cos"].


(** The first occurrence of every element is kept. *)
Fixpoint distinct (seen l : list string) : list string :=
  match l with
  | [] => []
  | x :: l' =>
      if PyStr.mem x seen then distinct seen l'
      else x :: distinct (x :: seen) l'
  end.

Definition positive : list string :=
  ["calm"; "better"; "rested"; "relaxed"; "improved"; "ok"; "good"; "great"].
Definition negative : list string :=
  ["anxious"; "panic"; "stressed"; "overwhelmed"; "tired"; "exhausted";
   "worried"; "nervous"; "insomnia"].

Definition count_in (lexicon tokens : list string) : Z :=
  Z.of_nat (length (filter (fun w => PyStr.mem w lexicon) tokens)).

Definition clamp (lo hi x : Q) : Q :=
  if Qle_bool x lo then lo else if Qle_bool hi x then hi else x.

(** The sentiment of a note over its distinct tokens, each cleaned by
    [clean] and lowered. *)
Definition sentiment_with (clean : string -> string) (text : string) : Q :=
  if PyStr.is_empty text then 0
  else
    let tokens :=
      distinct [] (map (fun w => PyStr.lower (clean w)) (PyStr.split text)) in
    clamp (-1) 1
          (inject_Z (count_in positive tokens - count_in negative tokens) / 5).


(** Punctuation stripped at both ends of a token. *)
Definition sentiment_both_ends : string -> Q :=
  sentiment_with (PyStr.strip_chars ".,!?").

(** The lines of a text.  A line ends at a line boundary, which is not
    part of it; a carriage return followed by a line feed is one boundary;
    a text that ends with a boundary has no empty last line. *)
Fixpoint lines (s : string) : list string :=
  match s with
  | EmptyString => []
  | String c s' =>
      if PyStr.islinebreak c then
        match s' with
        | String d s'' =>
            if (PyStr.code c =? 13)%N && (PyStr.code d =? 10)%N
            then EmptyString :: lines s''
            else EmptyString :: lines s'
        | EmptyString => [EmptyString]
        end
      else
        match lines s' with
        | [] => [String c EmptyString]
        | l :: ls => String c l :: ls
        end
  end.

(** The lines of all the candidates, each trimmed, in order. *)
Definition candidate_lines (raw_outputs : list string) : list string :=
  flat_map (fun t => lines (PyStr.strip t)) raw_outputs.

(** The longest prefix of [s] made of characters of the class [p], and
    what follows it. *)
Fixpoint span (p : ascii -> bool) (s : string) : string * string :=
  match s with
  | EmptyString => (EmptyString, EmptyString)
  | String c s' =>
      if p c then let (a, b) := span p s' in (String c a, b)
      else (EmptyString, s)
  end.

(** A line without its leading number: a run of digits followed by [.] or
    [)] is dropped with the whitespace after it.  A line that does not
    start this way is left as it is, a bullet such as [-] or [*]
    included. *)
Definition unnumbered (line : string) : string :=
  match span PyStr.isdigit line with
  | (String _ _, String mark rest) =>
      if Ascii.eqb mark "." || Ascii.eqb mark ")"
      then (span PyStr.isspace rest).2
      else line
  | _ => line
  end.

(** A line trimmed and without its leading number. *)
Definition clean_line (line : string) : string :=
  unnumbered (PyStr.strip line).

Definition days : list string :=
  ["mon"; "tue"; "wed"; "thu"; "fri"; "sat"; "sun"].

(** What follows the prefix [p] of [s], when [s] starts with [p]. *)
Fixpoint after_prefix (p s : string) : option string :=
  match p, s with
  | EmptyString, _ => Some s
  | String a p', String b s' =>
      if Ascii.eqb a b then after_prefix p' s' else None
  | String _ _, EmptyString => None
  end.

(** A score of one digit, and a score of one digit or more: what follows
    the score at the start of [s]. *)
Definition one_digit (s : string) : option string :=
  match s with
  | String d rest => if PyStr.isdigit d then Some rest else None
  | EmptyString => None
  end.


(** What follows the first item of a trend, when [s] starts with one: the
    three letters of a day, a colon, a score, and any run of whitespace
    and commas. *)
Definition after_item (score : string -> option string) (s : string)
  : option string :=
  match s with
  | String a (String b (String c (String colon rest))) =>
      if PyStr.mem (String a (String b (String c EmptyString))) days
         && Ascii.eqb colon ":"
      then
        match score rest with
        | Some rest =>
            Some (span (fun c => PyStr.isspace c || Ascii.eqb c ",") rest).2
        | None => None
        end
      else None
  | _ => None
  end.

(** Whether [s] is one item of a trend or more and nothing else; [fuel]
    bounds the number of items. *)
Fixpoint items (score : string -> option string) (fuel : nat) (s : string)
  : bool :=
  match fuel with
  | O => false
  | S fuel =>
      match after_item score s with
      | Some rest => PyStr.is_empty rest || items score fuel rest
      | None => false
      end
  end.

(** A list of day and score items, case being ignored, after an optional
    heading [tip:] or [tips:] and the whitespace that follows it. *)
Definition day_score_list (score : string -> option string) (line : string)
  : bool :=
  let low := PyStr.lower line in
  let body :=
    match after_prefix "tips:" low, after_prefix "tip:" low with
    | Some rest, _ => (span PyStr.isspace rest).2
    | None, Some rest => (span PyStr.isspace rest).2
    | None, None => low
    end in
  items score (String.length body) body.

(** The trend echo that the filter discards: the scores have one digit. *)
Definition is_trend_echo (line : string) : bool :=
  day_score_list one_digit line.


Definition is_input_echo (line : string) : bool :=
  PyStr.contains "anxiety:" (PyStr.lower line)
  && PyStr.contains "sleep:" (PyStr.lower line)
  && PyStr.contains "mood:" (PyStr.lower line).

(** The verbs that make a [tips:] line a tip. *)
Definition verbs : list string :=
  ["try"; "take"; "do"; "journal"; "walk"; "breathe"; "reflect"; "plan";
   "schedule"; "pause"; "break"; "focus"; "stretch"; "meditate"].

Definition is_verbless_tips (line : string) : bool :=
  PyStr.startswith "tips:" (PyStr.lower line)
  && forallb (fun verb => negb (PyStr.contains verb (PyStr.lower line)))
             verbs.

Definition discarded (line : string) : bool :=
  PyStr.is_empty line || is_trend_echo line || is_input_echo line
  || is_verbless_tips line || (length (PyStr.split line) <? 5)%nat.

(** The first occurrence of every line is kept, lines being compared
    without regard to case. *)
Fixpoint distinct_nocase (seen l : list string) : list string :=
  match l with
  | [] => []
  | x :: l' =>
      if PyStr.mem (PyStr.lower x) seen then distinct_nocase seen l'
      else x :: distinct_nocase (PyStr.lower x :: seen) l'
  end.

(** The lowered lines seen once the lines of [l] are gone through. *)
Definition seen_after (seen l : list string) : list string :=
  rev (map PyStr.lower (distinct_nocase seen l)) ++ seen.

Definition kept_lines (lines : list string) : list string :=
  filter (fun line => negb (discarded line)) (map clean_line lines).

Definition select_tips (raw_outputs : list string) : list string :=
  take 3 (distinct_nocase [] (kept_lines (candidate_lines raw_outputs))).

End Spec.

(** ** Sample inputs *)

Module Sample.

Definition check_in : Serve.CheckInEntry :=
  {| Serve.sleep := 6;
     Serve.energy := 5;
     Serve.mood := 3;
     Serve.anxiety_7d_avg := 4.5;
     Serve.triggers := Serve.TrigList ["Work"; "Sleep deprivation"];
     Serve.timestamp := "2025-08-01T10:12:00Z";
     Serve.notes := Some "Felt anxious at work today" |}.

Definition calmer_check_in : Serve.CheckInEntry :=
  {| Serve.sleep := 6;
     Serve.energy := 5;
     Serve.mood := 7;
     Serve.anxiety_7d_avg := 4.5;
     Serve.triggers := Serve.TrigList ["Work"; "Sleep deprivation"];
     Serve.timestamp := "2025-08-02T22:30:00Z";
     Serve.notes := None |}.

Definition expanded_triggers : list string :=
  ["trigger_work"; "trigger_sleep"; "trigger_social"].

Definition tip_request : TipProxy.TipRequest :=
  {| TipProxy.predicted_anxiety := 8;
     TipProxy.sleep := 4;
     TipProxy.energy := 3;
     TipProxy.mood := 2;
     TipProxy.triggers := ["Work"];
     TipProxy.weeklyTrend := [("Mon", 7%Q); ("Tue", 8%Q)] |}.

(** The binary64 numbers written [0.05], [0.35] and [1e-17]. *)
Definition double_0_05 : Q := 3602879701896397 # 72057594037927936.
Definition double_0_35 : Q := 3152519739159347 # 9007199254740992.
Definition double_1e_17 : Q :=
  6490371073168535 # 649037107316853453566312041152512.



(** Models whose raw output does not depend on the row. *)
Definition constant_model (raw : F64.float) (row : gmap string Serve.value)
  : string + F64.float := inr raw.

(** A generator that is out of order. *)
Definition failing_generator (prompt : string) : option (list (option string)) :=
  None.

(** A rendering of numbers that is good enough to run the endpoints. *)
Definition render (x : Q) : string := "?".

End Sample.

(** ** Primitive binary64 numbers, to check the rounding against *)

Module Machine.
Import PrimFloat.

(** The numbers written [0.05], [0.35] and [1e-17]. *)
Definition double_0_05 : float := 0x1.999999999999ap-5%float.
Definition double_0_35 : float := 0x1.6666666666666p-2%float.
Definition double_1e_17 : float := 0x1.70ef54646d497p-57%float.


(** Numbers of all sizes, subnormal numbers included. *)
Definition samples : list float :=
  [0%float; 1%float; 3%float; 10%float; 100%float;
   double_0_05; double_0_35; double_1e_17;
   0x1.d99999999999ap+1%float; 0x1.c666666666666p+3%float;
   0x1.999999999999ap-4%float; 0x1.3333333333333p-2%float;
   0x1.3333333333333p-3%float; 0x1.5666666666666p+1%float;
   0x1.3e66666666666p+3%float; 0x1.2p+2%float;
   0x1.56e1fc2f8f359p-997%float; 0x0.012688b70e62bp-1022%float;
   0x0.0000000000001p-1022%float; 0x1.1c37937e08p+53%float;
   0x1.d6f34547df3b6p+26%float; 0x1.7e43c8800759cp+996%float;
   (- 0x1.d99999999999ap+1)%float; (- 0x1.3333333333333p-3)%float].

(** Whether an operation on two floats with a finite result agrees with
    the exact operation followed by [F64.round]. *)
Definition agrees (op : float -> float -> float) (exact : Q -> Q -> Q)
    (a b : float) : bool :=
  match F64.of_prim a, F64.of_prim b, F64.of_prim (op a b) with
  | F64.Finite x, F64.Finite y, F64.Finite z =>
      Qeq_bool (F64.round (exact x y)) z
  | _, _, _ => true
  end.

(** The two operations of serve.py, on every sample. *)
Definition agrees_on_samples : bool :=
  forallb (fun x => agrees sub Qminus 10 x && agrees mul Qmult x 10) samples.

End Machine.

(** ** serve.py : loading the bundle when the module is imported *)

Module Startup.
Import Bundle.

(** What the module keeps of a bundle: the pipeline and the two lists of
    the manifest. *)
Record loaded := {
  pipeline : pyval;
  numeric_features : pyval;
  trigger_features : pyval
}.

(** [model_file] is the content of [anxiety_model.pkl], [None] when the
    file does not exist; the left injection is the message of the
    [RuntimeError]. *)
Definition load (model_file : option (gmap string pyval)) : string + loaded :=
  match model_file with
  | None =>
      inl "Model file not found at anxiety_model.pkl. Run train_model.py first."
  | Some bundle =>
      match get bundle "pipeline" with
      | PyNone =>
          inl "Model bundle is missing 'pipeline'. Did training succeed?"
      | pipeline =>
          inr {| pipeline := pipeline;
                 numeric_features := Serve.numeric_features_of bundle;
                 trigger_features := Serve.trigger_features_of bundle |}
      end
  end.

End Startup.

(** ** train_model.py : cleaning of the trigger cells and splitting *)

Module TrainClean.

(** A cell of the [triggers] column: a list, a missing value, or a string. *)
Inductive cell :=
| CList (l : list string)
| CMissing
| CStr (s : string).

(** [to_str] of [clean]; [str] of a string is the string. *)
Definition to_str (x : cell) : string :=
  match x with
  | CList l => PyStr.join "," (map (fun s => s) l)
  | CMissing => ""
  | CStr s => s
  end.

End TrainClean.

Module TrainSplit.

Section Split.

(** A row of the frame; the features [X] and the target [y] of a row are
    read from it, so a list of rows stands for both. *)
Variable R : Type.

Record frame := {
  has_user_id : bool;
  has_timestamp : bool;
  rows : list R
}.

(** [gss.split(X, y, groups)] : the splits it yields, each a pair of the
    train and the test positions, or the message of the exception it
    raises. *)
Variable group_shuffle_split : list R -> string + list (list nat * list nat).

(** [df.sort_values("timestamp")] on the rows. *)
Variable sort_values : list R -> list R.

(** [train_test_split(X, y, test_size=0.2, random_state=42)] : the two
    parts, or [None] when it raises. *)
Variable train_test_split : list R -> option (list R * list R).

(** [X.iloc[positions]] : [None] when a position is out of range. *)
Definition iloc (X : list R) (positions : list nat) : option (list R) :=
  mapM (fun i => X !! i) positions.

(** [max(1, int(0.2 * n))] *)
Definition holdout (n : Z) : Z :=
  Z.max 1 (Qfloor ((2 # 10) * inject_Z n)).

(** The first split whose test part is not empty. *)
Definition first_usable (splits : list (list nat * list nat))
  : option (list nat * list nat) :=
  List.find (fun split => (0 <? length split.2)%nat) splits.

Definition slice_split (X : list R) (n te : Z) : list R * list R :=
  (take (Z.to_nat (n - te)) X, drop (Z.to_nat (n - te)) X).

(** The last two strategies: the random split and the manual slice. *)
Definition split_fallbacks (X : list R) : string + (list R * list R) :=
  let random :=
    match train_test_split X with
    | Some (X_tr, X_te) =>
        if (0 <? length X_te)%nat then Some (X_tr, X_te) else None
    | None => None
    end in
  match random with
  | Some parts => inr parts
  | None =>
      let n := Z.of_nat (length X) in
      let te := holdout n in
      if (n - te <=? 0)%Z then inl "Not enough rows to split dataset."
      else inr (slice_split X n te)
  end.

(** The strategies that follow the grouped split. *)
Definition split_ungrouped (df : frame) : string + (list R * list R) :=
  let X := rows df in
  let timed :=
    if has_timestamp df then
      let X2 := sort_values X in
      let n := Z.of_nat (length X2) in
      let te := holdout n in
      if (0 <? n - te)%Z then Some (slice_split X2 n te) else None
    else None in
  match timed with
  | Some parts => inr parts
  | None => split_fallbacks X
  end.

Definition split_data (df : frame) : string + (list R * list R) :=
  let X := rows df in
  if has_user_id df then
    match group_shuffle_split X with
    | inl e => inl e
    | inr splits =>
        match first_usable splits with
        | Some (tr, te) =>
            match iloc X tr, iloc X te with
            | Some X_tr, Some X_te => inr (X_tr, X_te)
            | _, _ => inl "positional indexers are out-of-bounds"
            end
        | None => split_ungrouped df
        end
    end
  else split_ungrouped df.

End Split.

End TrainSplit.

(** ** generate_static_tips.py *)

Module StaticTips.

(** The three phrases; [phrase level action duration] is
    [anxiety_phrases[level].format(action=action, duration=duration)].  The
    dash of the first phrase (U+2014) is written [--]. *)
Definition phrase (level action duration : string) : string :=
  if String.eqb level "high" then
    "Your anxiety is high--try " +:+ action +:+ " for " +:+ duration +:+ "."
  else if String.eqb level "moderate" then
    "You seem moderately anxious; consider " +:+ action
    +:+ " to reset for " +:+ duration +:+ "."
  else
    "You're doing well; maintain momentum with " +:+ action +:+ " for "
    +:+ duration +:+ ".".

Definition actions : list string :=
  ["a 5-minute breathing exercise";
   "journaling for 5 minutes";
   "a short walk outside";
   "a quick body scan";
   "connecting with a friend";
   "limiting screen time for a bit";
   "drinking a full glass of water and pausing";
   "setting a small achievable goal";
   "doing the box breath (4-4-4-4)";
   "reflecting on one positive thing from today"].

Definition durations : list string :=
  ["5 minutes"; "10 minutes"; "a short moment"; "a mindful pause";
   "a brief break"].

Definition all_tips : list string :=
  flat_map (fun level =>
    flat_map (fun action =>
      map (fun duration => phrase level action duration) durations)
      actions)
    ["high"; "moderate"; "low"].

(** The loop that removes repeats and stops at [limit] tips: the test of
    the length follows every item, kept or not. *)
Fixpoint dedupe (limit : nat) (tips : list string)
    (seen : gset string) (unique_tips : list string) : list string :=
  match tips with
  | [] => unique_tips
  | t :: rest =>
      let seen' := if bool_decide (t ∈ seen) then seen else {[ t ]} ∪ seen in
      let unique' := if bool_decide (t ∈ seen) then unique_tips
                     else unique_tips ++ [t] in
      if (limit <=? length unique')%nat then unique'
      else dedupe limit rest seen' unique'
  end.

Definition generate_tips : list string := dedupe 200 all_tips ∅ [].

End StaticTips.

(** ** Shapes of texts *)

Module Text.

(** Every character of the text satisfies [p]. *)
Fixpoint every (p : ascii -> bool) (s : string) : bool :=
  match s with
  | EmptyString => true
  | String c s' => p c && every p s'
  end.

(** The text holds whitespace only (it may be empty). *)
Definition blank (s : string) : bool := every PyStr.isspace s.

(** The text does not hold the character [c]. *)
Definition free_of (c : ascii) (s : string) : bool :=
  every (fun d => negb (Ascii.eqb d c)) s.

End Text.

(** ** Shapes of feature rows *)

Module RowShape.

(** Every key of the row is a column of the manifest. *)
Definition keys_within (numeric_features trigger_features : list string)
    (row : gmap string Serve.value) : Prop :=
  forall k, is_Some (row !! k) -> k ∈ numeric_features \/ k ∈ trigger_features.

(** The two check-ins differ in their triggers at most. *)
Definition same_but_triggers (e1 e2 : Serve.CheckInEntry) : Prop :=
  Serve.sleep e1 = Serve.sleep e2
  /\ Serve.energy e1 = Serve.energy e2
  /\ Serve.mood e1 = Serve.mood e2
  /\ Serve.anxiety_7d_avg e1 = Serve.anxiety_7d_avg e2
  /\ Serve.timestamp e1 = Serve.timestamp e2
  /\ Serve.notes e1 = Serve.notes e2.

(** The cell that the cleaning step of the trainer sees for the triggers
    of a check-in. *)
Definition cell_of (t : Serve.trigger_field) : TrainClean.cell :=
  match t with
  | Serve.TrigList l => TrainClean.CList l
  | Serve.TrigStr s => TrainClean.CStr s
  end.

End RowShape.

(** * Properties *)

(** ** The notes featurizer at training and at serving time *)

Section NotesAgreement.

Lemma lexicons_agree :
  Serve._POS = Train._POS /\ Serve._NEG = Train._NEG.
Proof. split; reflexivity. Qed.

Lemma sentiment_agree text :
  Serve._simple_sentiment text = Train._simple_sentiment text.
Proof.
  unfold Serve._simple_sentiment, Train._simple_sentiment.
  destruct (PyStr.is_empty text); [reflexivity|].
  unfold Serve.hits, Train.hits.
  destruct lexicons_agree as [-> ->]. reflexivity.
Qed.

Lemma serve_notes_keys text k :
  is_Some (Serve.notes_featurize text !! k) <-> k ∈ Spec.note_keys.
Proof.
  unfold Serve.notes_featurize. cbv zeta.
  rewrite <- elem_of_dom, dom_list_to_map_L. cbn [map fst list_to_set].
  unfold Spec.note_keys, Train.NOTE_NUMERIC, Train.NOTE_KEYWORDS.
  cbn [app]. set_solver.
Qed.

End NotesAgreement.

(** C1.  The featurizer of [serve.py] and the featurizer of
    [train_model.py] return the same mapping, keys and values, on every
    text, absent and empty text included. *)
Theorem C1_notes_featurize_serve_eq_train (text : option string) :
  Serve.notes_featurize text = Train.notes_featurize text.
Proof.
  apply map_eq. intros k.
  unfold Serve.notes_featurize, Train.notes_featurize. cbv zeta.
  rewrite sentiment_agree.
  cbn [list_to_map foldr uncurry fst snd].
  rewrite !lookup_insert.
  repeat (case_decide; [subst k; reflexivity|]).
  reflexivity.
Qed.

(** ** The manifest of a bundle *)

Section Manifest.
Import Bundle.

Lemma py_or_truthy a b : truthy a = true -> py_or a b = a.
Proof. unfold py_or. intros ->. reflexivity. Qed.

Lemma py_or_falsy a b : truthy a = false -> py_or a b = b.
Proof. unfold py_or. intros ->. reflexivity. Qed.

Lemma truthy_list l : l <> [] -> truthy (PyList l) = true.
Proof. destruct l; [congruence | reflexivity]. Qed.

Lemma get_lookup (bundle : gmap string pyval) key v :
  bundle !! key = Some v -> get bundle key = v.
Proof. unfold get. intros ->. reflexivity. Qed.

End Manifest.

(** C6, as stated, fails: a bundle with a pipeline that declares an empty
    list under [numeric_features] loads, and the service keeps the legacy
    default list, not the declared one. *)
Lemma C6_counterexample_empty_declared_list :
  exists (bundle : gmap string Bundle.pyval) (l : list string)
         (st : Startup.loaded),
    bundle !! "numeric_features" = Some (Bundle.PyList l)
    /\ Startup.load (Some bundle) = inr st
    /\ Startup.numeric_features st
       = Bundle.PyList ["sleep"; "energy"; "mood"; "anxiety_7d_avg"]
    /\ Startup.numeric_features st <> Bundle.PyList l.
Proof.
  exists (<["pipeline" := Bundle.PyObject]>
          (<["numeric_features" := Bundle.PyList []]>
           (<["trigger_features" := Bundle.PyList ["triggers"]]> ∅))), [].
  eexists. split; [reflexivity|]. split; [reflexivity|].
  split; [reflexivity|]. vm_compute. discriminate.
Qed.

(** C6, amended.  For every bundle that loads, the manifest of the service
    is the list the bundle declares under [numeric_features] (under
    [trigger_features]) whenever that list is not empty; when the entry is
    absent, [None] or empty, the entry of the older key [numeric]
    ([trigger_cols]) is taken if it is a non-empty list, and the legacy
    default list only when both are absent, [None] or empty. *)
Theorem C6_manifest_from_bundle
    (bundle : gmap string Bundle.pyval) (st : Startup.loaded) :
  Startup.load (Some bundle) = inr st ->
  (forall l, bundle !! "numeric_features" = Some (Bundle.PyList l) -> l <> [] ->
             Startup.numeric_features st = Bundle.PyList l)
  /\ (forall l, bundle !! "trigger_features" = Some (Bundle.PyList l) -> l <> [] ->
                Startup.trigger_features st = Bundle.PyList l)
  /\ (forall l, Bundle.truthy (Bundle.get bundle "numeric_features") = false ->
                bundle !! "numeric" = Some (Bundle.PyList l) -> l <> [] ->
                Startup.numeric_features st = Bundle.PyList l)
  /\ (forall l, Bundle.truthy (Bundle.get bundle "trigger_features") = false ->
                bundle !! "trigger_cols" = Some (Bundle.PyList l) -> l <> [] ->
                Startup.trigger_features st = Bundle.PyList l)
  /\ (Bundle.truthy (Bundle.get bundle "numeric_features") = false ->
      Bundle.truthy (Bundle.get bundle "numeric") = false ->
      Startup.numeric_features st
      = Bundle.PyList ["sleep"; "energy"; "mood"; "anxiety_7d_avg"])
  /\ (Bundle.truthy (Bundle.get bundle "trigger_features") = false ->
      Bundle.truthy (Bundle.get bundle "trigger_cols") = false ->
      Startup.trigger_features st = Bundle.PyList ["triggers"]).
Proof.
  intros Hload.
  assert (Hst : Startup.numeric_features st = Serve.numeric_features_of bundle
                /\ Startup.trigger_features st
                   = Serve.trigger_features_of bundle).
  { unfold Startup.load in Hload.
    destruct (Bundle.get bundle "pipeline"); try discriminate Hload;
      injection Hload as <-; split; reflexivity. }
  destruct Hst as [-> ->].
  unfold Serve.numeric_features_of, Serve.trigger_features_of.
  repeat split.
  - intros l Hl Hne. rewrite (get_lookup _ _ _ Hl).
    rewrite !(py_or_truthy (Bundle.PyList l)) by (apply truthy_list, Hne).
    reflexivity.
  - intros l Hl Hne. rewrite (get_lookup _ _ _ Hl).
    rewrite !(py_or_truthy (Bundle.PyList l)) by (apply truthy_list, Hne).
    reflexivity.
  - intros l Hf Hl Hne. rewrite (py_or_falsy _ _ Hf).
    rewrite (get_lookup _ _ _ Hl). apply py_or_truthy, truthy_list, Hne.
  - intros l Hf Hl Hne. rewrite (py_or_falsy _ _ Hf).
    rewrite (get_lookup _ _ _ Hl). apply py_or_truthy, truthy_list, Hne.
  - intros H1 H2. rewrite (py_or_falsy _ _ H1). apply py_or_falsy, H2.
  - intros H1 H2. rewrite (py_or_falsy _ _ H1). apply py_or_falsy, H2.
Qed.

Lemma C6_manifest_from_bundle_witness :
  exists st,
    Startup.load
      (Some (TrainMain.bundle "2025-08-01T10:12:00" 800 200 0.5 0.7 0.9))
    = inr st
    /\ Startup.numeric_features st = Bundle.PyList Train.NUMERIC_FEATURES.
Proof.
  eexists. split; [reflexivity|].
  apply (proj1 (C6_manifest_from_bundle
                  (TrainMain.bundle "2025-08-01T10:12:00" 800 200 0.5 0.7 0.9)
                  _ eq_refl)).
  - reflexivity.
  - discriminate.
Defined.

(** C10.  Whatever the run, the bundle written by the trainer declares the
    fourteen numeric columns and the single [triggers] column; the service
    derives that very manifest from it and encodes the triggers as one
    string, never as [trigger_] flags. *)
Theorem C10_trainer_manifest_fixed
    (trained_at : string) (n_train n_test : Z) (mae rmse r2 : Q) :
  let b := TrainMain.bundle trained_at n_train n_test mae rmse r2 in
  let numeric :=
    ["sleep"; "energy"; "mood"; "anxiety_7d_avg"; "notes_len"; "notes_words";
     "notes_sentiment"; "kw_work"; "kw_school"; "kw_exam"; "kw_sleep";
     "kw_social"; "kw_finance"; "kw_health"] in
  b !! "numeric_features" = Some (Bundle.PyList numeric)
  /\ b !! "trigger_features" = Some (Bundle.PyList ["triggers"])
  /\ length numeric = 14%nat
  /\ Serve.numeric_features_of b = Bundle.PyList numeric
  /\ Serve.trigger_features_of b = Bundle.PyList ["triggers"]
  /\ (forall entry row,
        Serve.add_triggers ["triggers"] entry row
        = <["triggers" :=
              Serve.VStr match Serve.triggers entry with
                         | Serve.TrigList l => PyStr.join "," l
                         | Serve.TrigStr s => s
                         end]> row).
Proof.
  cbv zeta. repeat split.
Qed.

(** ** The fallback of the tip endpoint *)

Section Fallback.
Variable render : Q -> string.
Variable generator : string -> option (list (option string)).

Lemma generate_tip_fails req :
  generator (TipProxy.build_prompt render req) = None
  \/ (exists out,
        generator (TipProxy.build_prompt render req) = Some out
        /\ TipProxy.select_best_tips (map (default "") out) = []) ->
  TipProxy.generate_tip generator (TipProxy.build_prompt render req) = None.
Proof.
  unfold TipProxy.generate_tip.
  intros [-> | (out & -> & ->)]; reflexivity.
Qed.

Lemma get_tip_fallback req :
  TipProxy.generate_tip generator (TipProxy.build_prompt render req) = None ->
  TipProxy.get_tip render generator req (Some TipProxy.VALID_CLIENT_KEY)
  = TipProxy.Tip
      (PyStr.join TipProxy.nl
         (TipProxy.fallback (TipProxy.predicted_anxiety req))).
Proof.
  unfold TipProxy.get_tip. cbn [default].
  rewrite String.eqb_refl. cbn [negb]. intros ->.
  unfold TipProxy.fallback.
  repeat destruct (PyNum.geb _ _); reflexivity.
Qed.

End Fallback.

(** C7.  With a valid key, when the generator raises or the filter keeps no
    line, the single-shot endpoint answers (it does not raise) with the three
    lines of the static set chosen by the score: the high set from 7 up, the
    moderate set from 4 up, the low set below; each set has three fixed
    strings, joined in their order.  At a score of 8 the answer is the three
    high-anxiety strings. *)
Theorem C7_fallback_static_tips
    (render : Q -> string)
    (generator : string -> option (list (option string)))
    (req : TipProxy.TipRequest) :
  generator (TipProxy.build_prompt render req) = None
  \/ (exists out,
        generator (TipProxy.build_prompt render req) = Some out
        /\ TipProxy.select_best_tips (map (default "") out) = []) ->
  let score := TipProxy.predicted_anxiety req in
  let answer :=
    TipProxy.get_tip render generator req (Some TipProxy.VALID_CLIENT_KEY) in
  (7 <= score -> answer = TipProxy.Tip (PyStr.join TipProxy.nl TipProxy.high_tips))%Q
  /\ (4 <= score -> score < 7 ->
      answer = TipProxy.Tip (PyStr.join TipProxy.nl TipProxy.moderate_tips))%Q
  /\ (score < 4 ->
      answer = TipProxy.Tip (PyStr.join TipProxy.nl TipProxy.low_tips))%Q
  /\ (score == 8 ->
      answer
      = TipProxy.Tip
          ("Take 5 deep breaths and go for a short walk to reduce immediate stress."
           +:+ TipProxy.nl
           +:+ "Try a grounding exercise: name 5 things you can see, 4 you can touch."
           +:+ TipProxy.nl
           +:+ "Limit screen time for 30 minutes to lower cognitive overload."))%Q
  /\ length TipProxy.high_tips = 3%nat
  /\ length TipProxy.moderate_tips = 3%nat
  /\ length TipProxy.low_tips = 3%nat.
Proof.
  intros Hfail score answer.
  assert (Hans : answer
                 = TipProxy.Tip (PyStr.join TipProxy.nl (TipProxy.fallback score))).
  { apply get_tip_fallback, generate_tip_fails, Hfail. }
  rewrite Hans. unfold TipProxy.fallback, PyNum.geb.
  repeat split.
  - intros H7. apply Qle_bool_iff in H7. rewrite H7. reflexivity.
  - intros H4 H7. apply Qle_bool_iff in H4. rewrite H4.
    destruct (Qle_bool 7 score) eqn:E; [|reflexivity].
    apply Qle_bool_iff in E. exfalso. apply (Qlt_not_le _ _ H7 E).
  - intros H4.
    destruct (Qle_bool 7 score) eqn:E7.
    { apply Qle_bool_iff in E7. exfalso.
      apply (Qlt_not_le _ _ H4). apply Qle_trans with 7%Q; [discriminate | exact E7]. }
    destruct (Qle_bool 4 score) eqn:E4; [|reflexivity].
    apply Qle_bool_iff in E4. exfalso. apply (Qlt_not_le _ _ H4 E4).
  - intros H8.
    assert (H7 : Qle_bool 7 score = true).
    { apply Qle_bool_iff. rewrite H8. discriminate. }
    rewrite H7. reflexivity.
Qed.

Lemma C7_fallback_static_tips_witness :
  TipProxy.get_tip Sample.render Sample.failing_generator Sample.tip_request
                   (Some TipProxy.VALID_CLIENT_KEY)
  = TipProxy.Tip (PyStr.join TipProxy.nl TipProxy.high_tips).
Proof.
  apply (proj1 (C7_fallback_static_tips
                  Sample.render Sample.failing_generator Sample.tip_request
                  (or_introl eq_refl))).
  vm_compute. discriminate.
Defined.

(** ** Clamping and rounding of the prediction *)

Section Rounding.
Local Open Scope Q_scope.

Lemma ltb_lt a b : PyNum.ltb a b = true <-> a < b.
Proof.
  unfold PyNum.ltb. rewrite negb_true_iff.
  destruct (Qle_bool b a) eqn:E.
  - apply Qle_bool_iff in E. split; [discriminate | intros H; lra].
  - split; [intros _ | reflexivity].
    destruct (Qlt_le_dec a b) as [H | H]; [exact H|].
    apply Qle_bool_iff in H. congruence.
Qed.

Lemma ltb_ge a b : PyNum.ltb a b = false <-> b <= a.
Proof.
  rewrite <- not_true_iff_false, ltb_lt. split; intros H.
  - destruct (Qlt_le_dec a b); [contradiction | assumption].
  - lra.
Qed.





Lemma inject_Z_succ f : inject_Z (f + 1) == inject_Z f + 1.
Proof. rewrite inject_Z_plus. reflexivity. Qed.

(** The rounded integer is within one half of the number. *)
Lemma rint_near x :
  inject_Z (F64.rint x) - (1 # 2) <= x <= inject_Z (F64.rint x) + (1 # 2).
Proof.
  unfold F64.rint. cbv zeta.
  pose proof (Qfloor_le x) as Hlo. pose proof (Qlt_floor x) as Hhi.
  rewrite inject_Z_succ in Hhi.
  destruct (PyNum.ltb (x - inject_Z (Qfloor x)) (1 # 2)) eqn:E1;
    [apply ltb_lt in E1; lra | apply ltb_ge in E1].
  destruct (PyNum.ltb (1 # 2) (x - inject_Z (Qfloor x))) eqn:E2;
    [apply ltb_lt in E2; rewrite inject_Z_succ; lra | apply ltb_ge in E2].
  destruct (Z.even (Qfloor x)); [lra | rewrite inject_Z_succ; lra].
Qed.

(** Rounding stays between two integers that enclose the number. *)
Lemma rint_between (lo hi : Z) x :
  inject_Z lo <= x <= inject_Z hi -> (lo <= F64.rint x <= hi)%Z.
Proof.
  intros [Hlo Hhi].
  assert (Hf1 : (lo <= Qfloor x)%Z).
  { rewrite <- (Qfloor_Z lo). apply Qfloor_resp_le, Hlo. }
  assert (Hf2 : (Qfloor x <= hi)%Z).
  { rewrite <- (Qfloor_Z hi). apply Qfloor_resp_le, Hhi. }
  pose proof (Qfloor_le x) as Hfl.
  unfold F64.rint. cbv zeta.
  assert (Hup : (1 # 2) <= x - inject_Z (Qfloor x) -> (Qfloor x + 1 <= hi)%Z).
  { intros Hd. destruct (Z.eq_dec (Qfloor x) hi) as [Heq | Hne]; [|lia].
    rewrite Heq in Hd. lra. }
  destruct (PyNum.ltb (x - inject_Z (Qfloor x)) (1 # 2)) eqn:E1;
    [lia | apply ltb_ge in E1].
  specialize (Hup E1).
  destruct (PyNum.ltb (1 # 2) (x - inject_Z (Qfloor x))); [lia|].
  destruct (Z.even (Qfloor x)); lia.
Qed.

(** *** Rounding to the nearest integer, and to binary64 *)

Lemma rint_floor_bounds x : (Qfloor x <= F64.rint x <= Qfloor x + 1)%Z.
Proof.
  unfold F64.rint. cbv zeta.
  repeat match goal with
         | |- context [ if ?b then _ else _ ] => destruct b
         end; lia.
Qed.

Lemma rint_mono x y : x <= y -> (F64.rint x <= F64.rint y)%Z.
Proof.
  intros Hxy.
  pose proof (Qfloor_resp_le _ _ Hxy) as Hf.
  destruct (Z.eq_dec (Qfloor x) (Qfloor y)) as [E | NE].
  - unfold F64.rint. cbv zeta. rewrite <- E.
    destruct (PyNum.ltb (x - inject_Z (Qfloor x)) (1 # 2)) eqn:X1;
      [apply ltb_lt in X1 | apply ltb_ge in X1];
      destruct (PyNum.ltb (y - inject_Z (Qfloor x)) (1 # 2)) eqn:Y1;
      [apply ltb_lt in Y1 | apply ltb_ge in Y1 | apply ltb_lt in Y1
       | apply ltb_ge in Y1];
      destruct (PyNum.ltb (1 # 2) (x - inject_Z (Qfloor x))) eqn:X2;
      [apply ltb_lt in X2 | apply ltb_ge in X2 | apply ltb_lt in X2
       | apply ltb_ge in X2 | apply ltb_lt in X2 | apply ltb_ge in X2
       | apply ltb_lt in X2 | apply ltb_ge in X2];
      destruct (PyNum.ltb (1 # 2) (y - inject_Z (Qfloor x))) eqn:Y2;
      first [apply ltb_lt in Y2 | apply ltb_ge in Y2];
      destruct (Z.even (Qfloor x));
      try lia; exfalso; lra.
  - pose proof (rint_floor_bounds x). pose proof (rint_floor_bounds y). lia.
Qed.

(** *** Powers of two *)

Lemma pow2_pos k : 0 < F64.pow2 k.
Proof. apply Qpower_0_lt. reflexivity. Qed.

Lemma pow2_add a b : F64.pow2 (a + b) == F64.pow2 a * F64.pow2 b.
Proof. apply Qpower_plus. discriminate. Qed.

Lemma pow2_le a b : (a <= b)%Z -> F64.pow2 a <= F64.pow2 b.
Proof. intros H. apply Qpower_le_compat_l; [exact H | discriminate]. Qed.

Lemma pow2_lt_inv a b : F64.pow2 a < F64.pow2 b -> (a < b)%Z.
Proof. intros H. apply (Qpower_lt_compat_l_inv 2); [exact H | reflexivity]. Qed.

Lemma pow2_Z k : (0 <= k)%Z -> F64.pow2 k == inject_Z (2 ^ k).
Proof. intros H. symmetry. apply (Zpower_Qpower 2 k H). Qed.

Lemma pow2_split a b : F64.pow2 a == F64.pow2 (a - b) * F64.pow2 b.
Proof. rewrite <- pow2_add. replace (a - b + b)%Z with a by lia. reflexivity. Qed.

Lemma div_pow2 x q : x / F64.pow2 q == x * F64.pow2 (- q).
Proof.
  unfold Qdiv, F64.pow2. rewrite Qpower_opp. reflexivity.
Qed.

Lemma div_mul_pow2 x q : x / F64.pow2 q * F64.pow2 q == x.
Proof.
  pose proof (pow2_pos q) as Hp. field. intros E. rewrite E in Hp. discriminate.
Qed.

(** *** The binade of a positive number *)

Lemma Qmake_as_product n d : (n # d) * inject_Z (Z.pos d) == inject_Z n.
Proof.
  rewrite Qmake_Qdiv. field. discriminate.
Qed.

Lemma binade_spec x :
  0 < x -> F64.pow2 (F64.binade x) <= x < F64.pow2 (F64.binade x + 1).
Proof.
  intros Hx. destruct x as [n d].
  assert (Hn : (0 < n)%Z) by (unfold Qlt in Hx; simpl in Hx; lia).
  unfold F64.binade. cbn [Qnum Qden].
  set (a := Z.log2 n). set (b := Z.log2 (Z.pos d)).
  destruct (Z.log2_spec n Hn) as [Ha1 Ha2]. fold a in Ha1, Ha2.
  destruct (Z.log2_spec (Z.pos d) eq_refl) as [Hb1 Hb2]. fold b in Hb1, Hb2.
  pose proof (Z.log2_nonneg n) as Ha0. fold a in Ha0.
  pose proof (Z.log2_nonneg (Z.pos d)) as Hb0. fold b in Hb0.
  pose proof (Qmake_as_product n d) as Hnd.
  assert (Hd : 0 < inject_Z (Z.pos d)) by reflexivity.
  rewrite Zle_Qle in Ha1, Hb1. rewrite Zlt_Qlt in Ha2, Hb2.
  rewrite <- (pow2_Z a Ha0) in Ha1. rewrite <- (pow2_Z b Hb0) in Hb1.
  rewrite <- (pow2_Z (Z.succ a)) in Ha2 by lia.
  rewrite <- (pow2_Z (Z.succ b)) in Hb2 by lia.
  assert (Hlow : F64.pow2 (a - b - 1) <= n # d).
  { apply (Qmult_le_r _ _ (inject_Z (Z.pos d)) Hd). rewrite Hnd.
    apply Qle_trans with (F64.pow2 (a - b - 1) * F64.pow2 (Z.succ b)).
    - apply Qmult_le_l; [apply pow2_pos | apply Qlt_le_weak, Hb2].
    - rewrite <- pow2_add. replace (a - b - 1 + Z.succ b)%Z with a by lia.
      exact Ha1. }
  assert (Hup : n # d < F64.pow2 (a - b + 1)).
  { apply (Qmult_lt_r _ _ (inject_Z (Z.pos d)) Hd). rewrite Hnd.
    apply Qlt_le_trans with (F64.pow2 (Z.succ a)); [exact Ha2|].
    rewrite (pow2_split (Z.succ a) b).
    replace (Z.succ a - b)%Z with (a - b + 1)%Z by lia.
    apply Qmult_le_l; [apply pow2_pos | exact Hb1]. }
  destruct (Qle_bool (F64.pow2 (a - b)) (n # d)) eqn:E.
  - apply Qle_bool_iff in E. split; [exact E | exact Hup].
  - split; [exact Hlow|].
    replace (a - b - 1 + 1)%Z with (a - b)%Z by lia.
    apply Qnot_le_lt. intros H. apply Qle_bool_iff in H. congruence.
Qed.


Lemma binade_mono x y : 0 < x -> x <= y -> (F64.binade x <= F64.binade y)%Z.
Proof.
  intros Hx Hxy.
  destruct (binade_spec x Hx) as [B1 _].
  destruct (binade_spec y ltac:(lra)) as [_ B2].
  assert (L : (F64.binade x < F64.binade y + 1)%Z)
    by (apply pow2_lt_inv; lra).
  lia.
Qed.

(** *** Rounding to binary64 *)

Lemma ulp_pos x : 0 < F64.ulp x.
Proof. apply pow2_pos. Qed.

Lemma rint_Z n : F64.rint (inject_Z n) = n.
Proof.
  pose proof (rint_between n n (inject_Z n)) as H.
  assert (Hb : inject_Z n <= inject_Z n <= inject_Z n) by lra.
  specialize (H Hb). lia.
Qed.

(** A rounded number stays between two multiples of its unit in the last
    place that enclose the number. *)
Lemma round_pos_between (lo hi : Z) x :
  inject_Z lo * F64.ulp x <= x <= inject_Z hi * F64.ulp x ->
  inject_Z lo * F64.ulp x <= F64.round_pos x <= inject_Z hi * F64.ulp x.
Proof.
  intros [Hlo Hhi]. unfold F64.round_pos.
  pose proof (ulp_pos x) as Hu.
  assert (Hb : inject_Z lo <= x / F64.ulp x <= inject_Z hi).
  { split.
    - apply Qle_shift_div_l; assumption.
    - apply Qle_shift_div_r; assumption. }
  apply rint_between in Hb. destruct Hb as [H1 H2].
  rewrite Zle_Qle in H1, H2.
  split; apply Qmult_le_compat_r; solve [assumption | lra].
Qed.

Lemma round_pos_nonneg x : 0 < x -> 0 <= F64.round_pos x.
Proof.
  intros Hx. pose proof (ulp_pos x) as Hu.
  unfold F64.round_pos. apply Qmult_le_0_compat; [|lra].
  change 0 with (inject_Z 0). rewrite <- Zle_Qle.
  rewrite <- (rint_Z 0). apply rint_mono.
  change (inject_Z 0) with 0. apply Qle_shift_div_l; [exact Hu | lra].
Qed.

Lemma round_pos_near x :
  - (F64.ulp x * (1 # 2)) <= F64.round_pos x - x <= F64.ulp x * (1 # 2).
Proof.
  pose proof (ulp_pos x) as Hu. unfold F64.round_pos.
  pose proof (rint_near (x / F64.ulp x)) as [H1 H2].
  pose proof (div_mul_pow2 x (Z.max (F64.binade x - 52) (-1074))) as Hx.
  fold (F64.ulp x) in Hx.
  set (k := inject_Z (F64.rint (x / F64.ulp x))) in *.
  set (t := x / F64.ulp x) in *.
  assert (A1 : (k - (1 # 2)) * F64.ulp x <= t * F64.ulp x)
    by (apply Qmult_le_compat_r; lra).
  assert (A2 : t * F64.ulp x <= (k + (1 # 2)) * F64.ulp x)
    by (apply Qmult_le_compat_r; lra).
  rewrite Hx in A1, A2. split; lra.
Qed.

Lemma round_pos_mono x y :
  0 < x -> x <= y -> F64.round_pos x <= F64.round_pos y.
Proof.
  intros Hx Hxy. assert (Hy : 0 < y) by lra.
  pose proof (binade_mono x y Hx Hxy) as He.
  destruct (binade_spec x Hx) as [_ Bx]. destruct (binade_spec y Hy) as [By _].
  set (ex := F64.binade x) in *. set (ey := F64.binade y) in *.
  set (qx := Z.max (ex - 52) (-1074)). set (qy := Z.max (ey - 52) (-1074)).
  assert (Ux : F64.ulp x = F64.pow2 qx) by reflexivity.
  assert (Uy : F64.ulp y = F64.pow2 qy) by reflexivity.
  destruct (Z.eq_dec qx qy) as [E | NE].
  - unfold F64.round_pos. rewrite Ux, Uy, <- E.
    pose proof (pow2_pos qx) as Hp.
    apply Qmult_le_compat_r; [|lra].
    rewrite <- Zle_Qle. apply rint_mono.
    unfold Qdiv. apply Qmult_le_compat_r; [exact Hxy|].
    apply Qlt_le_weak, Qinv_lt_0_compat, Hp.
  - assert (Hq : (qx < qy)%Z) by lia.
    set (m := Z.max (ex + 1) qx).
    assert (Hm : (m <= ey)%Z) by lia.
    assert (Hqy : qy = (ey - 52)%Z) by lia.
    apply Qle_trans with (F64.pow2 m).
    + pose proof (round_pos_between 0 (2 ^ (m - qx)) x) as H.
      rewrite Ux in H. rewrite <- (pow2_Z (m - qx)) in H by lia.
      rewrite <- pow2_split in H. apply H. split.
      * change (inject_Z 0) with 0. lra.
      * apply Qle_trans with (F64.pow2 (ex + 1)); [lra | apply pow2_le; lia].
    + apply Qle_trans with (F64.pow2 ey); [apply pow2_le, Hm|].
      pose proof (round_pos_between (2 ^ 52) (F64.rint (y / F64.ulp y) + 1) y)
        as H.
      rewrite Uy in H.
      assert (Hs : inject_Z (2 ^ 52) * F64.pow2 qy == F64.pow2 ey).
      { rewrite <- (pow2_Z 52) by lia. rewrite <- pow2_add.
        replace (52 + qy)%Z with ey by lia. reflexivity. }
      rewrite Hs in H. apply H. split; [exact By|].
      pose proof (round_pos_near y) as [N _]. unfold F64.round_pos in N.
      rewrite Uy in N. rewrite inject_Z_succ.
      pose proof (pow2_pos qy). lra.
Qed.

Lemma round_mono x y : x <= y -> F64.round x <= F64.round y.
Proof.
  intros Hxy. unfold F64.round.
  destruct (PyNum.ltb 0 x) eqn:X1; [apply ltb_lt in X1 | apply ltb_ge in X1].
  - assert (Y1 : PyNum.ltb 0 y = true) by (apply ltb_lt; lra).
    rewrite Y1. apply round_pos_mono; assumption.
  - destruct (PyNum.ltb 0 y) eqn:Y1; [apply ltb_lt in Y1 | apply ltb_ge in Y1].
    + pose proof (round_pos_nonneg y Y1) as Hy.
      destruct (PyNum.ltb x 0) eqn:X2; [apply ltb_lt in X2|lra].
      pose proof (round_pos_nonneg (- x) ltac:(lra)). lra.
    + destruct (PyNum.ltb x 0) eqn:X2;
        [apply ltb_lt in X2 | apply ltb_ge in X2].
      * destruct (PyNum.ltb y 0) eqn:Y2;
          [apply ltb_lt in Y2 | apply ltb_ge in Y2].
        -- pose proof (round_pos_mono (- y) (- x) ltac:(lra) ltac:(lra)). lra.
        -- pose proof (round_pos_nonneg (- x) ltac:(lra)). lra.
      * assert (Y2 : PyNum.ltb y 0 = false) by (apply ltb_ge; lra).
        rewrite Y2. lra.
Qed.







(** The rounding is that of the machine: on the samples, the subtraction
    from ten and the product by ten of primitive floats are the exact
    results rounded by [F64.round]. *)
Lemma round_as_machine : Machine.agrees_on_samples = true.
Proof. vm_compute. reflexivity. Qed.

(** *** Rounding to one decimal *)






Lemma np_clip_mono x y lo hi :
  x <= y -> Serve.np_clip x lo hi <= Serve.np_clip y lo hi.
Proof.
  intros Hxy. unfold Serve.np_clip, PyNum.min, PyNum.max.
  destruct (PyNum.ltb x lo) eqn:E1;
    [apply ltb_lt in E1 | apply ltb_ge in E1];
    destruct (PyNum.ltb y lo) eqn:E2;
    [apply ltb_lt in E2 | apply ltb_ge in E2 | apply ltb_lt in E2
     | apply ltb_ge in E2];
    repeat match goal with
           | |- context [PyNum.ltb ?a ?b] =>
               let E := fresh "E" in
               destruct (PyNum.ltb a b) eqn:E;
               [apply ltb_lt in E | apply ltb_ge in E]
           end; lra.
Qed.

Lemma np_round1_mono x y : x <= y -> Serve.np_round1 x <= Serve.np_round1 y.
Proof.
  intros Hxy. unfold Serve.np_round1, F64.mul.
  assert (H10 : x * 10 <= y * 10) by lra.
  pose proof (rint_mono _ _ (round_mono _ _ H10)) as Hr.
  rewrite Zle_Qle in Hr.
  unfold Qdiv. change (/ 10) with (1 # 10). lra.
Qed.




End Rounding.

Section PredictionFacts.
Local Open Scope Q_scope.



End PredictionFacts.




(** ** The feature row builder *)

(** Closes a decidable goal on concrete data by evaluating its decision. *)
Ltac by_evaluation := apply (bool_decide_unpack _); vm_compute; exact I.

Section BuilderFacts.

Variables numeric_features trigger_features : list string.

Local Abbreviation row_t := (gmap string Serve.value).

Lemma fill_fold_keeps (dflt : string -> Serve.value) cols (row : row_t) k v :
  row !! k = Some v ->
  foldl (fun row col => match row !! col with
                        | Some _ => row
                        | None => <[col := dflt col]> row
                        end) row cols !! k = Some v.
Proof.
  revert row. induction cols as [|a cols IH]; intros row Hk; [exact Hk|].
  cbn [foldl]. apply IH.
  destruct (row !! a) eqn:Ea; [exact Hk|].
  rewrite lookup_insert_ne; [exact Hk|]. congruence.
Qed.

Lemma fill_fold_default (dflt : string -> Serve.value) cols (row : row_t) k :
  k ∈ cols -> row !! k = None ->
  foldl (fun row col => match row !! col with
                        | Some _ => row
                        | None => <[col := dflt col]> row
                        end) row cols !! k = Some (dflt k).
Proof.
  revert row. induction cols as [|a cols IH]; intros row Hin Hk.
  - inversion Hin.
  - cbn [foldl]. destruct (decide (a = k)) as [-> | Hne].
    + rewrite Hk. apply fill_fold_keeps, lookup_insert_eq.
    + apply IH.
      * apply elem_of_cons in Hin. destruct Hin; [congruence | assumption].
      * destruct (row !! a); [exact Hk|].
        rewrite lookup_insert_ne; [exact Hk | exact Hne].
Qed.

Lemma expected_cols_elem k :
  k ∈ elements (list_to_set numeric_features ∪ list_to_set trigger_features
                : gset string)
  <-> k ∈ numeric_features \/ k ∈ trigger_features.
Proof. rewrite elem_of_elements, elem_of_union, !elem_of_list_to_set. tauto. Qed.

Lemma fill_defaults_keeps (row : row_t) k v :
  row !! k = Some v ->
  Serve.fill_defaults numeric_features trigger_features row !! k = Some v.
Proof. apply fill_fold_keeps. Qed.

Lemma fill_defaults_default (row : row_t) k :
  k ∈ numeric_features \/ k ∈ trigger_features ->
  row !! k = None ->
  Serve.fill_defaults numeric_features trigger_features row !! k
  = Some (if String.eqb k "triggers" then Serve.VStr "" else Serve.VFloat 0).
Proof.
  intros Hin Hk. unfold Serve.fill_defaults. cbv zeta.
  apply (fill_fold_default
           (fun col => if String.eqb col "triggers"
                       then Serve.VStr "" else Serve.VFloat 0));
    [apply expected_cols_elem, Hin | exact Hk].
Qed.

Lemma fill_defaults_covers (row : row_t) k :
  k ∈ numeric_features \/ k ∈ trigger_features ->
  is_Some (Serve.fill_defaults numeric_features trigger_features row !! k).
Proof.
  intros Hin. destruct (row !! k) as [v|] eqn:Hk.
  - exists v. apply fill_defaults_keeps, Hk.
  - eexists. apply fill_defaults_default; assumption.
Qed.


Lemma add_base_other entry (row : row_t) k :
  k ∉ Train.BASE_NUMERIC ->
  Serve.add_base numeric_features entry row !! k = row !! k.
Proof.
  intros Hk. unfold Serve.add_base. cbv zeta.
  cbn [foldl list_to_map foldr uncurry fst snd].
  repeat (rewrite lookup_insert_eq || rewrite lookup_insert_ne by discriminate).
  unfold Train.BASE_NUMERIC in Hk.
  repeat match goal with
         | |- context [ if ?b then _ else _ ] => destruct b
         end;
    repeat (rewrite lookup_insert_ne; [|intros <-; apply Hk; set_solver]);
    reflexivity.
Qed.

Lemma add_time_other dt (row : row_t) k :
  k ∉ Spec.time_keys ->
  Serve.add_time numeric_features dt row !! k = row !! k.
Proof.
  intros Hk. unfold Serve.add_time, Spec.time_keys in *. cbv zeta.
  repeat match goal with
         | |- context [ if ?b then _ else _ ] => destruct b
         end;
    repeat (rewrite lookup_insert_ne; [|intros <-; apply Hk; set_solver]);
    reflexivity.
Qed.

(** The loop of the pre-expanded mode, column by column. *)
Lemma expand_fold (g : string -> Serve.value) cols (row : row_t) k :
  foldl (fun row tf => if PyStr.startswith "trigger_" tf
                       then <[tf := g tf]> row else row) row cols !! k
  = if bool_decide (k ∈ cols) && PyStr.startswith "trigger_" k
    then Some (g k) else row !! k.
Proof.
  revert row. induction cols as [|a cols IH]; intros row; [reflexivity|].
  cbn [foldl]. rewrite IH.
  destruct (decide (a = k)) as [-> | Hne].
  - rewrite (bool_decide_eq_true_2 (k ∈ k :: cols)) by (left).
    cbn [andb].
    destruct (PyStr.startswith "trigger_" k) eqn:Hp.
    + rewrite lookup_insert_eq, andb_true_r.
      destruct (bool_decide (k ∈ cols)); reflexivity.
    + rewrite andb_false_r. reflexivity.
  - assert (Hd : bool_decide (k ∈ a :: cols) = bool_decide (k ∈ cols)).
    { apply bool_decide_ext. rewrite elem_of_cons. intuition congruence. }
    rewrite Hd.
    destruct (bool_decide (k ∈ cols) && PyStr.startswith "trigger_" k);
      [reflexivity|].
    destruct (PyStr.startswith "trigger_" a); [|reflexivity].
    apply lookup_insert_ne, Hne.
Qed.

Lemma add_triggers_string entry (row : row_t) :
  "triggers" ∈ trigger_features ->
  Serve.add_triggers trigger_features entry row !! "triggers"
  = Some (Serve.VStr match Serve.triggers entry with
                     | Serve.TrigList l => PyStr.join "," l
                     | Serve.TrigStr s => s
                     end).
Proof.
  intros Hin. unfold Serve.add_triggers.
  rewrite (bool_decide_eq_true_2 _ Hin). cbv zeta. apply lookup_insert_eq.
Qed.

Lemma add_triggers_expanded entry (row : row_t) col :
  "triggers" ∉ trigger_features ->
  col ∈ trigger_features ->
  PyStr.startswith "trigger_" col = true ->
  Serve.add_triggers trigger_features entry row !! col
  = Some (Serve.VInt
            (if PyStr.mem (PyStr.lower (PyStr.replace "trigger_" "" col))
                          (Serve.trig_list (Serve.triggers entry))
             then 1 else 0)).
Proof.
  intros Hno Hin Hp. unfold Serve.add_triggers.
  rewrite (bool_decide_eq_false_2 _ Hno). cbv zeta.
  rewrite (expand_fold
             (fun tf => Serve.VInt
                (if PyStr.mem (PyStr.lower (PyStr.replace "trigger_" "" tf))
                              (Serve.trig_list (Serve.triggers entry))
                 then 1 else 0))).
  rewrite (bool_decide_eq_true_2 _ Hin), Hp. reflexivity.
Qed.

Lemma add_triggers_other entry (row : row_t) k :
  k <> "triggers" ->
  PyStr.startswith "trigger_" k = false ->
  Serve.add_triggers trigger_features entry row !! k = row !! k.
Proof.
  intros Hk Hp. unfold Serve.add_triggers.
  destruct (bool_decide ("triggers" ∈ trigger_features)).
  - cbv zeta. apply lookup_insert_ne. congruence.
  - cbv zeta.
    rewrite (expand_fold
             (fun tf => Serve.VInt
                (if PyStr.mem (PyStr.lower (PyStr.replace "trigger_" "" tf))
                              (Serve.trig_list (Serve.triggers entry))
                 then 1 else 0))).
    rewrite Hp, andb_false_r. reflexivity.
Qed.

(** The loop over the note features writes note keys only. *)
Lemma notes_fold_other (items : list (string * Q)) (row : row_t) k :
  k ∉ items.*1 ->
  foldl (fun row kv => if Serve.wanted numeric_features kv.1
                       then <[kv.1 := Serve.VFloat kv.2]> row else row)
        row items !! k = row !! k.
Proof.
  revert row. induction items as [|[a v] items IH]; intros row Hk;
    [reflexivity|].
  cbn [foldl]. rewrite IH by (intros H; apply Hk; cbn; right; exact H).
  cbn [fst snd].
  destruct (Serve.wanted numeric_features a); [|reflexivity].
  apply lookup_insert_ne. intros ->. apply Hk. cbn. left.
Qed.

Lemma add_notes_other entry (row : row_t) k :
  k ∉ Spec.note_keys -> k <> "notes_sent" ->
  Serve.add_notes numeric_features entry row !! k = row !! k.
Proof.
  intros Hk Hs. unfold Serve.add_notes. cbv zeta.
  assert (Hfold :
    foldl (fun row kv => if Serve.wanted numeric_features kv.1
                         then <[kv.1 := Serve.VFloat kv.2]> row else row)
          row (map_to_list (Serve.notes_featurize (Serve.notes entry)))
      !! k = row !! k).
  { apply notes_fold_other. intros Hin.
    apply list_elem_of_fmap in Hin. destruct Hin as ([k' v] & -> & Hin).
    apply elem_of_map_to_list in Hin. apply Hk.
    apply (serve_notes_keys (Serve.notes entry)). exists v. exact Hin. }
  destruct (Serve.wanted numeric_features "notes_sent"); [|exact Hfold].
  destruct (Serve.notes_featurize (Serve.notes entry) !! "notes_sentiment");
    [|exact Hfold].
  rewrite lookup_insert_ne by congruence. exact Hfold.
Qed.

Lemma prefixed_is_fresh k :
  PyStr.startswith "trigger_" k = true ->
  (k ∉ Train.BASE_NUMERIC) /\ (k ∉ Spec.time_keys) /\ (k ∉ Spec.note_keys)
  /\ k <> "notes_sent" /\ k <> "triggers".
Proof.
  intros Hp.
  assert (Hall : forall l : list string,
             forallb (fun x => negb (PyStr.startswith "trigger_" x)) l = true ->
             k ∉ l).
  { intros l Hl Hin. apply list_elem_of_In in Hin.
    rewrite forallb_forall in Hl. specialize (Hl k Hin).
    rewrite Hp in Hl. discriminate. }
  repeat split; try (apply Hall; reflexivity);
    intros ->; discriminate.
Qed.


Lemma computed_triggers_string entry dt :
  "triggers" ∈ trigger_features ->
  Serve.computed_columns numeric_features trigger_features entry dt !! "triggers"
  = Some (Serve.VStr match Serve.triggers entry with
                     | Serve.TrigList l => PyStr.join "," l
                     | Serve.TrigStr s => s
                     end).
Proof.
  intros Hin. unfold Serve.computed_columns. cbv zeta.
  rewrite add_notes_other; [| by_evaluation | discriminate].
  apply add_triggers_string, Hin.
Qed.

Lemma computed_triggers_expanded entry dt col :
  "triggers" ∉ trigger_features ->
  col ∈ trigger_features ->
  PyStr.startswith "trigger_" col = true ->
  Serve.computed_columns numeric_features trigger_features entry dt !! col
  = Some (Serve.VInt
            (if PyStr.mem (PyStr.lower (PyStr.replace "trigger_" "" col))
                          (Serve.trig_list (Serve.triggers entry))
             then 1 else 0)).
Proof.
  intros Hno Hin Hp. unfold Serve.computed_columns. cbv zeta.
  destruct (prefixed_is_fresh col Hp) as (_ & _ & Hn & Hs & _).
  rewrite add_notes_other by assumption.
  apply add_triggers_expanded; assumption.
Qed.

(** A [trigger_] column that only the numeric list names is computed by
    no step. *)
Lemma computed_prefixed_numeric_only entry dt col :
  col ∉ trigger_features ->
  PyStr.startswith "trigger_" col = true ->
  Serve.computed_columns numeric_features trigger_features entry dt !! col
  = None.
Proof.
  intros Hout Hp. unfold Serve.computed_columns. cbv zeta.
  destruct (prefixed_is_fresh col Hp) as (Hb & Ht & Hn & Hs & Hg).
  rewrite add_notes_other by assumption.
  assert (Hrow : forall row : row_t,
             Serve.add_triggers trigger_features entry row !! col = row !! col).
  { intros row. unfold Serve.add_triggers.
    destruct (bool_decide ("triggers" ∈ trigger_features)); cbv zeta.
    - apply lookup_insert_ne. congruence.
    - rewrite (expand_fold
             (fun tf => Serve.VInt
                (if PyStr.mem (PyStr.lower (PyStr.replace "trigger_" "" tf))
                              (Serve.trig_list (Serve.triggers entry))
                 then 1 else 0))).
      rewrite (bool_decide_eq_false_2 _ Hout). reflexivity. }
  rewrite Hrow, add_time_other, add_base_other by assumption.
  apply lookup_empty.
Qed.

Lemma build_feature_row_inr fromisoformat entry row :
  Serve.build_feature_row fromisoformat numeric_features trigger_features entry
  = inr row ->
  exists dt,
    fromisoformat (PyStr.replace "Z" "+00:00" (Serve.timestamp entry)) = Some dt
    /\ row = Serve.fill_defaults numeric_features trigger_features
               (Serve.computed_columns numeric_features trigger_features
                                       entry dt).
Proof.
  unfold Serve.build_feature_row.
  destruct (fromisoformat _) as [dt|]; [|discriminate].
  intros [= <-]. exists dt. split; reflexivity.
Qed.

End BuilderFacts.

(** C2, as stated, fails: with the columns [trigger_work] and
    [trigger_sleep] and the triggers Work and Sleep deprivation, the row has
    1 under [trigger_work] and 0 under [trigger_sleep], because no trigger is
    the word sleep. *)
Lemma C2_counterexample_trigger_sleep :
  exists row,
    Serve.build_feature_row IsoClock.read Train.BASE_NUMERIC
                            ["trigger_work"; "trigger_sleep"] Sample.check_in
    = inr row
    /\ Serve.triggers Sample.check_in
       = Serve.TrigList ["Work"; "Sleep deprivation"]
    /\ row !! "trigger_work" = Some (Serve.VInt 1)
    /\ row !! "trigger_sleep" = Some (Serve.VInt 0)
    /\ row !! "trigger_sleep" <> Some (Serve.VInt 1)
    /\ row !! "trigger_sleep" <> Some (Serve.VFloat 1).
Proof.
  exists (Serve.fill_defaults Train.BASE_NUMERIC ["trigger_work"; "trigger_sleep"]
     (Serve.computed_columns Train.BASE_NUMERIC ["trigger_work"; "trigger_sleep"]
        Sample.check_in {| Serve.hour := 10; Serve.weekday := 4 |})).
  split; [reflexivity|]. split; [reflexivity|].
  split; [vm_compute; reflexivity|].
  assert (H0 : Serve.fill_defaults Train.BASE_NUMERIC ["trigger_work"; "trigger_sleep"]
     (Serve.computed_columns Train.BASE_NUMERIC ["trigger_work"; "trigger_sleep"]
        Sample.check_in {| Serve.hour := 10; Serve.weekday := 4 |})
     !! "trigger_sleep" = Some (Serve.VInt 0)) by (vm_compute; reflexivity).
  split; [exact H0|].
  split; rewrite H0; discriminate.
Qed.

(** C2, amended.  For a check-in whose triggers are a list: when
    [trigger_features] has the column [triggers], the row holds under it the
    triggers joined by commas; otherwise every column of [trigger_features]
    that starts with [trigger_] holds 1 when its name, without [trigger_]
    and lowered, is equal to one of the trimmed and lowered triggers, and 0
    when it is equal to none.  A [trigger_] column named by the numeric list
    alone holds the default 0.0.  For the triggers Work and Sleep
    deprivation the column [trigger_work] holds 1 and [trigger_sleep]
    holds 0. *)
Theorem C2_trigger_encoding
    (fromisoformat : string -> option Serve.datetime)
    (numeric_features trigger_features : list string)
    (entry : Serve.CheckInEntry) (l : list string)
    (row : gmap string Serve.value) :
  Serve.triggers entry = Serve.TrigList l ->
  Serve.build_feature_row fromisoformat numeric_features trigger_features entry
  = inr row ->
  ("triggers" ∈ trigger_features ->
   row !! "triggers" = Some (Serve.VStr (PyStr.join "," l)))
  /\ ("triggers" ∉ trigger_features ->
      forall col, col ∈ trigger_features ->
        PyStr.startswith "trigger_" col = true ->
        row !! col
        = Some (Serve.VInt
                  (if PyStr.mem (PyStr.lower (PyStr.replace "trigger_" "" col))
                                (map (fun t => PyStr.lower (PyStr.strip t)) l)
                   then 1 else 0)))
  /\ (forall col, col ∈ numeric_features -> col ∉ trigger_features ->
        PyStr.startswith "trigger_" col = true ->
        row !! col = Some (Serve.VFloat 0))
  /\ (l = ["Work"; "Sleep deprivation"] ->
      ("triggers" ∈ trigger_features ->
       row !! "triggers" = Some (Serve.VStr "Work,Sleep deprivation"))
      /\ ("triggers" ∉ trigger_features -> "trigger_work" ∈ trigger_features ->
          row !! "trigger_work" = Some (Serve.VInt 1))
      /\ ("triggers" ∉ trigger_features -> "trigger_sleep" ∈ trigger_features ->
          row !! "trigger_sleep" = Some (Serve.VInt 0))).
Proof.
  intros Hl Hrow.
  destruct (build_feature_row_inr _ _ _ _ _ Hrow) as (dt & _ & ->).
  assert (Hstr : "triggers" ∈ trigger_features ->
                 Serve.fill_defaults numeric_features trigger_features
                   (Serve.computed_columns numeric_features trigger_features
                                           entry dt) !! "triggers"
                 = Some (Serve.VStr (PyStr.join "," l))).
  { intros Hin. apply fill_defaults_keeps.
    rewrite computed_triggers_string by exact Hin. rewrite Hl. reflexivity. }
  assert (Hexp : "triggers" ∉ trigger_features ->
      forall col, col ∈ trigger_features ->
        PyStr.startswith "trigger_" col = true ->
        Serve.fill_defaults numeric_features trigger_features
          (Serve.computed_columns numeric_features trigger_features entry dt)
          !! col
        = Some (Serve.VInt
                  (if PyStr.mem (PyStr.lower (PyStr.replace "trigger_" "" col))
                                (map (fun t => PyStr.lower (PyStr.strip t)) l)
                   then 1 else 0))).
  { intros Hno col Hin Hp. apply fill_defaults_keeps.
    rewrite computed_triggers_expanded by assumption.
    rewrite Hl. reflexivity. }
  split; [exact Hstr|]. split; [exact Hexp|]. split.
  - intros col Hn Ht Hp.
    rewrite fill_defaults_default.
    + destruct (prefixed_is_fresh col Hp) as (_ & _ & _ & _ & Hg).
      apply String.eqb_neq in Hg. rewrite Hg. reflexivity.
    + left. exact Hn.
    + apply computed_prefixed_numeric_only; assumption.
  - intros ->. split; [exact Hstr|].
    split; intros Hno Hin; rewrite (Hexp Hno _ Hin eq_refl); reflexivity.
Qed.

Lemma C2_trigger_encoding_witness :
  exists row,
    Serve.build_feature_row IsoClock.read Train.BASE_NUMERIC
                            Sample.expanded_triggers Sample.check_in = inr row
    /\ row !! "trigger_sleep" = Some (Serve.VInt 0).
Proof.
  exists (Serve.fill_defaults Train.BASE_NUMERIC Sample.expanded_triggers
            (Serve.computed_columns Train.BASE_NUMERIC Sample.expanded_triggers
               Sample.check_in {| Serve.hour := 10; Serve.weekday := 4 |})).
  split; [reflexivity|].
  destruct (C2_trigger_encoding IsoClock.read Train.BASE_NUMERIC
              Sample.expanded_triggers Sample.check_in
              ["Work"; "Sleep deprivation"] _ eq_refl eq_refl)
    as (_ & _ & _ & Hsample).
  destruct (Hsample eq_refl) as (_ & _ & Hsleep).
  apply Hsleep.
  - by_evaluation.
  - by_evaluation.
Defined.

(** C4.  For a check-in whose time stamp parses, the row has every column
    of the manifest: a column that the steps of the builder computed keeps
    its value, and any other column of the manifest holds the empty string
    when it is [triggers] and 0.0 otherwise. *)
Theorem C4_row_covers_manifest
    (fromisoformat : string -> option Serve.datetime)
    (numeric_features trigger_features : list string)
    (entry : Serve.CheckInEntry) (dt : Serve.datetime) :
  fromisoformat (PyStr.replace "Z" "+00:00" (Serve.timestamp entry)) = Some dt ->
  exists row,
    Serve.build_feature_row fromisoformat numeric_features trigger_features entry
    = inr row
    /\ (list_to_set numeric_features ∪ list_to_set trigger_features : gset string)
       ⊆ dom row
    /\ (forall col, col ∈ numeric_features \/ col ∈ trigger_features ->
          match Serve.computed_columns numeric_features trigger_features
                                       entry dt !! col with
          | Some v => row !! col = Some v
          | None =>
              row !! col
              = Some (if String.eqb col "triggers"
                      then Serve.VStr "" else Serve.VFloat 0)
          end).
Proof.
  intros Hdt. unfold Serve.build_feature_row. rewrite Hdt.
  eexists. split; [reflexivity|]. split.
  - intros col Hcol. apply elem_of_dom.
    apply fill_defaults_covers.
    apply elem_of_union in Hcol.
    rewrite !elem_of_list_to_set in Hcol. exact Hcol.
  - intros col Hcol.
    destruct (Serve.computed_columns _ _ _ _ !! col) as [v|] eqn:Hc.
    + apply fill_defaults_keeps, Hc.
    + apply fill_defaults_default; assumption.
Qed.

Lemma C4_row_covers_manifest_witness :
  exists row,
    Serve.build_feature_row IsoClock.read ["mood"; "hour"; "dow_sin"; "pulse"]
                            ["triggers"; "trigger_work"] Sample.check_in
    = inr row
    /\ (list_to_set ["mood"; "hour"; "dow_sin"; "pulse"]
        ∪ list_to_set ["triggers"; "trigger_work"] : gset string) ⊆ dom row.
Proof.
  destruct (C4_row_covers_manifest
              IsoClock.read ["mood"; "hour"; "dow_sin"; "pulse"]
              ["triggers"; "trigger_work"] Sample.check_in
              {| Serve.hour := 10; Serve.weekday := 4 |} eq_refl)
    as (row & Hrow & Hdom & _).
  exists row. split; assumption.
Defined.

Section InvertedMood.
Local Open Scope Q_scope.



End InvertedMood.




(** ** The sentiment of a note *)

Section Sentiment.

Lemma mem_true x l : PyStr.mem x l = true <-> x ∈ l.
Proof.
  unfold PyStr.mem. rewrite existsb_exists, list_elem_of_In. split.
  - intros (y & Hy & Heq). apply String.eqb_eq in Heq. subst. exact Hy.
  - intros Hx. exists x. split; [exact Hx | apply String.eqb_refl].
Qed.

Lemma mem_false x l : PyStr.mem x l = false <-> x ∉ l.
Proof. rewrite <- mem_true. destruct (PyStr.mem x l); intuition congruence. Qed.

Lemma distinct_elem seen l x :
  x ∈ Spec.distinct seen l <-> x ∈ l /\ x ∉ seen.
Proof.
  revert seen. induction l as [|a l IH]; intros seen; cbn [Spec.distinct].
  - split; [intros H; inversion H | intros [H _]; inversion H].
  - destruct (PyStr.mem a seen) eqn:E.
    + apply mem_true in E. rewrite IH, elem_of_cons.
      split; [tauto|]. intros [[-> | H] Hs]; [contradiction | tauto].
    + apply mem_false in E. rewrite !elem_of_cons, IH, elem_of_cons.
      split.
      * intros [-> | (H & Hs)]; [tauto|]. split; [tauto|]. tauto.
      * intros [[-> | H] Hs]; [tauto|].
        destruct (decide (x = a)) as [-> | Hne]; [tauto|]. right.
        split; [exact H|]. intros [? | ?]; contradiction.
Qed.

Lemma distinct_NoDup seen l : NoDup (Spec.distinct seen l).
Proof.
  revert seen. induction l as [|a l IH]; intros seen; cbn [Spec.distinct].
  - constructor.
  - destruct (PyStr.mem a seen); [apply IH|].
    constructor; [|apply IH].
    rewrite distinct_elem, elem_of_cons. tauto.
Qed.

Lemma elements_distinct (l : list string) :
  elements (list_to_set l : gset string) ≡ₚ Spec.distinct [] l.
Proof.
  assert (Hset : (list_to_set l : gset string)
                 = list_to_set (Spec.distinct [] l)).
  { apply set_eq. intros x. rewrite !elem_of_list_to_set, distinct_elem.
    split; [intros H; split; [exact H | apply not_elem_of_nil] | tauto]. }
  rewrite Hset. apply elements_list_to_set, distinct_NoDup.
Qed.

Lemma hits_count (lexicon tokens : list string) :
  Serve.hits (list_to_set lexicon) (list_to_set tokens)
  = Spec.count_in lexicon (Spec.distinct [] tokens).
Proof.
  unfold Serve.hits, Spec.count_in. f_equal.
  rewrite (elements_distinct tokens). f_equal.
  apply list_filter_iff. intros w.
  rewrite elem_of_list_to_set, <- mem_true.
  destruct (PyStr.mem w lexicon); cbn; intuition congruence.
Qed.

Lemma clamp_max_min x :
  PyNum.max (-1) (PyNum.min 1 x) = Spec.clamp (-1) 1 x.
Proof.
  unfold PyNum.max, PyNum.min, PyNum.ltb, Spec.clamp.
  destruct (Qle_bool 1 x) eqn:E1; cbn [negb].
  - assert (E2 : Qle_bool x (-1) = false).
    { apply not_true_iff_false. intros H.
      apply Qle_bool_iff in E1, H. lra. }
    rewrite E2. reflexivity.
  - destruct (Qle_bool x (-1)); reflexivity.
Qed.

Lemma clamp_bounds x : (-1 <= Spec.clamp (-1) 1 x <= 1)%Q.
Proof.
  unfold Spec.clamp.
  destruct (Qle_bool x (-1)) eqn:E1; [lra|].
  destruct (Qle_bool 1 x) eqn:E2; [lra|].
  assert (H1 : ~ (x <= -1)%Q) by (rewrite <- Qle_bool_iff; congruence).
  assert (H2 : ~ (1 <= x)%Q) by (rewrite <- Qle_bool_iff; congruence).
  lra.
Qed.

Lemma serve_sentiment_spec text :
  Serve._simple_sentiment text = Spec.sentiment_both_ends text.
Proof.
  unfold Serve._simple_sentiment, Spec.sentiment_both_ends,
    Spec.sentiment_with.
  destruct (PyStr.is_empty text); [reflexivity|]. cbv zeta.
  rewrite clamp_max_min.
  unfold Serve._POS, Serve._NEG. rewrite !hits_count.
  reflexivity.
Qed.


End Sentiment.




(** ** The matcher of regular expressions *)

Section RegexFacts.
Import Regex.

Lemma append_nil_l s : EmptyString +:+ s = s.
Proof. reflexivity. Qed.

Lemma append_cons c s1 s2 : String c s1 +:+ s2 = String c (s1 +:+ s2).
Proof. reflexivity. Qed.

Lemma append_empty s1 s2 :
  s1 +:+ s2 = EmptyString -> s1 = EmptyString /\ s2 = EmptyString.
Proof.
  destruct s1 as [|c s1].
  - rewrite append_nil_l. intros ->. split; reflexivity.
  - rewrite append_cons. discriminate.
Qed.

Lemma nullable_matches r : nullable r = true <-> matches r EmptyString.
Proof.
  split.
  - induction r as [| |p|r1 IH1 r2 IH2|r1 IH1 r2 IH2|r IH]; cbn [nullable];
      intros H; try discriminate H.
    + constructor.
    + apply andb_prop in H. destruct H as [H1 H2].
      apply (m_cat r1 r2 EmptyString EmptyString); auto.
    + apply orb_prop in H.
      destruct H as [H | H]; [apply m_alt_l | apply m_alt_r]; auto.
    + constructor.
  - remember EmptyString as s eqn:Hs. intros H.
    induction H as [|p c Hp|r1 r2 s1 s2 H1 IH1 H2 IH2|r1 r2 s H IH
                    |r1 r2 s H IH|r|r c s1 s2 H1 IH1 H2 IH2];
      cbn [nullable]; try reflexivity; try discriminate Hs.
    + apply append_empty in Hs. destruct Hs as [-> ->].
      rewrite IH1, IH2; reflexivity.
    + rewrite (IH Hs). reflexivity.
    + rewrite (IH Hs). apply orb_true_r.
Qed.

Lemma deriv_sound c r : forall s, matches (deriv c r) s -> matches r (String c s).
Proof.
  induction r as [| |p|r1 IH1 r2 IH2|r1 IH1 r2 IH2|r IH]; cbn [deriv];
    intros s H.
  - inversion H.
  - inversion H.
  - destruct (p c) eqn:Hp; inversion H; subst. constructor. exact Hp.
  - destruct (nullable r1) eqn:Hn.
    + inversion H as [| | | ? ? ? Hl| ? ? ? Hr| |]; subst.
      * inversion Hl as [| |? ? s1 s2 Ha Hb| | | |]; subst.
        apply (m_cat r1 r2 (String c s1) s2); auto.
      * apply (m_cat r1 r2 EmptyString (String c s)); auto.
        apply nullable_matches, Hn.
    + inversion H as [| |? ? s1 s2 Ha Hb| | | |]; subst.
      apply (m_cat r1 r2 (String c s1) s2); auto.
  - inversion H; subst; [apply m_alt_l | apply m_alt_r]; auto.
  - inversion H as [| |? ? s1 s2 Ha Hb| | | |]; subst.
    apply (m_star_cons r c s1 s2); auto.
Qed.

Lemma matches_cat_inv r1 r2 s :
  matches (Cat r1 r2) s ->
  exists s1 s2, s = s1 +:+ s2 /\ matches r1 s1 /\ matches r2 s2.
Proof.
  intros H. inversion H as [| |? ? s1 s2 Ha Hb| | | |]; subst.
  exists s1, s2. auto.
Qed.

Lemma matches_star_inv r c s :
  matches (Star r) (String c s) ->
  exists s1 s2,
    s = s1 +:+ s2 /\ matches r (String c s1) /\ matches (Star r) s2.
Proof.
  intros H. remember (String c s) as w eqn:Hw. remember (Star r) as q eqn:Hq.
  destruct H as [| | | | | |r' c' s1 s2 Ha Hb]; try discriminate.
  injection Hq as ->. rewrite append_cons in Hw. injection Hw as -> <-.
  exists s1, s2. auto.
Qed.

Lemma deriv_complete c r : forall s, matches r (String c s) -> matches (deriv c r) s.
Proof.
  induction r as [| |p|r1 IH1 r2 IH2|r1 IH1 r2 IH2|r IH]; cbn [deriv];
    intros s H.
  - inversion H.
  - inversion H.
  - inversion H as [|? ? Hp| | | | |]; subst. rewrite Hp. constructor.
  - apply matches_cat_inv in H. destruct H as (s1 & s2 & Heq & Ha & Hb).
    destruct s1 as [|c1 s1].
    + rewrite append_nil_l in Heq. subst s2.
      assert (Hn : nullable r1 = true) by (apply nullable_matches, Ha).
      rewrite Hn. apply m_alt_r. auto.
    + rewrite append_cons in Heq. injection Heq as <- ->.
      assert (Hc : matches (Cat (deriv c r1) r2) (s1 +:+ s2))
        by (constructor; auto).
      destruct (nullable r1); [apply m_alt_l|]; exact Hc.
  - inversion H; subst; [apply m_alt_l | apply m_alt_r]; auto.
  - apply matches_star_inv in H. destruct H as (s1 & s2 & -> & Ha & Hb).
    constructor; auto.
Qed.

(** The matcher decides the language of the expression. *)
Lemma fullmatch_matches s : forall r, fullmatch r s = true <-> matches r s.
Proof.
  induction s as [|c s IH]; intros r; cbn [fullmatch].
  - apply nullable_matches.
  - rewrite IH. split; [apply deriv_sound | apply deriv_complete].
Qed.

End RegexFacts.

(** ** Texts *)

Section TextFacts.

Lemma append_nil_r s : s +:+ EmptyString = s.
Proof.
  induction s as [|c s IH]; [reflexivity|].
  rewrite append_cons, IH. reflexivity.
Qed.

Lemma append_assoc s1 s2 s3 : (s1 +:+ s2) +:+ s3 = s1 +:+ (s2 +:+ s3).
Proof.
  induction s1 as [|c s1 IH]; [reflexivity|].
  rewrite !append_cons, IH. reflexivity.
Qed.

Lemma length_append s1 s2 :
  String.length (s1 +:+ s2) = (String.length s1 + String.length s2)%nat.
Proof.
  induction s1 as [|c s1 IH]; [reflexivity|].
  rewrite append_cons. cbn [String.length]. rewrite IH. reflexivity.
Qed.

Lemma is_empty_true s : PyStr.is_empty s = true <-> s = EmptyString.
Proof. destruct s; cbn; split; congruence. Qed.

Lemma lstrip_blank p s : Text.every p s = true -> PyStr.lstrip_by p s = EmptyString.
Proof.
  induction s as [|c s IH]; [reflexivity|]. cbn.
  intros H. apply andb_prop in H. destruct H as [-> H]. apply IH, H.
Qed.

Lemma rstrip_blank p s : Text.every p s = true -> PyStr.rstrip_by p s = EmptyString.
Proof.
  induction s as [|c s IH]; [reflexivity|]. cbn.
  intros H. apply andb_prop in H. destruct H as [Hc H].
  rewrite (IH H), Hc. reflexivity.
Qed.

Lemma strip_blank s : Text.blank s = true -> PyStr.strip s = EmptyString.
Proof.
  intros H. unfold PyStr.strip, PyStr.strip_by.
  rewrite (lstrip_blank _ _ H). reflexivity.
Qed.

Lemma every_append p s1 s2 :
  Text.every p (s1 +:+ s2) = Text.every p s1 && Text.every p s2.
Proof.
  induction s1 as [|c s1 IH]; [reflexivity|].
  rewrite append_cons. cbn. rewrite IH, andb_assoc. reflexivity.
Qed.

(** Stripping on the left gives nothing, or a text that starts with a
    character that stays. *)
Lemma lstrip_cases p s :
  (PyStr.lstrip_by p s = EmptyString /\ Text.every p s = true)
  \/ (exists c t, PyStr.lstrip_by p s = String c t /\ p c = false).
Proof.
  induction s as [|c s IH]; [left; split; reflexivity|].
  cbn. destruct (p c) eqn:Hc.
  - destruct IH as [[H1 H2] | H]; [left; split; assumption | right; exact H].
  - right. exists c, s. split; [reflexivity | exact Hc].
Qed.

Lemma lstrip_prefix p pre s :
  Text.every p pre = true ->
  PyStr.lstrip_by p (pre +:+ s) = PyStr.lstrip_by p s.
Proof.
  induction pre as [|c pre IH]; [reflexivity|].
  cbn [Text.every]. intros H. apply andb_prop in H. destruct H as [Hc H].
  rewrite append_cons. cbn [PyStr.lstrip_by]. rewrite Hc. apply IH, H.
Qed.

Lemma lstrip_keeps p c t s :
  p c = false -> PyStr.lstrip_by p (String c t +:+ s) = String c t +:+ s.
Proof. intros Hc. rewrite append_cons. cbn. rewrite Hc. reflexivity. Qed.

Lemma rstrip_suffix p s post :
  Text.every p post = true ->
  PyStr.rstrip_by p (s +:+ post) = PyStr.rstrip_by p s.
Proof.
  intros H. induction s as [|c s IH].
  - rewrite append_nil_l. apply rstrip_blank, H.
  - rewrite append_cons. cbn [PyStr.rstrip_by]. rewrite IH. reflexivity.
Qed.

(** Whitespace around a text does not show after [strip]. *)
Lemma strip_padding pre s post :
  Text.blank pre = true -> Text.blank post = true ->
  PyStr.strip (pre +:+ s +:+ post) = PyStr.strip s.
Proof.
  intros Hpre Hpost. unfold PyStr.strip, PyStr.strip_by.
  rewrite (lstrip_prefix _ _ _ Hpre).
  destruct (lstrip_cases PyStr.isspace s) as [[Hl Hall] | (c & t & Hl & Hc)].
  - rewrite Hl. rewrite lstrip_blank; [reflexivity|].
    rewrite every_append. unfold Text.blank in Hpost.
    rewrite Hall, Hpost. reflexivity.
  - assert (Hs : exists lead, s = lead +:+ String c t
                              /\ Text.every PyStr.isspace lead = true).
    { clear Hpre Hpost pre post. revert Hl.
      induction s as [|d s IH]; cbn; [discriminate|].
      destruct (PyStr.isspace d) eqn:Hd.
      - intros H. destruct (IH H) as (lead & -> & Hlead).
        exists (String d lead). split; [reflexivity|].
        cbn. rewrite Hd. exact Hlead.
      - intros [= -> ->]. exists EmptyString. split; reflexivity. }
    destruct Hs as (lead & -> & Hlead).
    rewrite append_assoc, (lstrip_prefix _ _ _ Hlead) in *.
    rewrite (lstrip_keeps _ _ _ _ Hc).
    rewrite (lstrip_prefix _ _ _ Hlead).
    assert (Hk : PyStr.lstrip_by PyStr.isspace (String c t) = String c t)
      by (cbn; rewrite Hc; reflexivity).
    rewrite Hk. apply rstrip_suffix, Hpost.
Qed.

Lemma length_flush cur : (length (PyStr.flush cur) <= String.length cur)%nat.
Proof. destruct cur; cbn; lia. Qed.

Lemma length_snoc cur c : String.length (PyStr.snoc cur c) = S (String.length cur).
Proof. unfold PyStr.snoc. rewrite length_append. cbn. lia. Qed.

Lemma length_split_from cur s :
  (length (PyStr.split_from cur s) <= String.length cur + String.length s)%nat.
Proof.
  revert cur. induction s as [|c s IH]; intros cur; cbn [PyStr.split_from].
  - pose proof (length_flush cur). cbn. lia.
  - destruct (PyStr.isspace c).
    + rewrite length_app. pose proof (length_flush cur).
      specialize (IH EmptyString). cbn in *. lia.
    + specialize (IH (PyStr.snoc cur c)). rewrite length_snoc in IH.
      cbn. lia.
Qed.

(** There are no more words than characters. *)
Lemma length_split s : (length (PyStr.split s) <= String.length s)%nat.
Proof. apply (length_split_from EmptyString s). Qed.

Lemma split_from_nonempty cur s w :
  w ∈ PyStr.split_from cur s -> PyStr.is_empty w = false.
Proof.
  revert cur. induction s as [|c s IH]; intros cur; cbn [PyStr.split_from].
  - unfold PyStr.flush. destruct (PyStr.is_empty cur) eqn:E.
    + intros H. inversion H.
    + intros H. apply list_elem_of_singleton in H. subst. exact E.
  - destruct (PyStr.isspace c).
    + rewrite elem_of_app. intros [H | H]; [|apply (IH _ H)].
      unfold PyStr.flush in H. destruct (PyStr.is_empty cur) eqn:E.
      * inversion H.
      * apply list_elem_of_singleton in H. subst. exact E.
    + apply IH.
Qed.

(** The words of two texts joined by a space are the words of the first
    followed by the words of the second. *)
Lemma split_from_space cur s1 s2 :
  PyStr.split_from cur (s1 +:+ " " +:+ s2)
  = PyStr.split_from cur s1 ++ PyStr.split s2.
Proof.
  revert cur. induction s1 as [|c s1 IH]; intros cur.
  - reflexivity.
  - rewrite append_cons. cbn [PyStr.split_from].
    destruct (PyStr.isspace c).
    + rewrite IH, app_assoc. reflexivity.
    + apply IH.
Qed.

Lemma split_space s1 s2 :
  PyStr.split (s1 +:+ " " +:+ s2) = PyStr.split s1 ++ PyStr.split s2.
Proof. apply split_from_space. Qed.

End TextFacts.

(** ** The lines, the numbers and the trend echoes of the specification *)

Section SpecTexts.

Lemma span_snd p s : (Spec.span p s).2 = PyStr.lstrip_by p s.
Proof.
  induction s as [|c s IH]; [reflexivity|].
  cbn [Spec.span PyStr.lstrip_by]. destruct (p c); [|reflexivity].
  destruct (Spec.span p s) as [a b]. exact IH.
Qed.

Lemma span_spec p s :
  s = (Spec.span p s).1 +:+ (Spec.span p s).2
  /\ Text.every p (Spec.span p s).1 = true
  /\ match (Spec.span p s).2 with
     | String c _ => p c = false
     | EmptyString => True
     end.
Proof.
  induction s as [|c s IH]; [repeat split|].
  cbn [Spec.span]. destruct (p c) eqn:Hc.
  - destruct (Spec.span p s) as [a b]. cbn [fst snd] in *.
    destruct IH as (H1 & H2 & H3). rewrite append_cons, <- H1.
    cbn [Text.every]. rewrite Hc, H2. repeat split. exact H3.
  - cbn [fst snd]. repeat split. exact Hc.
Qed.

Lemma span_app p a b :
  Text.every p a = true ->
  match b with String c _ => p c = false | EmptyString => True end ->
  Spec.span p (a +:+ b) = (a, b).
Proof.
  intros Ha Hb. induction a as [|c a IH].
  - rewrite append_nil_l. destruct b as [|c b]; [reflexivity|].
    cbn [Spec.span]. rewrite Hb. reflexivity.
  - cbn [Text.every] in Ha. apply andb_prop in Ha. destruct Ha as [Hc Ha].
    rewrite append_cons. cbn [Spec.span]. rewrite Hc, (IH Ha). reflexivity.
Qed.

Lemma length_span_snd p s :
  (String.length (Spec.span p s).2 <= String.length s)%nat.
Proof.
  induction s as [|c s IH]; [reflexivity|].
  cbn [Spec.span]. destruct (p c); [|reflexivity].
  destruct (Spec.span p s) as [a b]. cbn [snd String.length] in *. lia.
Qed.

(** The lines of the specification are those of [str.splitlines]. *)
Lemma splitlines_from_lines_upto n :
  forall s cur,
    (String.length s <= n)%nat ->
    PyStr.splitlines_from cur s
    = match Spec.lines s with
      | [] => PyStr.flush cur
      | l :: ls => (cur +:+ l) :: ls
      end.
Proof.
  induction n as [|n IH]; intros s cur Hlen.
  - destruct s; [reflexivity | cbn in Hlen; lia].
  - destruct s as [|c s]; [reflexivity|]. cbn [String.length] in Hlen.
    cbn [PyStr.splitlines_from Spec.lines].
    destruct (PyStr.islinebreak c).
    + destruct s as [|d s'].
      * rewrite append_nil_r. reflexivity.
      * cbn [String.length] in Hlen.
        destruct ((PyStr.code c =? 13)%N && (PyStr.code d =? 10)%N).
        -- rewrite append_nil_r, (IH s') by lia. f_equal.
           destruct (Spec.lines s'); reflexivity.
        -- rewrite append_nil_r, (IH (String d s')) by (cbn; lia). f_equal.
           destruct (Spec.lines (String d s')); reflexivity.
    + rewrite (IH s) by lia.
      destruct (Spec.lines s) as [|l ls].
      * unfold PyStr.flush, PyStr.snoc. destruct cur; reflexivity.
      * unfold PyStr.snoc. rewrite append_assoc. reflexivity.
Qed.

Lemma lines_splitlines s : Spec.lines s = PyStr.splitlines s.
Proof.
  unfold PyStr.splitlines.
  rewrite (splitlines_from_lines_upto (String.length s)) by lia.
  destruct (Spec.lines s); reflexivity.
Qed.

(** The removal of the leading number is that of the substitution. *)
Lemma unnumbered_strip_numbering line :
  Spec.unnumbered line = TipProxy.strip_numbering line.
Proof.
  unfold Spec.unnumbered, TipProxy.strip_numbering.
  destruct line as [|c s]; [reflexivity|].
  pose proof (span_snd PyStr.isdigit (String c s)) as Hs.
  cbn [Spec.span] in *. cbn [PyStr.lstrip_by] in *.
  destruct (PyStr.isdigit c); [|reflexivity].
  destruct (Spec.span PyStr.isdigit s) as [a b]. cbn [snd] in Hs.
  rewrite <- Hs. destruct b as [|d rest]; [reflexivity|].
  cbn [PyStr.mem_char]. rewrite orb_false_r, span_snd. reflexivity.
Qed.

End SpecTexts.

Section TrendEcho.
Import Regex TrendParts.

Lemma after_prefix_spec p s rest :
  Spec.after_prefix p s = Some rest <-> s = p +:+ rest.
Proof.
  revert s. induction p as [|a p IH]; intros s.
  - cbn [Spec.after_prefix]. rewrite append_nil_l.
    split; [intros [= ->] | intros ->]; reflexivity.
  - destruct s as [|b s]; cbn [Spec.after_prefix].
    + rewrite append_cons. split; discriminate.
    + rewrite append_cons. destruct (Ascii.eqb_spec a b) as [-> | Hne].
      * rewrite IH. split; [intros -> | intros [= ->]]; reflexivity.
      * split; [discriminate | intros [= E _]; congruence].
Qed.

Lemma matches_lit p s : matches (Lit p) s <-> s = p.
Proof.
  revert s. induction p as [|c p IH]; intros s; cbn [Lit].
  - split; [intros H; inversion H; reflexivity | intros ->; constructor].
  - split.
    + intros H. apply matches_cat_inv in H.
      destruct H as (s1 & s2 & -> & H1 & H2).
      inversion H1 as [|? c' Hc| | | | |]; subst.
      apply Ascii.eqb_eq in Hc. subst c'. apply IH in H2. subst s2.
      reflexivity.
    + intros ->. apply (m_cat _ _ (String c EmptyString) p).
      * constructor. apply Ascii.eqb_refl.
      * apply IH. reflexivity.
Qed.

Lemma matches_cat_iff r1 r2 s :
  matches (Cat r1 r2) s
  <-> exists s1 s2, s = s1 +:+ s2 /\ matches r1 s1 /\ matches r2 s2.
Proof.
  split; [apply matches_cat_inv|].
  intros (s1 & s2 & -> & H1 & H2). constructor; assumption.
Qed.

Lemma matches_cat_lit p r s :
  matches (Cat (Lit p) r) s
  <-> exists rest, Spec.after_prefix p s = Some rest /\ matches r rest.
Proof.
  rewrite matches_cat_iff. split.
  - intros (s1 & s2 & -> & H1 & H2). apply matches_lit in H1. subst s1.
    exists s2. split; [apply after_prefix_spec; reflexivity | exact H2].
  - intros (rest & Hp & Hr). apply after_prefix_spec in Hp.
    exists p, rest. split; [exact Hp|]. split; [apply matches_lit|]; auto.
Qed.

Lemma matches_cat_class q r s :
  matches (Cat (Class q) r) s
  <-> exists c rest, s = String c rest /\ q c = true /\ matches r rest.
Proof.
  rewrite matches_cat_iff. split.
  - intros (s1 & s2 & -> & H1 & H2).
    inversion H1 as [|? c Hc| | | | |]; subst.
    exists c, s2. auto.
  - intros (c & rest & -> & Hc & Hr).
    exists (String c EmptyString), rest.
    split; [reflexivity|]. split; [constructor|]; assumption.
Qed.

Lemma matches_cat_assoc r1 r2 r3 s :
  matches (Cat (Cat r1 r2) r3) s <-> matches (Cat r1 (Cat r2 r3)) s.
Proof.
  rewrite !matches_cat_iff. split.
  - intros (s12 & s3 & -> & H12 & H3). apply matches_cat_iff in H12.
    destruct H12 as (s1 & s2 & -> & H1 & H2).
    exists s1, (s2 +:+ s3). rewrite append_assoc.
    split; [reflexivity|]. split; [exact H1|]. constructor; assumption.
  - intros (s1 & s23 & -> & H1 & H23). apply matches_cat_iff in H23.
    destruct H23 as (s2 & s3 & -> & H2 & H3).
    exists (s1 +:+ s2), s3. rewrite append_assoc.
    split; [reflexivity|]. split; [constructor|]; assumption.
Qed.

Lemma matches_cat_ext r1 r2 r2' s :
  (forall t, matches r2 t <-> matches r2' t) ->
  matches (Cat r1 r2) s <-> matches (Cat r1 r2') s.
Proof.
  intros H. rewrite !matches_cat_iff.
  split; intros (s1 & s2 & E & H1 & H2); exists s1, s2;
    (split; [exact E|]); (split; [exact H1|]); apply H; exact H2.
Qed.

Lemma matches_cat_opt r1 r2 s :
  matches (Cat (Opt r1) r2) s <-> matches (Cat r1 r2) s \/ matches r2 s.
Proof.
  unfold Opt. rewrite !matches_cat_iff. split.
  - intros (s1 & s2 & -> & H1 & H2).
    inversion H1 as [| | |? ? ? Hl|? ? ? Hr| |]; subst.
    + left. exists s1, s2. auto.
    + inversion Hr; subst. right. rewrite append_nil_l. exact H2.
  - intros [(s1 & s2 & -> & H1 & H2) | H].
    + exists s1, s2. split; [reflexivity|]. split; [apply m_alt_l|]; auto.
    + exists EmptyString, s. rewrite append_nil_l.
      split; [reflexivity|]. split; [apply m_alt_r; constructor | exact H].
Qed.

Lemma matches_star_class q s :
  matches (Star (Class q)) s <-> Text.every q s = true.
Proof.
  induction s as [|c s IH].
  - split; [reflexivity | constructor].
  - cbn [Text.every]. rewrite andb_true_iff, <- IH. split.
    + intros H. apply matches_star_inv in H.
      destruct H as (s1 & s2 & -> & H1 & H2).
      inversion H1 as [|? c' Hc| | | | |]; subst.
      rewrite append_nil_l. auto.
    + intros [Hc H].
      apply (m_star_cons (Class q) c EmptyString s); [constructor|];
        assumption.
Qed.

(** A run of characters of a class before an expression that cannot start
    with a character of the class: the run is the longest one. *)
Lemma matches_cat_star_class q r s :
  (forall c t, q c = true -> ~ matches r (String c t)) ->
  matches (Cat (Star (Class q)) r) s <-> matches r (Spec.span q s).2.
Proof.
  intros Hstart. rewrite matches_cat_iff. split.
  - intros (s1 & s2 & -> & H1 & H2). apply matches_star_class in H1.
    rewrite (span_app q s1 s2); [exact H2 | exact H1|].
    destruct s2 as [|c t]; [exact I|].
    destruct (q c) eqn:Hc; [|reflexivity].
    exfalso. exact (Hstart c t Hc H2).
  - intros H. destruct (span_spec q s) as (E & He & _).
    exists (Spec.span q s).1, (Spec.span q s).2.
    split; [exact E|]. split; [apply matches_star_class, He | exact H].
Qed.

Lemma matches_star_unfold r s :
  matches (Star r) s
  <-> s = EmptyString
      \/ exists c s1 s2,
           s = String c s1 +:+ s2 /\ matches r (String c s1)
           /\ matches (Star r) s2.
Proof.
  split.
  - intros H. destruct s as [|c s]; [left; reflexivity|]. right.
    apply matches_star_inv in H. destruct H as (s1 & s2 & -> & H1 & H2).
    exists c, s1, s2. rewrite append_cons. auto.
  - intros [-> | (c & s1 & s2 & -> & H1 & H2)]; constructor; assumption.
Qed.

(** *** The items of a trend *)

Lemma matches_alt_iff r1 r2 s :
  matches (Alt r1 r2) s <-> matches r1 s \/ matches r2 s.
Proof.
  split.
  - intros H. inversion H; subst; [left | right]; assumption.
  - intros [H | H]; [apply m_alt_l | apply m_alt_r]; exact H.
Qed.

Lemma matches_day s : matches day_re s <-> PyStr.mem s Spec.days = true.
Proof.
  unfold day_re. cbn [map AltOf].
  rewrite !matches_alt_iff, !matches_lit.
  unfold PyStr.mem, Spec.days. cbn [existsb].
  rewrite !orb_true_iff, !String.eqb_eq. intuition discriminate.
Qed.

Lemma day_letters s :
  PyStr.mem s Spec.days = true ->
  exists a b c,
    s = String a (String b (String c EmptyString)) /\ sep a = false
    /\ PyStr.isspace a = false
    /\ s <> "tip".
Proof.
  intros H. unfold PyStr.mem, Spec.days in H. cbn [existsb] in H.
  repeat (apply orb_prop in H; destruct H as [H | H]);
    try discriminate H;
    apply String.eqb_eq in H; subst s;
    do 3 eexists; (split; [reflexivity|]); repeat split; discriminate.
Qed.

(** One item before an expression that cannot start with a separator. *)
Lemma matches_cat_item r s :
  (forall c t, sep c = true -> ~ matches r (String c t)) ->
  matches (Cat item_re r) s
  <-> exists rest,
        Spec.after_item Spec.one_digit s = Some rest /\ matches r rest.
Proof.
  intros Hstart. unfold item_re.
  rewrite matches_cat_assoc.
  rewrite (matches_cat_ext _ _ _ _ (fun t => matches_cat_assoc _ _ _ t)).
  rewrite (matches_cat_ext _ _ _ _
             (fun t => matches_cat_ext _ _ _ _
                         (fun u => matches_cat_assoc _ _ _ u))).
  rewrite matches_cat_iff. split.
  - intros (s1 & s2 & -> & Hd & H). apply matches_day in Hd.
    destruct (day_letters _ Hd) as (a & b & c & -> & _).
    apply matches_cat_lit in H. destruct H as (s3 & Hp & H).
    apply after_prefix_spec in Hp. subst s2.
    apply matches_cat_class in H. destruct H as (d & s4 & -> & Hdig & H).
    apply (matches_cat_star_class sep r s4 Hstart) in H.
    eexists. split; [|exact H].
    rewrite !append_cons, append_nil_l.
    cbn [Spec.after_item]. rewrite Hd. cbn [andb Ascii.eqb Bool.eqb].
    rewrite append_nil_l. cbn [Spec.one_digit]. rewrite Hdig. reflexivity.
  - intros (rest & Hi & H). unfold Spec.after_item in Hi.
    destruct s as [|a [|b [|c [|colon s2]]]]; try discriminate Hi.
    destruct (PyStr.mem _ Spec.days) eqn:Hd; [|discriminate Hi].
    destruct (Ascii.eqb_spec colon ":") as [-> | _]; [|discriminate Hi].
    cbn [andb] in Hi. unfold Spec.one_digit in Hi.
    destruct s2 as [|d s4]; [discriminate Hi|].
    destruct (PyStr.isdigit d) eqn:Hdig; [|discriminate Hi].
    injection Hi as <-.
    exists (String a (String b (String c EmptyString))),
           (String ":" (String d s4)).
    split; [reflexivity|]. split; [apply matches_day, Hd|].
    apply matches_cat_lit. exists (String d s4). split; [reflexivity|].
    apply matches_cat_class. exists d, s4. split; [reflexivity|].
    split; [exact Hdig|].
    apply (matches_cat_star_class sep r s4 Hstart). exact H.
Qed.

Lemma item_starts_with_day c t :
  matches item_re (String c t) -> sep c = false /\ PyStr.isspace c = false.
Proof.
  unfold item_re. intros H. apply matches_cat_iff in H.
  destruct H as (s1 & s2 & E & Hd & _). apply matches_day in Hd.
  destruct (day_letters _ Hd) as (a & b & c' & -> & Hs & Hw & _).
  rewrite !append_cons in E. injection E as -> _. split; assumption.
Qed.

Lemma star_items_start c t :
  matches (Star item_re) (String c t) ->
  sep c = false /\ PyStr.isspace c = false.
Proof.
  intros H. apply matches_star_inv in H.
  destruct H as (s1 & s2 & _ & H1 & _).
  apply (item_starts_with_day _ _ H1).
Qed.

Lemma plus_items_start c t :
  matches (Plus item_re) (String c t) ->
  sep c = false /\ PyStr.isspace c = false.
Proof.
  unfold Plus. intros H. apply matches_cat_iff in H.
  destruct H as (s1 & s2 & E & H1 & H2).
  destruct s1 as [|c1 s1].
  - unfold item_re in H1. apply matches_cat_iff in H1.
    destruct H1 as (d & s3 & E1 & Hd & _). apply matches_day in Hd.
    destruct (day_letters _ Hd) as (a & b & c' & -> & _).
    rewrite !append_cons in E1. discriminate E1.
  - rewrite append_cons in E. injection E as -> _.
    apply (item_starts_with_day _ _ H1).
Qed.

Lemma plus_items_unfold s :
  matches (Plus item_re) s
  <-> exists rest,
        Spec.after_item Spec.one_digit s = Some rest
        /\ (rest = EmptyString \/ matches (Plus item_re) rest).
Proof.
  unfold Plus at 1.
  rewrite matches_cat_item.
  - split; intros (rest & Hi & H); exists rest; (split; [exact Hi|]).
    + apply matches_star_unfold in H.
      destruct H as [-> | (c & s1 & s2 & -> & H1 & H2)];
        [left; reflexivity | right].
      unfold Plus. constructor; assumption.
    + destruct H as [-> | H]; [constructor|].
      unfold Plus in H. apply matches_cat_iff in H.
      destruct H as (s1 & s2 & -> & H1 & H2).
      destruct s1 as [|c s1].
      * exfalso. unfold item_re in H1. apply matches_cat_iff in H1.
        destruct H1 as (d & s3 & E1 & Hd & _). apply matches_day in Hd.
        destruct (day_letters _ Hd) as (a & b & c' & -> & _).
        rewrite !append_cons in E1. discriminate E1.
      * constructor; assumption.
  - intros c t Hc H. apply star_items_start in H. destruct H as [H _].
    congruence.
Qed.

Lemma after_item_shorter score s rest :
  Spec.after_item score s = Some rest ->
  (forall t u, score t = Some u -> (String.length u <= String.length t)%nat) ->
  (String.length rest < String.length s)%nat.
Proof.
  unfold Spec.after_item. intros H Hscore.
  destruct s as [|a [|b [|c [|colon s2]]]]; try discriminate H.
  destruct (_ && _); [|discriminate H].
  destruct (score s2) as [u|] eqn:Hu; [|discriminate H].
  injection H as <-. apply Hscore in Hu.
  pose proof (length_span_snd
                (fun c => PyStr.isspace c || Ascii.eqb c ",") u).
  cbn [String.length]. lia.
Qed.

Lemma one_digit_shorter t u :
  Spec.one_digit t = Some u -> (String.length u <= String.length t)%nat.
Proof.
  unfold Spec.one_digit. destruct t as [|d t]; [discriminate|].
  destruct (PyStr.isdigit d); [|discriminate].
  intros [= <-]. cbn. lia.
Qed.

(** The recogniser of the items decides the repetition of the pattern. *)
Lemma items_matches n :
  forall s, (String.length s <= n)%nat ->
    Spec.items Spec.one_digit n s = true <-> matches (Plus item_re) s.
Proof.
  induction n as [|n IH]; intros s Hlen.
  - destruct s; [|cbn in Hlen; lia]. cbn [Spec.items]. split; [discriminate|].
    intros H. apply plus_items_unfold in H. destruct H as (rest & Hi & _).
    discriminate Hi.
  - cbn [Spec.items]. rewrite plus_items_unfold.
    destruct (Spec.after_item Spec.one_digit s) as [rest|] eqn:Hi.
    + pose proof (after_item_shorter _ _ _ Hi one_digit_shorter) as Hl.
      rewrite orb_true_iff, (IH rest) by lia.
      rewrite is_empty_true. split.
      * intros H. exists rest. split; [reflexivity | exact H].
      * intros (rest' & [= <-] & H). exact H.
    + split; [discriminate|]. intros (rest & H & _). discriminate H.
Qed.

(** *** The whole pattern *)

Lemma trend_re_shape :
  TipProxy.trend_re
  = Cat (Opt (Cat (Lit "tip")
                  (Cat (Opt (Lit "s"))
                       (Cat (Lit ":") (Star (Class PyStr.isspace))))))
        (Plus item_re).
Proof. reflexivity. Qed.

Lemma after_heading p s :
  matches (Cat (Lit p) (Cat (Star (Class PyStr.isspace)) (Plus item_re))) s
  <-> exists rest,
        Spec.after_prefix p s = Some rest
        /\ matches (Plus item_re) (Spec.span PyStr.isspace rest).2.
Proof.
  rewrite matches_cat_lit.
  split; intros (r & Hp & H); exists r; (split; [exact Hp|]);
    apply (matches_cat_star_class PyStr.isspace (Plus item_re) r);
    try exact H;
    intros c t Hc Hm; apply plus_items_start in Hm; destruct Hm as [_ Hm];
    congruence.
Qed.

Lemma plus_items_not_tip s rest :
  Spec.after_prefix "tip" s = Some rest -> ~ matches (Plus item_re) s.
Proof.
  intros Hp H. apply after_prefix_spec in Hp. subst s.
  apply plus_items_unfold in H. destruct H as (r & Hi & _).
  rewrite !append_cons, append_nil_l in Hi.
  destruct rest as [|colon rest]; discriminate Hi.
Qed.

Lemma matches_trend_re s :
  matches TipProxy.trend_re s
  <-> (exists rest,
          Spec.after_prefix "tips:" s = Some rest
          /\ matches (Plus item_re) (Spec.span PyStr.isspace rest).2)
      \/ (exists rest,
            Spec.after_prefix "tip:" s = Some rest
            /\ matches (Plus item_re) (Spec.span PyStr.isspace rest).2)
      \/ matches (Plus item_re) s.
Proof.
  rewrite trend_re_shape, matches_cat_opt.
  rewrite matches_cat_assoc.
  rewrite (matches_cat_ext _ _ _ _ (fun t => matches_cat_assoc _ _ _ t)).
  rewrite (matches_cat_ext _ _ _ _
             (fun t => matches_cat_ext _ _ _ _
                         (fun u => matches_cat_assoc _ _ _ u))).
  rewrite matches_cat_lit.
  assert (Hhead :
    (exists rest,
        Spec.after_prefix "tip" s = Some rest
        /\ matches
             (Cat (Opt (Lit "s"))
                  (Cat (Lit ":")
                       (Cat (Star (Class PyStr.isspace)) (Plus item_re))))
             rest)
    <-> (exists rest,
            Spec.after_prefix "tips:" s = Some rest
            /\ matches (Plus item_re) (Spec.span PyStr.isspace rest).2)
        \/ (exists rest,
              Spec.after_prefix "tip:" s = Some rest
              /\ matches (Plus item_re) (Spec.span PyStr.isspace rest).2)).
  { split.
    - intros (r & Hp & H). apply after_prefix_spec in Hp. subst s.
      apply matches_cat_opt in H. destruct H as [H | H].
      + left. apply matches_cat_lit in H. destruct H as (r1 & Hp1 & H).
        apply after_prefix_spec in Hp1. subst r.
        apply (after_heading ":" _) in H.
        destruct H as (r2 & Hp2 & H).
        apply after_prefix_spec in Hp2. subst r1.
        exists r2. split; [|exact H]. apply after_prefix_spec. reflexivity.
      + right. apply (after_heading ":" _) in H.
        destruct H as (r2 & Hp2 & H).
        apply after_prefix_spec in Hp2. subst r.
        exists r2. split; [|exact H]. apply after_prefix_spec. reflexivity.
    - intros [(r & Hp & H) | (r & Hp & H)];
        apply after_prefix_spec in Hp; subst s.
      + exists ("s:" +:+ r). split; [apply after_prefix_spec; reflexivity|].
        apply matches_cat_opt. left. apply matches_cat_lit.
        exists (":" +:+ r). split; [reflexivity|].
        apply (after_heading ":" _). exists r.
        split; [reflexivity | exact H].
      + exists (":" +:+ r). split; [apply after_prefix_spec; reflexivity|].
        apply matches_cat_opt. right.
        apply (after_heading ":" _). exists r.
        split; [reflexivity | exact H]. }
  rewrite Hhead. tauto.
Qed.

(** The trend echo of the specification is the match of the pattern. *)
Lemma is_trend_echo_fullmatch line :
  Spec.is_trend_echo line
  = Regex.fullmatch TipProxy.trend_re (PyStr.lower line).
Proof.
  unfold Spec.is_trend_echo, Spec.day_score_list. cbv zeta.
  set (low := PyStr.lower line).
  apply eq_true_iff_eq.
  rewrite fullmatch_matches, matches_trend_re.
  destruct (Spec.after_prefix "tips:" low) as [r1|] eqn:H1.
  - rewrite items_matches by lia.
    assert (H2 : Spec.after_prefix "tip:" low = None).
    { apply after_prefix_spec in H1. rewrite H1. reflexivity. }
    assert (H3 : ~ matches (Plus item_re) low).
    { apply (plus_items_not_tip low ("s:" +:+ r1)).
      apply after_prefix_spec in H1. rewrite H1. reflexivity. }
    rewrite H2. split.
    + intros H. left. exists r1. split; [reflexivity | exact H].
    + intros [(r & [= <-] & H) | [(r & Hr & _) | H]];
        [exact H | discriminate Hr | contradiction].
  - destruct (Spec.after_prefix "tip:" low) as [r2|] eqn:H2.
    + rewrite items_matches by lia.
      assert (H3 : ~ matches (Plus item_re) low).
      { apply (plus_items_not_tip low (":" +:+ r2)).
        apply after_prefix_spec in H2. rewrite H2. reflexivity. }
      split.
      * intros H. right. left. exists r2. split; [reflexivity | exact H].
      * intros [(r & Hr & _) | [(r & [= <-] & H) | H]];
          [discriminate Hr | exact H | contradiction].
    + rewrite items_matches by lia. split.
      * intros H. right. right. exact H.
      * intros [(r & Hr & _) | [(r & Hr & _) | H]];
          [discriminate Hr | discriminate Hr | exact H].
Qed.

End TrendEcho.

(** ** The selection filter *)

Section SelectionFilter.

Lemma negb_existsb {A} (f : A -> bool) l :
  negb (existsb f l) = forallb (fun x => negb (f x)) l.
Proof.
  induction l as [|a l IH]; [reflexivity|].
  cbn [existsb forallb]. rewrite negb_orb, IH. reflexivity.
Qed.

(** One step of the scan: a line is dropped when the specification
    discards it or when it was seen before; otherwise it is added. *)
Lemma scan_lines_cons line rest tips seen :
  TipProxy.scan_lines (line :: rest) tips seen
  = let c := Spec.clean_line line in
    if Spec.discarded c then TipProxy.scan_lines rest tips seen
    else if bool_decide (PyStr.lower c ∈ seen)
    then TipProxy.scan_lines rest tips seen
    else if (3 <=? length (tips ++ [c]))%nat
    then TipProxy.Return (tips ++ [c])
    else TipProxy.scan_lines rest (tips ++ [c]) ({[ PyStr.lower c ]} ∪ seen).
Proof.
  cbn [TipProxy.scan_lines]. cbv zeta. unfold Spec.clean_line.
  rewrite unnumbered_strip_numbering.
  destruct (PyStr.strip line) as [|a0 s0] eqn:Hstrip; [reflexivity|].
  cbn [PyStr.is_empty].
  set (c := TipProxy.strip_numbering (String a0 s0)).
  unfold Spec.discarded. rewrite is_trend_echo_fullmatch.
  unfold Spec.is_input_echo, Spec.is_verbless_tips,
    TipProxy.search_ignorecase.
  change (PyStr.lower "anxiety:") with "anxiety:".
  change (PyStr.lower "sleep:") with "sleep:".
  change (PyStr.lower "mood:") with "mood:".
  rewrite negb_existsb.
  destruct c as [|a1 s1] eqn:Hc; [reflexivity|].
  cbn [PyStr.is_empty orb].
  destruct (Regex.fullmatch TipProxy.trend_re _); [reflexivity|].
  cbn [orb].
  destruct (PyStr.contains "anxiety:" _ && PyStr.contains "sleep:" _
            && PyStr.contains "mood:" _); [reflexivity|].
  cbn [orb].
  destruct (PyStr.startswith "tips:" _ && forallb _ _); [reflexivity|].
  cbn [orb]. reflexivity.
Qed.

Lemma distinct_nocase_ext s1 s2 l :
  (forall x, x ∈ s1 <-> x ∈ s2) ->
  Spec.distinct_nocase s1 l = Spec.distinct_nocase s2 l.
Proof.
  revert s1 s2. induction l as [|a l IH]; intros s1 s2 H; [reflexivity|].
  cbn [Spec.distinct_nocase].
  assert (Hm : PyStr.mem (PyStr.lower a) s1 = PyStr.mem (PyStr.lower a) s2).
  { destruct (PyStr.mem (PyStr.lower a) s2) eqn:E.
    - apply mem_true. apply H. apply mem_true. exact E.
    - apply mem_false. rewrite H. apply mem_false. exact E. }
  rewrite Hm. destruct (PyStr.mem (PyStr.lower a) s2).
  - apply IH, H.
  - f_equal. apply IH. intros x. rewrite !elem_of_cons, H. reflexivity.
Qed.

Lemma distinct_nocase_app seen l1 l2 :
  Spec.distinct_nocase seen (l1 ++ l2)
  = Spec.distinct_nocase seen l1
    ++ Spec.distinct_nocase (Spec.seen_after seen l1) l2.
Proof.
  unfold Spec.seen_after.
  revert seen. induction l1 as [|a l1 IH]; intros seen; [reflexivity|].
  cbn [app Spec.distinct_nocase].
  destruct (PyStr.mem (PyStr.lower a) seen); [apply IH|].
  cbn [app map rev]. f_equal. rewrite IH. f_equal.
  rewrite <- app_assoc. reflexivity.
Qed.

Lemma snoc_app (tips : list string) c rest :
  tips ++ c :: rest = (tips ++ [c]) ++ rest.
Proof. rewrite <- app_assoc. reflexivity. Qed.

Lemma take3_full (tips rest : list string) :
  length tips = 3%nat -> take 3 (tips ++ rest) = tips.
Proof. intros <-. apply take_app_length. Qed.

(** The scan of the lines of one candidate, against the specification. *)
Lemma scan_lines_spec lines :
  forall tips (seen : gset string) seenl,
    (forall x, x ∈ seen <-> x ∈ seenl) ->
    (length tips < 3)%nat ->
    let kept := Spec.distinct_nocase seenl (Spec.kept_lines lines) in
    match TipProxy.scan_lines lines tips seen with
    | TipProxy.Return t =>
        t = take 3 (tips ++ kept) /\ (3 <= length (tips ++ kept))%nat
    | TipProxy.Continue t s =>
        t = tips ++ kept /\ (length t < 3)%nat
        /\ (forall x, x ∈ s <-> x ∈ Spec.seen_after seenl (Spec.kept_lines lines))
    end.
Proof.
  induction lines as [|line rest IH]; intros tips seen seenl Hseen Hlen.
  - cbn. rewrite app_nil_r. split; [reflexivity|]. split; [exact Hlen|].
    exact Hseen.
  - rewrite scan_lines_cons. cbv zeta.
    unfold Spec.kept_lines. cbn [map]. rewrite filter_cons.
    fold (Spec.kept_lines rest).
    destruct (Spec.discarded (Spec.clean_line line)) eqn:Hd.
    + destruct (decide _) as [Hn | _]; [exfalso; exact Hn|].
      apply IH; assumption.
    + destruct (decide _) as [_ | Hn]; [|exfalso; apply Hn; exact I].
      set (c := Spec.clean_line line).
      cbn [Spec.distinct_nocase]. unfold Spec.seen_after.
      cbn [Spec.distinct_nocase].
      destruct (PyStr.mem (PyStr.lower c) seenl) eqn:Hm.
      * rewrite bool_decide_eq_true_2
          by (apply Hseen, mem_true; exact Hm).
        apply IH; assumption.
      * rewrite bool_decide_eq_false_2
          by (rewrite Hseen; apply mem_false; exact Hm).
        assert (Hseen' : forall x, x ∈ ({[ PyStr.lower c ]} ∪ seen : gset string)
                                   <-> x ∈ PyStr.lower c :: seenl).
        { intros x. rewrite elem_of_union, elem_of_singleton, elem_of_cons,
            Hseen. reflexivity. }
        destruct (3 <=? length (tips ++ [c]))%nat eqn:Hfull.
        -- apply Nat.leb_le in Hfull. rewrite length_app in Hfull.
           cbn [length] in Hfull.
           rewrite (snoc_app tips c (Spec.distinct_nocase _ _)). split.
           ++ symmetry. apply (take3_full (tips ++ [c])).
              rewrite length_app. cbn. lia.
           ++ rewrite !length_app. cbn. lia.
        -- apply Nat.leb_gt in Hfull.
           specialize (IH (tips ++ [c]) _ _ Hseen' Hfull). cbv zeta in IH.
           rewrite (snoc_app tips c (Spec.distinct_nocase _ _)).
           destruct (TipProxy.scan_lines rest (tips ++ [c]) _) as [t | t s].
           ++ exact IH.
           ++ destruct IH as (Ht & Hl & Hs). split; [exact Ht|].
              split; [exact Hl|]. intros x. rewrite Hs.
              unfold Spec.seen_after. cbn [map rev].
              rewrite <- app_assoc. reflexivity.
Qed.

Lemma scan_outputs_spec raw :
  forall tips (seen : gset string) seenl,
    (forall x, x ∈ seen <-> x ∈ seenl) ->
    (length tips < 3)%nat ->
    TipProxy.scan_outputs raw tips seen
    = take 3 (tips ++ Spec.distinct_nocase seenl
                        (Spec.kept_lines (Spec.candidate_lines raw))).
Proof.
  induction raw as [|t rest IH]; intros tips seen seenl Hseen Hlen.
  - cbn. rewrite app_nil_r. symmetry. apply take_ge. lia.
  - cbn [TipProxy.scan_outputs Spec.candidate_lines flat_map]. cbv zeta.
    fold (Spec.candidate_lines rest). rewrite lines_splitlines.
    unfold Spec.kept_lines. rewrite map_app, filter_app.
    fold (Spec.kept_lines (PyStr.splitlines (PyStr.strip t))).
    fold (Spec.kept_lines (Spec.candidate_lines rest)).
    rewrite distinct_nocase_app.
    pose proof (scan_lines_spec (PyStr.splitlines (PyStr.strip t))
                  tips seen seenl Hseen Hlen) as Hscan.
    cbv zeta in Hscan.
    destruct (TipProxy.scan_lines _ tips seen) as [t' | t' s'].
    + destruct Hscan as (-> & Hfull).
      rewrite app_assoc.
      rewrite (take_app_le (tips ++ Spec.distinct_nocase seenl _) _ 3)
        by exact Hfull.
      reflexivity.
    + destruct Hscan as (-> & Hl & Hs).
      rewrite (IH _ _ _ Hs Hl). rewrite <- app_assoc. reflexivity.
Qed.

End SelectionFilter.




(** * Further properties of the code *)


(** ** The notes featurizer on blank, padded and repeated texts *)

Section NotesFacts.

Lemma train_notes_as_serve text :
  Train.notes_featurize text = Serve.notes_featurize text.
Proof.
  symmetry. apply map_eq. intros k.
  unfold Serve.notes_featurize, Train.notes_featurize. cbv zeta.
  rewrite sentiment_agree.
  cbn [list_to_map foldr uncurry fst snd].
  rewrite !lookup_insert.
  repeat (case_decide; [subst k; reflexivity|]).
  reflexivity.
Qed.

Lemma note_keys_cases k :
  k ∈ Spec.note_keys ->
  k = "notes_len" \/ k = "notes_words" \/ k = "notes_sentiment"
  \/ k = "kw_work" \/ k = "kw_school" \/ k = "kw_exam" \/ k = "kw_sleep"
  \/ k = "kw_social" \/ k = "kw_finance" \/ k = "kw_health".
Proof.
  unfold Spec.note_keys, Train.NOTE_NUMERIC, Train.NOTE_KEYWORDS.
  cbn [app]. rewrite !elem_of_cons, elem_of_nil. tauto.
Qed.

Lemma flag_cases b : PyNum.flag b = 0%Q \/ PyNum.flag b = 1%Q.
Proof. destruct b; [right | left]; reflexivity. Qed.

Lemma sentiment_range text : (-1 <= Serve._simple_sentiment text <= 1)%Q.
Proof.
  rewrite serve_sentiment_spec.
  unfold Spec.sentiment_both_ends, Spec.sentiment_with.
  destruct (PyStr.is_empty text); [lra | apply clamp_bounds].
Qed.

Lemma sentiment_of_words text1 text2 :
  PyStr.is_empty text1 = false -> PyStr.is_empty text2 = false ->
  (list_to_set (map (fun w => PyStr.lower (PyStr.strip_chars ".,!?" w))
                    (PyStr.split text1)) : gset string)
  = list_to_set (map (fun w => PyStr.lower (PyStr.strip_chars ".,!?" w))
                     (PyStr.split text2)) ->
  Serve._simple_sentiment text1 = Serve._simple_sentiment text2.
Proof.
  intros H1 H2 Hw. unfold Serve._simple_sentiment.
  rewrite H1, H2. cbv zeta. rewrite Hw. reflexivity.
Qed.

Lemma joined_not_empty a b : PyStr.is_empty (a +:+ " " +:+ b) = false.
Proof. destruct a; reflexivity. Qed.

End NotesFacts.

(** X1.  A note that is absent, empty or made of whitespace only gives the
    value 0.0 under each of the ten keys, at serving and at training time. *)
Theorem X1_blank_note_all_zero (text : option string) (k : string) :
  text = None \/ (exists s, text = Some s /\ Text.blank s = true) ->
  k ∈ Spec.note_keys ->
  Serve.notes_featurize text !! k = Some 0%Q
  /\ Train.notes_featurize text !! k = Some 0%Q.
Proof.
  intros Hblank Hk.
  assert (Hstrip : PyStr.strip (default "" text) = EmptyString).
  { destruct Hblank as [-> | (s & -> & Hs)]; [reflexivity|].
    apply strip_blank, Hs. }
  assert (H : Serve.notes_featurize text !! k = Some 0%Q).
  { unfold Serve.notes_featurize. cbv zeta. rewrite Hstrip.
    apply note_keys_cases in Hk.
    repeat (destruct Hk as [-> | Hk]; [reflexivity|]).
    subst k. reflexivity. }
  split; [exact H | rewrite train_notes_as_serve; exact H].
Qed.

Lemma X1_blank_note_all_zero_witness :
  Serve.notes_featurize (Some "   ") !! "kw_work" = Some 0%Q.
Proof.
  apply (X1_blank_note_all_zero (Some "   ") "kw_work").
  - right. exists "   ". split; reflexivity.
  - by_evaluation.
Defined.

(** X2.  The features of a note are in range: the length and the number of
    words are whole numbers with 0 <= words <= length, the sentiment lies in
    [-1, 1] and every keyword flag is 0.0 or 1.0; all ten keys are present
    and there is no other key. *)
Theorem X2_note_features_in_range (text : option string) :
  (forall k, is_Some (Serve.notes_featurize text !! k) <-> k ∈ Spec.note_keys)
  /\ (exists len words : nat,
        Serve.notes_featurize text !! "notes_len"
        = Some (inject_Z (Z.of_nat len))
        /\ Serve.notes_featurize text !! "notes_words"
           = Some (inject_Z (Z.of_nat words))
        /\ (words <= len)%nat)
  /\ (exists sent : Q,
        Serve.notes_featurize text !! "notes_sentiment" = Some sent
        /\ (-1 <= sent <= 1)%Q)
  /\ (forall k, k ∈ Train.NOTE_KEYWORDS ->
        Serve.notes_featurize text !! k = Some 0%Q
        \/ Serve.notes_featurize text !! k = Some 1%Q).
Proof.
  split; [apply serve_notes_keys|].
  unfold Serve.notes_featurize. cbv zeta.
  set (t := PyStr.strip (default "" text)).
  split; [|split].
  - exists (String.length t),
      (length (filter (fun w => negb (PyStr.is_empty w)) (PyStr.split t))).
    split; [reflexivity|]. split; [reflexivity|].
    etransitivity; [apply length_filter | apply length_split].
  - eexists. split; [reflexivity | apply sentiment_range].
  - intros k Hk. unfold Train.NOTE_KEYWORDS in Hk.
    rewrite !elem_of_cons, elem_of_nil in Hk.
    cbn [list_to_map foldr uncurry fst snd].
    repeat (destruct Hk as [-> | Hk];
            [repeat (rewrite lookup_insert_ne by discriminate);
             rewrite lookup_insert_eq;
             match goal with
             | |- Some (PyNum.flag ?b) = _ \/ _ =>
                 destruct (flag_cases b) as [-> | ->];
                 [left | right]; reflexivity
             end|]).
    contradiction.
Qed.

(** X3.  Whitespace before and after a note does not change its features. *)
Theorem X3_note_padding_ignored (pre s post : string) :
  Text.blank pre = true -> Text.blank post = true ->
  Serve.notes_featurize (Some (pre +:+ s +:+ post))
  = Serve.notes_featurize (Some s)
  /\ Train.notes_featurize (Some (pre +:+ s +:+ post))
     = Train.notes_featurize (Some s).
Proof.
  intros Hpre Hpost.
  assert (H : Serve.notes_featurize (Some (pre +:+ s +:+ post))
              = Serve.notes_featurize (Some s)).
  { unfold Serve.notes_featurize. cbv zeta.
    change (default "" (Some (pre +:+ s +:+ post))) with (pre +:+ s +:+ post).
    change (default "" (Some s)) with s.
    rewrite (strip_padding pre s post Hpre Hpost). reflexivity. }
  split; [exact H|].
  rewrite (train_notes_as_serve (Some (pre +:+ s +:+ post))).
  rewrite (train_notes_as_serve (Some s)). exact H.
Qed.

Lemma X3_note_padding_ignored_witness :
  Serve.notes_featurize (Some ("  " +:+ "Work deadline" +:+ " "))
  = Serve.notes_featurize (Some "Work deadline").
Proof.
  apply (X3_note_padding_ignored "  " "Work deadline" " "); reflexivity.
Defined.

(** X4.  The sentiment counts every word once and does not depend on the
    order of the words: two texts joined by a space score the same in either
    order, and a text joined to itself scores as the text alone. *)
Theorem X4_sentiment_order_and_repeats (a b : string) :
  Serve._simple_sentiment (a +:+ " " +:+ b)
  = Serve._simple_sentiment (b +:+ " " +:+ a)
  /\ (Serve._simple_sentiment (a +:+ " " +:+ a) == Serve._simple_sentiment a)%Q.
Proof.
  split.
  - apply sentiment_of_words; try apply joined_not_empty.
    rewrite !split_space, !map_app, !list_to_set_app_L.
    apply (comm_L (∪)).
  - destruct a as [|c a]; [vm_compute; reflexivity|].
    assert (Heq : Serve._simple_sentiment (String c a +:+ " " +:+ String c a)
                  = Serve._simple_sentiment (String c a));
      [|rewrite Heq; reflexivity].
    apply sentiment_of_words; try reflexivity.
    rewrite split_space, map_app, list_to_set_app_L.
    apply (idemp_L (∪)).
Qed.

(** ** The feature row, column by column *)

Section RowFacts.

Variables numeric_features trigger_features : list string.

Local Abbreviation row_t := (gmap string Serve.value).

Local Abbreviation keys_within :=
  (RowShape.keys_within numeric_features trigger_features).

Lemma keys_within_insert (row : row_t) k v :
  k ∈ numeric_features \/ k ∈ trigger_features ->
  keys_within row -> keys_within (<[k := v]> row).
Proof.
  intros Hk Hrow k'. rewrite lookup_insert. case_decide.
  - subst. intros _. exact Hk.
  - apply Hrow.
Qed.

Lemma keys_within_wanted (row : row_t) k v :
  keys_within row ->
  keys_within (if Serve.wanted numeric_features k then <[k := v]> row else row).
Proof.
  intros Hrow. destruct (Serve.wanted numeric_features k) eqn:Hw; [|exact Hrow].
  apply keys_within_insert; [|exact Hrow].
  left. apply bool_decide_eq_true in Hw. exact Hw.
Qed.

Lemma keys_within_foldl {A} (f : row_t -> A -> row_t) l (row : row_t) :
  (forall r x, x ∈ l -> keys_within r -> keys_within (f r x)) ->
  keys_within row -> keys_within (foldl f row l).
Proof.
  revert row. induction l as [|a l IH]; intros row Hf Hrow; [exact Hrow|].
  cbn [foldl]. apply IH.
  - intros r x Hx. apply Hf. right. exact Hx.
  - apply Hf; [left | exact Hrow].
Qed.

Lemma keys_within_add_base entry (row : row_t) :
  keys_within row -> keys_within (Serve.add_base numeric_features entry row).
Proof.
  intros Hrow. unfold Serve.add_base. cbv zeta.
  cbn [foldl list_to_map foldr uncurry fst snd].
  repeat (rewrite lookup_insert_eq || rewrite lookup_insert_ne by discriminate).
  repeat apply keys_within_wanted. exact Hrow.
Qed.

Lemma keys_within_add_time dt (row : row_t) :
  keys_within row -> keys_within (Serve.add_time numeric_features dt row).
Proof.
  intros Hrow. unfold Serve.add_time. cbv zeta.
  unfold Serve.USE_DOW_SIN, Serve.USE_DOW_COS, Serve.USE_HOUR_SIN,
    Serve.USE_HOUR_COS.
  repeat match goal with
         | |- keys_within (if _ || _ then _ else ?r) =>
             destruct (_ || _)
         | |- keys_within (if Serve.wanted _ _ then _ else _) =>
             apply keys_within_wanted
         end.
  all: exact Hrow.
Qed.

Lemma keys_within_add_triggers entry (row : row_t) :
  keys_within row -> keys_within (Serve.add_triggers trigger_features entry row).
Proof.
  intros Hrow. unfold Serve.add_triggers.
  destruct (bool_decide ("triggers" ∈ trigger_features)) eqn:Hs; cbv zeta.
  - apply keys_within_insert; [|exact Hrow].
    right. apply bool_decide_eq_true in Hs. exact Hs.
  - apply keys_within_foldl; [|exact Hrow].
    intros r tf Htf Hr. destruct (PyStr.startswith "trigger_" tf); [|exact Hr].
    apply keys_within_insert; [right; exact Htf | exact Hr].
Qed.

Lemma keys_within_add_notes entry (row : row_t) :
  keys_within row -> keys_within (Serve.add_notes numeric_features entry row).
Proof.
  intros Hrow. unfold Serve.add_notes. cbv zeta.
  assert (Hfold : keys_within
    (foldl (fun row kv => if Serve.wanted numeric_features kv.1
                          then <[kv.1 := Serve.VFloat kv.2]> row else row)
           row (map_to_list (Serve.notes_featurize (Serve.notes entry))))).
  { apply keys_within_foldl; [|exact Hrow].
    intros r kv _ Hr. apply keys_within_wanted, Hr. }
  destruct (Serve.wanted numeric_features "notes_sent") eqn:Hw; [|exact Hfold].
  destruct (Serve.notes_featurize (Serve.notes entry) !! "notes_sentiment");
    [|exact Hfold].
  apply keys_within_insert; [|exact Hfold].
  left. apply bool_decide_eq_true in Hw. exact Hw.
Qed.

Lemma keys_within_fill (row : row_t) :
  keys_within row ->
  keys_within (Serve.fill_defaults numeric_features trigger_features row).
Proof.
  intros Hrow. unfold Serve.fill_defaults. cbv zeta.
  apply keys_within_foldl; [|exact Hrow].
  intros r col Hcol Hr. destruct (r !! col); [exact Hr|].
  apply keys_within_insert; [|exact Hr].
  apply expected_cols_elem, Hcol.
Qed.

Lemma keys_within_computed entry dt :
  keys_within (Serve.computed_columns numeric_features trigger_features
                                      entry dt).
Proof.
  unfold Serve.computed_columns. cbv zeta.
  apply keys_within_add_notes, keys_within_add_triggers,
    keys_within_add_time, keys_within_add_base.
  intros k [v Hv]. rewrite lookup_empty in Hv. discriminate.
Qed.

(** The value of a base column that is wanted, read before the later
    steps. *)
Lemma add_base_lookup entry (row : row_t) k :
  k ∈ numeric_features ->
  (k = "sleep" ->
   Serve.add_base numeric_features entry row !! k
   = Some (Serve.VFloat (Serve.sleep entry)))
  /\ (k = "energy" ->
      Serve.add_base numeric_features entry row !! k
      = Some (Serve.VFloat (Serve.energy entry)))
  /\ (k = "anxiety_7d_avg" ->
      Serve.add_base numeric_features entry row !! k
      = Some (Serve.VFloat (Serve.anxiety_7d_avg entry))).
Proof.
  intros Hin.
  assert (Hw : Serve.wanted numeric_features k = true)
    by (apply bool_decide_eq_true, Hin).
  unfold Serve.add_base. cbv zeta.
  cbn [foldl list_to_map foldr uncurry fst snd].
  repeat (rewrite lookup_insert_eq || rewrite lookup_insert_ne by discriminate).
  repeat split; intros ->; rewrite Hw;
    repeat match goal with
           | |- context [ if ?b then _ else _ ] => destruct b
           end;
    repeat (rewrite lookup_insert_eq || rewrite lookup_insert_ne by discriminate);
    reflexivity.
Qed.

Lemma later_steps_keep entry (row : row_t) k :
  k ∉ Spec.note_keys -> k <> "notes_sent" -> k <> "triggers" ->
  PyStr.startswith "trigger_" k = false ->
  Serve.add_notes numeric_features entry
    (Serve.add_triggers trigger_features entry row) !! k = row !! k.
Proof.
  intros Hn Hs Hg Hp.
  rewrite add_notes_other by assumption.
  apply add_triggers_other; assumption.
Qed.

Lemma add_time_lookup dt (row : row_t) :
  ("hour" ∈ numeric_features ->
   Serve.add_time numeric_features dt row !! "hour"
   = Some (Serve.VFloat (inject_Z (Serve.hour dt))))
  /\ ("is_weekend" ∈ numeric_features ->
      Serve.add_time numeric_features dt row !! "is_weekend"
      = Some (Serve.VFloat
                (inject_Z (if (5 <=? Serve.weekday dt)%Z then 1 else 0))))
  /\ ("dow_sin" ∈ numeric_features ->
      Serve.add_time numeric_features dt row !! "dow_sin"
      = Some (Serve.VSin (Serve.weekday dt) 7))
  /\ ("dow_cos" ∈ numeric_features ->
      Serve.add_time numeric_features dt row !! "dow_cos"
      = Some (Serve.VCos (Serve.weekday dt) 7))
  /\ ("hour_sin" ∈ numeric_features ->
      Serve.add_time numeric_features dt row !! "hour_sin"
      = Some (Serve.VSin (Serve.hour dt) 24))
  /\ ("hour_cos" ∈ numeric_features ->
      Serve.add_time numeric_features dt row !! "hour_cos"
      = Some (Serve.VCos (Serve.hour dt) 24)).
Proof.
  unfold Serve.add_time. cbv zeta.
  unfold Serve.USE_DOW_SIN, Serve.USE_DOW_COS, Serve.USE_HOUR_SIN,
    Serve.USE_HOUR_COS, PyNum.of_int.
  repeat split; intros Hin;
    match goal with
    | |- _ !! ?k = _ =>
        assert (Hw : Serve.wanted numeric_features k = true)
          by (apply bool_decide_eq_true, Hin)
    end;
    rewrite ?Hw; cbn [orb]; rewrite ?orb_true_r;
    repeat match goal with
           | |- context [ if Serve.wanted ?n ?k then _ else _ ] =>
               destruct (Serve.wanted n k)
           end;
    cbn [orb];
    repeat (rewrite lookup_insert_eq || rewrite lookup_insert_ne by discriminate);
    try reflexivity; try discriminate Hw.
Qed.

(** The loop over the note features writes the value of a wanted key. *)
Lemma notes_fold_in (items : list (string * Q)) (row : row_t) k v :
  NoDup items.*1 -> (k, v) ∈ items ->
  Serve.wanted numeric_features k = true ->
  foldl (fun row kv => if Serve.wanted numeric_features kv.1
                       then <[kv.1 := Serve.VFloat kv.2]> row else row)
        row items !! k = Some (Serve.VFloat v).
Proof.
  revert row. induction items as [|[a va] items IH]; intros row Hnd Hin Hw.
  - inversion Hin.
  - cbn [foldl fst snd]. cbn in Hnd. apply NoDup_cons in Hnd.
    destruct Hnd as [Ha Hnd].
    apply elem_of_cons in Hin. destruct Hin as [[= <- <-] | Hin].
    + rewrite notes_fold_other by exact Ha.
      rewrite Hw. apply lookup_insert_eq.
    + apply IH; assumption.
Qed.

Lemma add_notes_lookup entry (row : row_t) k v :
  k ∈ numeric_features ->
  Serve.notes_featurize (Serve.notes entry) !! k = Some v ->
  Serve.add_notes numeric_features entry row !! k = Some (Serve.VFloat v).
Proof.
  intros Hin Hv. unfold Serve.add_notes. cbv zeta.
  assert (Hw : Serve.wanted numeric_features k = true)
    by (apply bool_decide_eq_true, Hin).
  assert (Hfold :
    foldl (fun row kv => if Serve.wanted numeric_features kv.1
                         then <[kv.1 := Serve.VFloat kv.2]> row else row)
          row (map_to_list (Serve.notes_featurize (Serve.notes entry)))
      !! k = Some (Serve.VFloat v)).
  { apply notes_fold_in; [apply NoDup_fst_map_to_list | | exact Hw].
    apply elem_of_map_to_list, Hv. }
  assert (Hk : k <> "notes_sent").
  { intros ->.
    assert (Hkey : "notes_sent" ∈ Spec.note_keys)
      by (apply (serve_notes_keys (Serve.notes entry)); eexists; exact Hv).
    revert Hkey. by_evaluation. }
  destruct (Serve.wanted numeric_features "notes_sent"); [|exact Hfold].
  destruct (Serve.notes_featurize (Serve.notes entry) !! "notes_sentiment");
    [|exact Hfold].
  rewrite lookup_insert_ne by congruence. exact Hfold.
Qed.

Lemma add_notes_alias entry (row : row_t) :
  "notes_sent" ∈ numeric_features ->
  Serve.add_notes numeric_features entry row !! "notes_sent"
  = Some (Serve.VFloat
            (Serve._simple_sentiment
               (PyStr.strip (default "" (Serve.notes entry))))).
Proof.
  intros Hin. unfold Serve.add_notes. cbv zeta.
  rewrite (bool_decide_eq_true_2 _ Hin : Serve.wanted _ _ = true).
  assert (Hs : Serve.notes_featurize (Serve.notes entry) !! "notes_sentiment"
               = Some (Serve._simple_sentiment
                         (PyStr.strip (default "" (Serve.notes entry)))))
    by reflexivity.
  rewrite Hs. apply lookup_insert_eq.
Qed.

(** With the column [triggers] in the trigger list, no step computes a
    [trigger_] column. *)
Lemma computed_prefixed_string_mode entry dt col :
  "triggers" ∈ trigger_features ->
  PyStr.startswith "trigger_" col = true ->
  Serve.computed_columns numeric_features trigger_features entry dt !! col
  = None.
Proof.
  intros Hmode Hp. unfold Serve.computed_columns. cbv zeta.
  destruct (prefixed_is_fresh col Hp) as (Hb & Ht & Hn & Hs & Hg).
  rewrite add_notes_other by assumption.
  unfold Serve.add_triggers. rewrite (bool_decide_eq_true_2 _ Hmode). cbv zeta.
  rewrite lookup_insert_ne by congruence.
  rewrite add_time_other, add_base_other by assumption.
  apply lookup_empty.
Qed.

End RowFacts.

(** X5.  The keys of a feature row are the columns of the manifest, no
    more and no fewer. *)
Theorem X5_row_keys_are_manifest
    (fromisoformat : string -> option Serve.datetime)
    (numeric_features trigger_features : list string)
    (entry : Serve.CheckInEntry) (row : gmap string Serve.value) :
  Serve.build_feature_row fromisoformat numeric_features trigger_features entry
  = inr row ->
  dom row = (list_to_set numeric_features ∪ list_to_set trigger_features
             : gset string).
Proof.
  intros Hrow.
  destruct (build_feature_row_inr _ _ _ _ _ Hrow) as (dt & _ & ->).
  apply set_eq. intros k.
  rewrite elem_of_dom, elem_of_union, !elem_of_list_to_set. split.
  - apply keys_within_fill, keys_within_computed.
  - apply fill_defaults_covers.
Qed.

Lemma X5_row_keys_are_manifest_witness :
  exists row,
    Serve.build_feature_row IsoClock.read ["mood"; "hour"]
                            ["trigger_work"] Sample.check_in = inr row
    /\ dom row = (list_to_set ["mood"; "hour"] ∪ list_to_set ["trigger_work"]
                  : gset string).
Proof.
  eexists. split; [reflexivity|].
  apply (X5_row_keys_are_manifest IsoClock.read ["mood"; "hour"]
           ["trigger_work"] Sample.check_in).
  reflexivity.
Defined.

(** X6.  The columns [sleep], [energy] and [anxiety_7d_avg] hold the
    values of the check-in unchanged when the numeric list names them. *)
Theorem X6_base_columns_unchanged
    (fromisoformat : string -> option Serve.datetime)
    (numeric_features trigger_features : list string)
    (entry : Serve.CheckInEntry) (row : gmap string Serve.value) :
  Serve.build_feature_row fromisoformat numeric_features trigger_features entry
  = inr row ->
  ("sleep" ∈ numeric_features ->
   row !! "sleep" = Some (Serve.VFloat (Serve.sleep entry)))
  /\ ("energy" ∈ numeric_features ->
      row !! "energy" = Some (Serve.VFloat (Serve.energy entry)))
  /\ ("anxiety_7d_avg" ∈ numeric_features ->
      row !! "anxiety_7d_avg"
      = Some (Serve.VFloat (Serve.anxiety_7d_avg entry))).
Proof.
  intros Hrow.
  destruct (build_feature_row_inr _ _ _ _ _ Hrow) as (dt & _ & ->).
  repeat split; intros Hin; apply fill_defaults_keeps;
    unfold Serve.computed_columns; cbv zeta;
    (rewrite later_steps_keep;
     [| by_evaluation | discriminate | discriminate | reflexivity]);
    (rewrite add_time_other; [| by_evaluation]);
    apply (add_base_lookup numeric_features entry ∅ _ Hin); reflexivity.
Qed.

Lemma X6_base_columns_unchanged_witness :
  exists row,
    Serve.build_feature_row IsoClock.read Train.NUMERIC_FEATURES
                            Train.TRIGGER_FEATURES Sample.check_in = inr row
    /\ row !! "sleep" = Some (Serve.VFloat 6).
Proof.
  eexists. split; [reflexivity|].
  apply (X6_base_columns_unchanged IsoClock.read Train.NUMERIC_FEATURES
           Train.TRIGGER_FEATURES Sample.check_in _ eq_refl).
  by_evaluation.
Defined.

(** X7.  A note column that the numeric list names holds the value the
    notes featurizer gives under the same key, and the older column
    [notes_sent] holds the sentiment. *)
Theorem X7_note_columns_from_featurizer
    (fromisoformat : string -> option Serve.datetime)
    (numeric_features trigger_features : list string)
    (entry : Serve.CheckInEntry) (row : gmap string Serve.value) :
  Serve.build_feature_row fromisoformat numeric_features trigger_features entry
  = inr row ->
  (forall k v, k ∈ numeric_features ->
     Serve.notes_featurize (Serve.notes entry) !! k = Some v ->
     row !! k = Some (Serve.VFloat v))
  /\ ("notes_sent" ∈ numeric_features ->
      row !! "notes_sent"
      = Some (Serve.VFloat
                (Serve._simple_sentiment
                   (PyStr.strip (default "" (Serve.notes entry)))))).
Proof.
  intros Hrow.
  destruct (build_feature_row_inr _ _ _ _ _ Hrow) as (dt & _ & ->).
  split.
  - intros k v Hin Hv. apply fill_defaults_keeps.
    unfold Serve.computed_columns. cbv zeta.
    apply add_notes_lookup; assumption.
  - intros Hin. apply fill_defaults_keeps.
    unfold Serve.computed_columns. cbv zeta.
    apply add_notes_alias, Hin.
Qed.

Lemma X7_note_columns_from_featurizer_witness :
  exists row,
    Serve.build_feature_row IsoClock.read Train.NUMERIC_FEATURES
                            Train.TRIGGER_FEATURES Sample.check_in = inr row
    /\ row !! "kw_work" = Some (Serve.VFloat 1).
Proof.
  eexists. split; [reflexivity|].
  apply (proj1 (X7_note_columns_from_featurizer
                  IsoClock.read Train.NUMERIC_FEATURES
                  Train.TRIGGER_FEATURES Sample.check_in _ eq_refl)).
  - by_evaluation.
  - vm_compute. reflexivity.
Defined.

(** X8.  The time columns that the numeric list names hold the hour, the
    weekend flag (1.0 on Saturday and Sunday, 0.0 otherwise) and the sine
    and cosine of the day of the week over 7 and of the hour over 24. *)
Theorem X8_time_columns
    (fromisoformat : string -> option Serve.datetime)
    (numeric_features trigger_features : list string)
    (entry : Serve.CheckInEntry) (dt : Serve.datetime) :
  fromisoformat (PyStr.replace "Z" "+00:00" (Serve.timestamp entry)) = Some dt ->
  exists row,
    Serve.build_feature_row fromisoformat numeric_features trigger_features
                            entry = inr row
    /\ ("hour" ∈ numeric_features ->
        row !! "hour" = Some (Serve.VFloat (inject_Z (Serve.hour dt))))
    /\ ("is_weekend" ∈ numeric_features ->
        row !! "is_weekend"
        = Some (Serve.VFloat
                  (inject_Z (if (5 <=? Serve.weekday dt)%Z then 1 else 0))))
    /\ ("dow_sin" ∈ numeric_features ->
        row !! "dow_sin" = Some (Serve.VSin (Serve.weekday dt) 7))
    /\ ("dow_cos" ∈ numeric_features ->
        row !! "dow_cos" = Some (Serve.VCos (Serve.weekday dt) 7))
    /\ ("hour_sin" ∈ numeric_features ->
        row !! "hour_sin" = Some (Serve.VSin (Serve.hour dt) 24))
    /\ ("hour_cos" ∈ numeric_features ->
        row !! "hour_cos" = Some (Serve.VCos (Serve.hour dt) 24)).
Proof.
  intros Hdt. unfold Serve.build_feature_row. rewrite Hdt.
  eexists. split; [reflexivity|].
  pose proof (add_time_lookup numeric_features dt
                (Serve.add_base numeric_features entry ∅))
    as (H1 & H2 & H3 & H4 & H5 & H6).
  repeat split; intros Hin; apply fill_defaults_keeps;
    unfold Serve.computed_columns; cbv zeta;
    (rewrite later_steps_keep;
     [| by_evaluation | discriminate | discriminate | reflexivity]);
    auto.
Qed.

Lemma X8_time_columns_witness :
  exists row,
    Serve.build_feature_row IsoClock.read ["hour"; "is_weekend"; "dow_sin"]
                            ["triggers"] Sample.calmer_check_in = inr row
    /\ row !! "is_weekend" = Some (Serve.VFloat 1).
Proof.
  destruct (X8_time_columns IsoClock.read ["hour"; "is_weekend"; "dow_sin"]
              ["triggers"] Sample.calmer_check_in
              {| Serve.hour := 22; Serve.weekday := 5 |} eq_refl)
    as (row & Hrow & _ & Hw & _).
  exists row. split; [exact Hrow|]. apply Hw. by_evaluation.
Defined.

(** X9.  When the trigger list has the column [triggers], the triggers are
    encoded in that column alone: every [trigger_] column of the manifest
    holds the default 0.0, whatever the triggers of the check-in. *)
Theorem X9_string_mode_wins
    (fromisoformat : string -> option Serve.datetime)
    (numeric_features trigger_features : list string)
    (entry : Serve.CheckInEntry) (row : gmap string Serve.value)
    (col : string) :
  Serve.build_feature_row fromisoformat numeric_features trigger_features entry
  = inr row ->
  "triggers" ∈ trigger_features ->
  col ∈ numeric_features \/ col ∈ trigger_features ->
  PyStr.startswith "trigger_" col = true ->
  row !! col = Some (Serve.VFloat 0).
Proof.
  intros Hrow Hmode Hcol Hp.
  destruct (build_feature_row_inr _ _ _ _ _ Hrow) as (dt & _ & ->).
  rewrite fill_defaults_default.
  - destruct (prefixed_is_fresh col Hp) as (_ & _ & _ & _ & Hg).
    apply String.eqb_neq in Hg. rewrite Hg. reflexivity.
  - exact Hcol.
  - apply computed_prefixed_string_mode; assumption.
Qed.

Lemma X9_string_mode_wins_witness :
  exists row,
    Serve.build_feature_row IsoClock.read Train.BASE_NUMERIC
                            ["triggers"; "trigger_work"] Sample.check_in
    = inr row
    /\ row !! "trigger_work" = Some (Serve.VFloat 0).
Proof.
  eexists. split; [reflexivity|].
  apply (X9_string_mode_wins IsoClock.read Train.BASE_NUMERIC
           ["triggers"; "trigger_work"] Sample.check_in _ "trigger_work"
           eq_refl).
  - by_evaluation.
  - right. by_evaluation.
  - reflexivity.
Defined.

(** X10.  The column [triggers] of a row is the string that the cleaning
    step of the trainer makes of the same triggers: a list is joined by
    commas and a string is taken as it is, at serving as at training
    time. *)
Theorem X10_triggers_string_as_in_training
    (fromisoformat : string -> option Serve.datetime)
    (numeric_features trigger_features : list string)
    (entry : Serve.CheckInEntry) (row : gmap string Serve.value) :
  Serve.build_feature_row fromisoformat numeric_features trigger_features entry
  = inr row ->
  "triggers" ∈ trigger_features ->
  row !! "triggers"
  = Some (Serve.VStr
            (TrainClean.to_str (RowShape.cell_of (Serve.triggers entry)))).
Proof.
  intros Hrow Hmode.
  destruct (build_feature_row_inr _ _ _ _ _ Hrow) as (dt & _ & ->).
  apply fill_defaults_keeps.
  rewrite computed_triggers_string by exact Hmode.
  destruct (Serve.triggers entry) as [s | l]; cbn; [reflexivity|].
  rewrite map_id. reflexivity.
Qed.

Lemma X10_triggers_string_as_in_training_witness :
  exists row,
    Serve.build_feature_row IsoClock.read Train.NUMERIC_FEATURES
                            Train.TRIGGER_FEATURES Sample.check_in = inr row
    /\ row !! "triggers" = Some (Serve.VStr "Work,Sleep deprivation").
Proof.
  eexists. split; [reflexivity|].
  apply (X10_triggers_string_as_in_training IsoClock.read
           Train.NUMERIC_FEATURES Train.TRIGGER_FEATURES Sample.check_in _
           eq_refl).
  by_evaluation.
Defined.

(** ** Triggers given as a list or as one string *)

Section TriggerForms.

Lemma split_on_from_free sep cur x :
  Text.free_of sep x = true ->
  PyStr.split_on_from sep cur x = [cur +:+ x].
Proof.
  revert cur. induction x as [|c x IH]; intros cur Hfree.
  - cbn. rewrite append_nil_r. reflexivity.
  - cbn in Hfree. apply andb_prop in Hfree. destruct Hfree as [Hc Hx].
    apply negb_true_iff in Hc. cbn [PyStr.split_on_from]. rewrite Hc.
    rewrite (IH _ Hx). unfold PyStr.snoc. rewrite append_assoc. reflexivity.
Qed.

Lemma split_on_from_sep sep cur x rest :
  Text.free_of sep x = true ->
  PyStr.split_on_from sep cur (x +:+ String sep rest)
  = (cur +:+ x) :: PyStr.split_on_from sep EmptyString rest.
Proof.
  revert cur. induction x as [|c x IH]; intros cur Hfree.
  - rewrite append_nil_l, append_nil_r. cbn [PyStr.split_on_from].
    rewrite Ascii.eqb_refl. reflexivity.
  - cbn in Hfree. apply andb_prop in Hfree. destruct Hfree as [Hc Hx].
    apply negb_true_iff in Hc. rewrite append_cons.
    cbn [PyStr.split_on_from]. rewrite Hc.
    rewrite (IH _ Hx). unfold PyStr.snoc. rewrite append_assoc. reflexivity.
Qed.

(** Splitting at the commas undoes the joining with commas. *)
Lemma split_on_join l :
  l <> [] ->
  (forall x, x ∈ l -> Text.free_of "," x = true) ->
  PyStr.split_on "," (PyStr.join "," l) = l.
Proof.
  induction l as [|x l IH]; intros Hne Hfree; [congruence|].
  destruct l as [|y l].
  - cbn [PyStr.join]. unfold PyStr.split_on.
    rewrite split_on_from_free by (apply Hfree; left). reflexivity.
  - change (PyStr.join "," (x :: y :: l))
      with (x +:+ String "," (PyStr.join "," (y :: l))).
    unfold PyStr.split_on. rewrite split_on_from_sep by (apply Hfree; left).
    rewrite append_nil_l. f_equal. apply IH; [discriminate|].
    intros z Hz. apply Hfree. right. exact Hz.
Qed.

Lemma filter_all {A} (p : A -> bool) (l : list A) :
  (forall x, x ∈ l -> p x = true) -> filter (fun x => p x) l = l.
Proof.
  induction l as [|a l IH]; intros H; [reflexivity|].
  rewrite filter_cons_True by (rewrite H; [exact I | left]).
  f_equal. apply IH. intros x Hx. apply H. right. exact Hx.
Qed.

Lemma trig_list_forms l :
  (forall x, x ∈ l -> Text.free_of "," x = true
                      /\ PyStr.is_empty (PyStr.strip x) = false) ->
  Serve.trig_list (Serve.TrigStr (PyStr.join "," l))
  = Serve.trig_list (Serve.TrigList l).
Proof.
  intros H. unfold Serve.trig_list.
  destruct l as [|x l]; [reflexivity|].
  rewrite split_on_join; [|discriminate | intros z Hz; apply (H z Hz)].
  rewrite (filter_all (fun x => negb (PyStr.is_empty (PyStr.strip x))));
    [reflexivity|].
  intros z Hz. destruct (H z Hz) as [_ ->]. reflexivity.
Qed.

End TriggerForms.

(** X11.  A list of triggers and the same triggers written as one string
    with commas give the same feature row: always when the trigger list has
    the column [triggers], and in the other case when no trigger holds a
    comma or is blank. *)
Theorem X11_trigger_list_or_string
    (fromisoformat : string -> option Serve.datetime)
    (numeric_features trigger_features : list string)
    (e1 e2 : Serve.CheckInEntry) (l : list string) :
  RowShape.same_but_triggers e1 e2 ->
  Serve.triggers e1 = Serve.TrigList l ->
  Serve.triggers e2 = Serve.TrigStr (PyStr.join "," l) ->
  "triggers" ∈ trigger_features
  \/ (forall x, x ∈ l -> Text.free_of "," x = true
                         /\ PyStr.is_empty (PyStr.strip x) = false) ->
  Serve.build_feature_row fromisoformat numeric_features trigger_features e1
  = Serve.build_feature_row fromisoformat numeric_features trigger_features e2.
Proof.
  intros (Hs & He & Hm & Ha & Ht & Hn) H1 H2 Hl.
  destruct e1 as [s1 en1 m1 a1 t1 ts1 n1], e2 as [s2 en2 m2 a2 t2 ts2 n2].
  cbn in *. subst.
  unfold Serve.build_feature_row. cbn [Serve.timestamp].
  destruct (fromisoformat _) as [dt|]; [|reflexivity].
  f_equal. f_equal. unfold Serve.computed_columns. cbv zeta.
  unfold Serve.add_notes. cbn [Serve.notes]. cbv zeta.
  assert (Ht : forall row,
    Serve.add_triggers trigger_features
      {| Serve.sleep := s2; Serve.energy := en2; Serve.mood := m2;
         Serve.anxiety_7d_avg := a2; Serve.triggers := Serve.TrigList l;
         Serve.timestamp := ts2; Serve.notes := n2 |} row
    = Serve.add_triggers trigger_features
      {| Serve.sleep := s2; Serve.energy := en2; Serve.mood := m2;
         Serve.anxiety_7d_avg := a2;
         Serve.triggers := Serve.TrigStr (PyStr.join "," l);
         Serve.timestamp := ts2; Serve.notes := n2 |} row).
  { intros row. unfold Serve.add_triggers. cbn [Serve.triggers].
    destruct (bool_decide ("triggers" ∈ trigger_features)) eqn:Hmode;
      [reflexivity|].
    cbv zeta. apply bool_decide_eq_false in Hmode.
    destruct Hl as [Hin | Hclean]; [contradiction|].
    rewrite (trig_list_forms l Hclean). reflexivity. }
  rewrite Ht. reflexivity.
Qed.

Lemma X11_trigger_list_or_string_witness :
  Serve.build_feature_row IsoClock.read Train.BASE_NUMERIC
                          Sample.expanded_triggers Sample.check_in
  = Serve.build_feature_row IsoClock.read Train.BASE_NUMERIC
      Sample.expanded_triggers
      {| Serve.sleep := 6;
         Serve.energy := 5;
         Serve.mood := 3;
         Serve.anxiety_7d_avg := 4.5;
         Serve.triggers := Serve.TrigStr "Work,Sleep deprivation";
         Serve.timestamp := "2025-08-01T10:12:00Z";
         Serve.notes := Some "Felt anxious at work today" |}.
Proof.
  apply (X11_trigger_list_or_string IsoClock.read Train.BASE_NUMERIC
           Sample.expanded_triggers Sample.check_in _
           ["Work"; "Sleep deprivation"]).
  - repeat split.
  - reflexivity.
  - reflexivity.
  - right. intros x Hx.
    repeat (apply elem_of_cons in Hx; destruct Hx as [-> | Hx];
            [split; reflexivity|]).
    inversion Hx.
Defined.

(** ** Failures of the prediction endpoint *)

Section TimestampFacts.

Lemma replace_Z_free new s :
  Text.free_of "Z" s = true -> PyStr.replace "Z" new s = s.
Proof.
  unfold PyStr.replace. induction s as [|c s IH]; [reflexivity|].
  cbn [Text.free_of Text.every]. intros H. apply andb_prop in H.
  destruct H as [Hc Hs]. apply negb_true_iff in Hc.
  cbn [PyStr.replace_from PyStr.startswith].
  rewrite Ascii.eqb_sym, Hc. cbn [andb].
  rewrite (IH Hs). reflexivity.
Qed.

Lemma replace_Z_last new s :
  Text.free_of "Z" s = true ->
  PyStr.replace "Z" new (s +:+ "Z") = s +:+ new.
Proof.
  unfold PyStr.replace. induction s as [|c s IH].
  - intros _. rewrite !append_nil_l.
    change (PyStr.replace_from "Z" new 0 "Z") with (new +:+ EmptyString).
    apply append_nil_r.
  - cbn [Text.free_of Text.every]. intros H. apply andb_prop in H.
    destruct H as [Hc Hs]. apply negb_true_iff in Hc.
    rewrite !append_cons. cbn [PyStr.replace_from PyStr.startswith].
    rewrite Ascii.eqb_sym, Hc. cbn [andb].
    rewrite (IH Hs). reflexivity.
Qed.

End TimestampFacts.

(** X13.  The builder fails on the time stamp only: it raises exactly when
    the time stamp, with every [Z] replaced by [+00:00], does not parse, the
    message names the time stamp as it was sent, and the endpoint then
    answers 400 with that message without consulting the model. *)
Theorem X13_builder_fails_on_timestamp_only
    (fromisoformat : string -> option Serve.datetime)
    (numeric_features trigger_features : list string)
    (entry : Serve.CheckInEntry) (detail : string) :
  (Serve.build_feature_row fromisoformat numeric_features trigger_features entry
   = inl detail
   <-> fromisoformat (PyStr.replace "Z" "+00:00" (Serve.timestamp entry)) = None
       /\ detail = "Invalid timestamp format: " +:+ Serve.timestamp entry)
  /\ (Serve.build_feature_row fromisoformat numeric_features trigger_features
                              entry = inl detail ->
      forall pipeline_predict,
        Serve.predict fromisoformat numeric_features trigger_features
                      pipeline_predict entry = Serve.Http400 detail).
Proof.
  split.
  - unfold Serve.build_feature_row.
    destruct (fromisoformat _) as [dt|]; split.
    + discriminate.
    + intros [H _]. discriminate H.
    + intros [= <-]. split; reflexivity.
    + intros [_ ->]. reflexivity.
  - intros H pipeline_predict. unfold Serve.predict. rewrite H. reflexivity.
Qed.

Lemma X13_builder_fails_on_timestamp_only_witness :
  Serve.predict IsoClock.read Train.NUMERIC_FEATURES Train.TRIGGER_FEATURES
    (Sample.constant_model (F64.Finite 5))
    {| Serve.sleep := 6; Serve.energy := 5; Serve.mood := 3;
       Serve.anxiety_7d_avg := 4; Serve.triggers := Serve.TrigList [];
       Serve.timestamp := "yesterday"; Serve.notes := None |}
  = Serve.Http400 "Invalid timestamp format: yesterday".
Proof.
  apply (proj2 (X13_builder_fails_on_timestamp_only
                  IsoClock.read Train.NUMERIC_FEATURES Train.TRIGGER_FEATURES
                  {| Serve.sleep := 6; Serve.energy := 5; Serve.mood := 3;
                     Serve.anxiety_7d_avg := 4;
                     Serve.triggers := Serve.TrigList [];
                     Serve.timestamp := "yesterday"; Serve.notes := None |}
                  "Invalid timestamp format: yesterday")).
  reflexivity.
Defined.

(** X14.  A time stamp without the letter [Z] is handed to the parser as
    it is, and one that ends in its only [Z] is handed over with [+00:00]
    in the place of the [Z]. *)
Theorem X14_timestamp_Z_suffix
    (fromisoformat : string -> option Serve.datetime)
    (numeric_features trigger_features : list string)
    (entry : Serve.CheckInEntry) (s : string) :
  Text.free_of "Z" s = true ->
  (Serve.timestamp entry = s ->
   Serve.build_feature_row fromisoformat numeric_features trigger_features
                           entry
   = match fromisoformat s with
     | None => inl ("Invalid timestamp format: " +:+ s)
     | Some dt =>
         inr (Serve.fill_defaults numeric_features trigger_features
                (Serve.computed_columns numeric_features trigger_features
                                        entry dt))
     end)
  /\ (Serve.timestamp entry = s +:+ "Z" ->
      Serve.build_feature_row fromisoformat numeric_features trigger_features
                              entry
      = match fromisoformat (s +:+ "+00:00") with
        | None => inl ("Invalid timestamp format: " +:+ s +:+ "Z")
        | Some dt =>
            inr (Serve.fill_defaults numeric_features trigger_features
                   (Serve.computed_columns numeric_features trigger_features
                                           entry dt))
        end).
Proof.
  intros Hfree. unfold Serve.build_feature_row.
  split; intros ->.
  - rewrite (replace_Z_free _ _ Hfree). reflexivity.
  - rewrite (replace_Z_last _ _ Hfree). reflexivity.
Qed.

Lemma X14_timestamp_Z_suffix_witness :
  exists row,
    Serve.build_feature_row IsoClock.read Train.NUMERIC_FEATURES
                            Train.TRIGGER_FEATURES Sample.check_in
    = inr row.
Proof.
  eexists.
  rewrite (proj2 (X14_timestamp_Z_suffix
                    IsoClock.read Train.NUMERIC_FEATURES
                    Train.TRIGGER_FEATURES Sample.check_in
                    "2025-08-01T10:12:00" eq_refl) eq_refl).
  reflexivity.
Defined.

(** ** Loading the bundle *)

Section StartupFacts.
Import Bundle.

Lemma truthy_py_or_r a b : truthy b = true -> truthy (py_or a b) = true.
Proof. intros Hb. unfold py_or. destruct (truthy a) eqn:Ha; assumption. Qed.

Lemma manifest_truthy (bundle : gmap string pyval) :
  truthy (Serve.numeric_features_of bundle) = true
  /\ truthy (Serve.trigger_features_of bundle) = true.
Proof. split; apply truthy_py_or_r; reflexivity. Qed.

End StartupFacts.

(** X15.  The service starts exactly when the model file exists and its
    entry [pipeline] is present and not [None]; each failure has its own
    message.  Once started, the pipeline is not [None] and neither list of
    the manifest is empty.  A bundle written by the trainer starts the
    service with the lists of the trainer. *)
Theorem X15_startup (model_file : option (gmap string Bundle.pyval)) :
  (forall msg,
      Startup.load model_file = inl msg <->
      (model_file = None
       /\ msg = "Model file not found at anxiety_model.pkl. Run train_model.py first.")
      \/ (exists bundle,
            model_file = Some bundle
            /\ Bundle.get bundle "pipeline" = Bundle.PyNone
            /\ msg = "Model bundle is missing 'pipeline'. Did training succeed?"))
  /\ (forall st,
        Startup.load model_file = inr st ->
        Startup.pipeline st <> Bundle.PyNone
        /\ Bundle.truthy (Startup.numeric_features st) = true
        /\ Bundle.truthy (Startup.trigger_features st) = true)
  /\ (forall trained_at n_train n_test mae rmse r2,
        Startup.load
          (Some (TrainMain.bundle trained_at n_train n_test mae rmse r2))
        = inr {| Startup.pipeline := Bundle.PyObject;
                 Startup.numeric_features :=
                   Bundle.PyList Train.NUMERIC_FEATURES;
                 Startup.trigger_features :=
                   Bundle.PyList Train.TRIGGER_FEATURES |}).
Proof.
  split; [|split].
  - intros msg. unfold Startup.load.
    destruct model_file as [bundle|].
    + destruct (Bundle.get bundle "pipeline") eqn:Hp; split;
        try discriminate;
        try (intros [[H _] | (b & [= <-] & Hb & _)]; congruence).
      * intros [= <-]. right. exists bundle. repeat split. exact Hp.
      * intros [[H _] | (b & _ & _ & ->)]; [discriminate | reflexivity].
    + split.
      * intros [= <-]. left. split; reflexivity.
      * intros [[_ ->] | (b & H & _)]; [reflexivity | discriminate].
  - intros st. unfold Startup.load.
    destruct model_file as [bundle|]; [|discriminate].
    destruct (manifest_truthy bundle) as [Hn Ht].
    destruct (Bundle.get bundle "pipeline") eqn:Hp; try discriminate;
      intros [= <-]; cbn; repeat split; try assumption; discriminate.
  - intros. reflexivity.
Qed.

(** ** Splitting the data *)

Section SplitFacts.

Variable R : Type.
Variable group_shuffle_split : list R -> string + list (list nat * list nat).
Variable sort_values : list R -> list R.
Variable train_test_split : list R -> option (list R * list R).

Lemma holdout_fifth n : TrainSplit.holdout n = Z.max 1 (n / 5).
Proof.
  unfold TrainSplit.holdout. f_equal.
  unfold Qfloor, Qmult, inject_Z. cbn [Qnum Qden].
  change (Z.pos (10 * 1)) with (2 * 5)%Z.
  apply Z.div_mul_cancel_l; lia.
Qed.

Lemma holdout_positive n : (1 <= TrainSplit.holdout n)%Z.
Proof. rewrite holdout_fifth. lia. Qed.

Lemma holdout_below n : (2 <= n)%Z -> (TrainSplit.holdout n < n)%Z.
Proof.
  intros Hn. rewrite holdout_fifth.
  assert (n / 5 < n)%Z by (apply Z.div_lt; lia). lia.
Qed.

Lemma slice_split_parts (X : list R) te :
  (1 <= te)%Z -> (0 < Z.of_nat (length X) - te)%Z ->
  let parts := TrainSplit.slice_split R X (Z.of_nat (length X)) te in
  parts.1 ++ parts.2 = X
  /\ length parts.2 = Z.to_nat te
  /\ length parts.1 = (length X - Z.to_nat te)%nat
  /\ parts.1 <> [] /\ parts.2 <> [].
Proof.
  intros Hte Hn. unfold TrainSplit.slice_split. cbn [fst snd].
  split; [apply take_drop|].
  assert (Hl2 : length (drop (Z.to_nat (Z.of_nat (length X) - te)) X)
                = Z.to_nat te) by (rewrite length_drop; lia).
  assert (Hl1 : length (take (Z.to_nat (Z.of_nat (length X) - te)) X)
                = (length X - Z.to_nat te)%nat)
    by (rewrite length_take; lia).
  split; [exact Hl2|]. split; [exact Hl1|].
  split; intros Hnil; [rewrite Hnil in Hl1 | rewrite Hnil in Hl2];
    cbn in *; lia.
Qed.

Lemma split_fallbacks_test (X tr te : list R) :
  TrainSplit.split_fallbacks R train_test_split X = inr (tr, te) -> te <> [].
Proof.
  unfold TrainSplit.split_fallbacks. cbv zeta.
  destruct (train_test_split X) as [[X_tr X_te]|].
  - destruct (0 <? length X_te)%nat eqn:Hlen.
    + intros [= <- <-]. apply Nat.ltb_lt in Hlen.
      intros ->. cbn in Hlen. lia.
    + destruct (_ <=? 0)%Z eqn:Hn; [discriminate|].
      apply Z.leb_gt in Hn. intros [= <- <-].
      apply (slice_split_parts X _ (holdout_positive _)). lia.
  - destruct (_ <=? 0)%Z eqn:Hn; [discriminate|].
    apply Z.leb_gt in Hn. intros [= <- <-].
    apply (slice_split_parts X _ (holdout_positive _)). lia.
Qed.

Lemma split_ungrouped_test df (tr te : list R) :
  TrainSplit.split_ungrouped R sort_values train_test_split df = inr (tr, te) ->
  te <> [].
Proof.
  unfold TrainSplit.split_ungrouped. cbv zeta.
  destruct (TrainSplit.has_timestamp R df); [|apply split_fallbacks_test].
  destruct (0 <? _)%Z eqn:Hn; [|apply split_fallbacks_test].
  apply Z.ltb_lt in Hn. intros [= <- <-].
  apply (slice_split_parts (sort_values (TrainSplit.rows R df)) _
           (holdout_positive _)). lia.
Qed.

Lemma split_ungrouped_error df e :
  TrainSplit.split_ungrouped R sort_values train_test_split df = inl e ->
  e = "Not enough rows to split dataset."
  /\ (length (TrainSplit.rows R df) <= 1)%nat.
Proof.
  unfold TrainSplit.split_ungrouped, TrainSplit.split_fallbacks. cbv zeta.
  assert (Hend :
    (if (Z.of_nat (length (TrainSplit.rows R df))
         - TrainSplit.holdout (Z.of_nat (length (TrainSplit.rows R df)))
         <=? 0)%Z
     then inl "Not enough rows to split dataset."
     else inr (TrainSplit.slice_split R (TrainSplit.rows R df)
                 (Z.of_nat (length (TrainSplit.rows R df)))
                 (TrainSplit.holdout
                    (Z.of_nat (length (TrainSplit.rows R df))))))
    = (inl e : string + (list R * list R)) ->
    e = "Not enough rows to split dataset."
    /\ (length (TrainSplit.rows R df) <= 1)%nat).
  { destruct (_ <=? 0)%Z eqn:Hn; [|discriminate].
    apply Z.leb_le in Hn. intros [= <-]. split; [reflexivity|].
    destruct (Z_lt_le_dec (Z.of_nat (length (TrainSplit.rows R df))) 2)
      as [Hs | Hb]; [lia|].
    pose proof (holdout_below _ Hb). lia. }
  destruct (TrainSplit.has_timestamp R df).
  - destruct (0 <? _)%Z; [discriminate|].
    destruct (train_test_split _) as [[X_tr X_te]|];
      [destruct (0 <? length X_te)%nat; [discriminate|]|]; exact Hend.
  - destruct (train_test_split _) as [[X_tr X_te]|];
      [destruct (0 <? length X_te)%nat; [discriminate|]|]; exact Hend.
Qed.

End SplitFacts.

(** X16.  Whenever the split returns, by whichever strategy, the test part
    is not empty. *)
Theorem X16_split_test_part_not_empty
    (R : Type)
    (group_shuffle_split : list R -> string + list (list nat * list nat))
    (sort_values : list R -> list R)
    (train_test_split : list R -> option (list R * list R))
    (df : TrainSplit.frame R) (train test : list R) :
  TrainSplit.split_data R group_shuffle_split sort_values train_test_split df
  = inr (train, test) ->
  test <> [].
Proof.
  unfold TrainSplit.split_data. cbv zeta.
  destruct (TrainSplit.has_user_id R df); [|apply split_ungrouped_test].
  destruct (group_shuffle_split _) as [e | splits]; [discriminate|].
  destruct (TrainSplit.first_usable splits) as [[tr te]|] eqn:Hfind;
    [|apply split_ungrouped_test].
  unfold TrainSplit.first_usable in Hfind.
  apply find_some in Hfind. destruct Hfind as [_ Hlen].
  cbn [snd] in Hlen. apply Nat.ltb_lt in Hlen.
  destruct (TrainSplit.iloc R _ tr) as [X_tr|]; [|discriminate].
  destruct (TrainSplit.iloc R _ te) as [X_te|] eqn:Hte; [|discriminate].
  intros [= <- <-]. apply length_mapM in Hte.
  intros ->. cbn in Hte. lia.
Qed.

Lemma X16_split_test_part_not_empty_witness :
  exists train test : list nat,
    TrainSplit.split_data nat (fun _ => inr [([0; 1; 2], [3; 4])]%nat)
      (fun l => l) (fun _ => None)
      {| TrainSplit.has_user_id := true;
         TrainSplit.has_timestamp := false;
         TrainSplit.rows := [1; 2; 3; 4; 5]%nat |}
    = inr (train, test)
    /\ test <> [].
Proof.
  exists [1; 2; 3]%nat, [4; 5]%nat. split; [reflexivity|].
  apply (X16_split_test_part_not_empty nat
           (fun _ => inr [([0; 1; 2], [3; 4])]%nat) (fun l => l)
           (fun _ => None)
           {| TrainSplit.has_user_id := true;
              TrainSplit.has_timestamp := false;
              TrainSplit.rows := [1; 2; 3; 4; 5]%nat |}
           [1; 2; 3]%nat [4; 5]%nat).
  reflexivity.
Defined.

(** X17.  Without a user column and with time stamps, two rows or more are
    split in time: the rows sorted by time stamp are cut in two, the test
    part being the last max(1, n div 5) rows and the train part the rows
    before them, neither empty. *)
Theorem X17_temporal_holdout
    (R : Type)
    (group_shuffle_split : list R -> string + list (list nat * list nat))
    (sort_values : list R -> list R)
    (train_test_split : list R -> option (list R * list R))
    (df : TrainSplit.frame R) :
  TrainSplit.has_user_id R df = false ->
  TrainSplit.has_timestamp R df = true ->
  sort_values (TrainSplit.rows R df) ≡ₚ TrainSplit.rows R df ->
  (2 <= length (TrainSplit.rows R df))%nat ->
  exists train test,
    TrainSplit.split_data R group_shuffle_split sort_values train_test_split df
    = inr (train, test)
    /\ train ++ test = sort_values (TrainSplit.rows R df)
    /\ length test = Nat.max 1 (length (TrainSplit.rows R df) / 5)
    /\ length train
       = (length (TrainSplit.rows R df)
          - Nat.max 1 (length (TrainSplit.rows R df) / 5))%nat
    /\ train <> [] /\ test <> [].
Proof.
  intros Hu Ht Hperm Hn.
  unfold TrainSplit.split_data, TrainSplit.split_ungrouped. cbv zeta.
  rewrite Hu, Ht.
  set (X2 := sort_values (TrainSplit.rows R df)).
  assert (Hlen : length X2 = length (TrainSplit.rows R df))
    by (apply Permutation_length, Hperm).
  pose proof (holdout_below (Z.of_nat (length X2)) ltac:(lia)) as Hb.
  pose proof (holdout_positive (Z.of_nat (length X2))) as Hp.
  assert (Hpos : (0 <? Z.of_nat (length X2)
                        - TrainSplit.holdout (Z.of_nat (length X2)))%Z = true)
    by (apply Z.ltb_lt; lia).
  rewrite Hpos.
  destruct (slice_split_parts R X2 _ Hp ltac:(lia)) as (H1 & H2 & H3 & H4 & H5).
  eexists _, _. split; [reflexivity|]. cbn [fst snd] in *.
  assert (Hh : Z.to_nat (TrainSplit.holdout (Z.of_nat (length X2)))
               = Nat.max 1 (length X2 / 5)).
  { rewrite holdout_fifth.
    rewrite <- (Nat2Z.id (Nat.max 1 (length X2 / 5))). f_equal.
    rewrite Nat2Z.inj_max, Nat2Z.inj_div. reflexivity. }
  rewrite Hh, Hlen in *.
  repeat split; assumption.
Qed.

Lemma X17_temporal_holdout_witness :
  exists train test : list nat,
    TrainSplit.split_data nat (fun _ => inr []) (fun l => l) (fun _ => None)
      {| TrainSplit.has_user_id := false;
         TrainSplit.has_timestamp := true;
         TrainSplit.rows := [1; 2; 3; 4; 5; 6; 7; 8; 9; 10; 11]%nat |}
    = inr (train, test)
    /\ length test = 2%nat.
Proof.
  destruct (X17_temporal_holdout nat (fun _ => inr []) (fun l => l)
              (fun _ => None)
              {| TrainSplit.has_user_id := false;
                 TrainSplit.has_timestamp := true;
                 TrainSplit.rows := [1; 2; 3; 4; 5; 6; 7; 8; 9; 10; 11]%nat |}
              eq_refl eq_refl (Permutation_refl _) ltac:(cbn; lia))
    as (train & test & Hs & _ & Hl & _).
  exists train, test. split; [exact Hs | exact Hl].
Defined.

(** X18.  Without a user column the split fails only for want of rows: the
    error is [Not enough rows to split dataset.] and the frame has one row
    at most. *)
Theorem X18_split_error_means_too_few_rows
    (R : Type)
    (group_shuffle_split : list R -> string + list (list nat * list nat))
    (sort_values : list R -> list R)
    (train_test_split : list R -> option (list R * list R))
    (df : TrainSplit.frame R) (e : string) :
  TrainSplit.has_user_id R df = false ->
  TrainSplit.split_data R group_shuffle_split sort_values train_test_split df
  = inl e ->
  e = "Not enough rows to split dataset."
  /\ (length (TrainSplit.rows R df) <= 1)%nat.
Proof.
  intros Hu. unfold TrainSplit.split_data. cbv zeta. rewrite Hu.
  apply split_ungrouped_error.
Qed.

Lemma X18_split_error_means_too_few_rows_witness :
  TrainSplit.split_data nat (fun _ => inr []) (fun l => l) (fun _ => None)
    {| TrainSplit.has_user_id := false;
       TrainSplit.has_timestamp := true;
       TrainSplit.rows := [7%nat] |}
  = inl "Not enough rows to split dataset."
  /\ (length [7%nat] <= 1)%nat.
Proof.
  split; [reflexivity|].
  apply (X18_split_error_means_too_few_rows nat (fun _ => inr [])
           (fun l => l) (fun _ => None)
           {| TrainSplit.has_user_id := false;
              TrainSplit.has_timestamp := true;
              TrainSplit.rows := [7%nat] |}
           "Not enough rows to split dataset.").
  - reflexivity.
  - reflexivity.
Defined.

(** ** The tips that the filter returns *)

Section TipFacts.

Lemma select_best_tips_as_spec raw_outputs :
  TipProxy.select_best_tips raw_outputs = Spec.select_tips raw_outputs.
Proof.
  unfold TipProxy.select_best_tips, Spec.select_tips.
  rewrite (scan_outputs_spec raw_outputs [] ∅ []).
  - reflexivity.
  - intros x. rewrite elem_of_empty. split; [tauto | intros H; inversion H].
  - cbn. lia.
Qed.

Lemma distinct_nocase_elem seen l x :
  x ∈ Spec.distinct_nocase seen l -> x ∈ l /\ PyStr.lower x ∉ seen.
Proof.
  revert seen. induction l as [|a l IH]; intros seen;
    cbn [Spec.distinct_nocase].
  - intros H. inversion H.
  - destruct (PyStr.mem (PyStr.lower a) seen) eqn:E.
    + intros H. destruct (IH _ H) as [H1 H2]. split; [right|]; assumption.
    + rewrite elem_of_cons. intros [-> | H].
      * split; [left | apply mem_false, E].
      * destruct (IH _ H) as [H1 H2]. split; [right; exact H1|].
        intros Hin. apply H2. right. exact Hin.
Qed.

Lemma distinct_nocase_NoDup seen l :
  NoDup (map PyStr.lower (Spec.distinct_nocase seen l)).
Proof.
  revert seen. induction l as [|a l IH]; intros seen;
    cbn [Spec.distinct_nocase].
  - constructor.
  - destruct (PyStr.mem (PyStr.lower a) seen); [apply IH|].
    cbn [map]. constructor; [|apply IH].
    intros Hin. apply list_elem_of_fmap in Hin.
    destruct Hin as (y & Hy & Hin).
    apply distinct_nocase_elem in Hin. destruct Hin as [_ Hout].
    apply Hout. rewrite <- Hy. left.
Qed.

Lemma kept_lines_elem lines x :
  x ∈ Spec.kept_lines lines ->
  Spec.discarded x = false
  /\ exists line, line ∈ lines /\ x = Spec.clean_line line.
Proof.
  unfold Spec.kept_lines. rewrite list_elem_of_filter.
  intros [Hd Hin]. split.
  - destruct (Spec.discarded x); [contradiction | reflexivity].
  - apply list_elem_of_fmap in Hin. destruct Hin as (line & -> & Hin).
    exists line. split; [exact Hin | reflexivity].
Qed.

Lemma candidate_lines_elem raw_outputs line :
  line ∈ Spec.candidate_lines raw_outputs ->
  exists t, t ∈ raw_outputs /\ line ∈ Spec.lines (PyStr.strip t).
Proof.
  unfold Spec.candidate_lines. rewrite list_elem_of_In, in_flat_map.
  intros (t & Ht & Hl). exists t. rewrite !list_elem_of_In. tauto.
Qed.

Lemma candidate_lines_app r1 r2 :
  Spec.candidate_lines (r1 ++ r2)
  = Spec.candidate_lines r1 ++ Spec.candidate_lines r2.
Proof. apply flat_map_app. Qed.

Lemma kept_lines_app l1 l2 :
  Spec.kept_lines (l1 ++ l2) = Spec.kept_lines l1 ++ Spec.kept_lines l2.
Proof. unfold Spec.kept_lines. rewrite map_app, filter_app. reflexivity. Qed.

Lemma selected_accepted raw_outputs tip :
  tip ∈ TipProxy.select_best_tips raw_outputs ->
  Spec.discarded tip = false
  /\ exists t line,
       t ∈ raw_outputs /\ line ∈ Spec.lines (PyStr.strip t)
       /\ tip = Spec.clean_line line.
Proof.
  rewrite select_best_tips_as_spec. unfold Spec.select_tips.
  intros H. apply elem_of_take in H. destruct H as (i & H & _).
  apply list_elem_of_lookup_2 in H.
  apply distinct_nocase_elem in H. destruct H as [H _].
  apply kept_lines_elem in H. destruct H as (Hd & line & Hline & ->).
  split; [exact Hd|].
  apply candidate_lines_elem in Hline. destruct Hline as (t & Ht & Hl).
  exists t, line. repeat split; assumption.
Qed.

Lemma discarded_false line :
  Spec.discarded line = false ->
  PyStr.is_empty line = false
  /\ Spec.is_trend_echo line = false
  /\ Spec.is_input_echo line = false
  /\ Spec.is_verbless_tips line = false
  /\ (5 <= length (PyStr.split line))%nat.
Proof.
  unfold Spec.discarded. rewrite !orb_false_iff.
  intros ((((H1 & H2) & H3) & H4) & H5).
  apply Nat.ltb_ge in H5. repeat split; assumption.
Qed.

Lemma join_not_empty sep l :
  l <> [] -> (forall x, x ∈ l -> PyStr.is_empty x = false) ->
  PyStr.is_empty (PyStr.join sep l) = false.
Proof.
  destruct l as [|p rest]; [congruence|]. intros _ H.
  assert (Hp : PyStr.is_empty p = false) by (apply H; left).
  destruct p as [|c p]; [discriminate|].
  destruct rest; [reflexivity|].
  cbn [PyStr.join]. rewrite append_cons. reflexivity.
Qed.

Lemma selected_length raw_outputs :
  (length (TipProxy.select_best_tips raw_outputs) <= 3)%nat.
Proof.
  rewrite select_best_tips_as_spec. unfold Spec.select_tips.
  rewrite length_take. lia.
Qed.

End TipFacts.

(** X19.  Every tip the filter returns is a line of a trimmed candidate,
    itself trimmed and without its leading number (digits, then [.] or
    [)], then whitespace), that is not empty, has five words at least, is
    no list of day and score items with scores of one digit, no echo of the
    three input fields and no [tips:] line without a verb; and no two
    returned tips are equal when case is ignored. *)
Theorem X19_selected_tips_are_accepted_lines (raw_outputs : list string) :
  (forall tip, tip ∈ TipProxy.select_best_tips raw_outputs ->
     (exists t line,
        t ∈ raw_outputs /\ line ∈ Spec.lines (PyStr.strip t)
        /\ tip = Spec.unnumbered (PyStr.strip line))
     /\ PyStr.is_empty tip = false
     /\ (5 <= length (PyStr.split tip))%nat
     /\ Spec.day_score_list Spec.one_digit tip = false
     /\ Spec.is_input_echo tip = false
     /\ Spec.is_verbless_tips tip = false)
  /\ NoDup (map PyStr.lower (TipProxy.select_best_tips raw_outputs)).
Proof.
  split.
  - intros tip Htip. destruct (selected_accepted _ _ Htip) as (Hd & Hsrc).
    destruct (discarded_false _ Hd) as (H1 & H2 & H3 & H4 & H5).
    split; [exact Hsrc|]. repeat split; assumption.
  - rewrite select_best_tips_as_spec. unfold Spec.select_tips.
    apply (sublist_NoDup _ (map PyStr.lower
             (Spec.distinct_nocase []
                (Spec.kept_lines (Spec.candidate_lines raw_outputs))))).
    + apply distinct_nocase_NoDup.
    + rewrite <- List.firstn_map. apply sublist_take.
Qed.

(** X20.  Candidates that come later never change the tips found before:
    the tips of some candidates are a prefix of the tips of these candidates
    followed by others, and once three tips are found the later candidates
    are not looked at. *)
Theorem X20_later_candidates_only_append (raw1 raw2 : list string) :
  TipProxy.select_best_tips raw1
    `prefix_of` TipProxy.select_best_tips (raw1 ++ raw2)
  /\ (length (TipProxy.select_best_tips raw1) = 3%nat ->
      TipProxy.select_best_tips (raw1 ++ raw2)
      = TipProxy.select_best_tips raw1).
Proof.
  rewrite !select_best_tips_as_spec. unfold Spec.select_tips.
  rewrite candidate_lines_app, kept_lines_app, distinct_nocase_app.
  set (D1 := Spec.distinct_nocase [] (Spec.kept_lines (Spec.candidate_lines raw1))).
  set (D2 := Spec.distinct_nocase _ (Spec.kept_lines (Spec.candidate_lines raw2))).
  rewrite take_app. split.
  - apply prefix_app_r. reflexivity.
  - rewrite length_take. intros Hlen.
    replace (3 - length D1)%nat with 0%nat by lia.
    cbn [take]. apply app_nil_r.
Qed.

(** X21.  A request whose key is missing or is not the valid key gets the
    error 401 on both tip endpoints, whatever the request and the
    generator. *)
Theorem X21_invalid_key_rejected
    (render : Q -> string)
    (generator : string -> option (list (option string)))
    (req : TipProxy.TipRequest) (x_api_key : option string) :
  x_api_key <> Some TipProxy.VALID_CLIENT_KEY ->
  TipProxy.get_tip render generator req x_api_key
  = TipProxy.Http401 "Invalid API key"
  /\ TipProxy.get_tip_batch render generator req x_api_key
     = TipProxy.Http401 "Invalid API key".
Proof.
  intros Hkey. unfold TipProxy.get_tip, TipProxy.get_tip_batch. cbv zeta.
  assert (Hne : String.eqb (default "" x_api_key) TipProxy.VALID_CLIENT_KEY
                = false).
  { apply String.eqb_neq. intros Heq. apply Hkey.
    destruct x_api_key as [k|]; cbn in Heq; [congruence|].
    discriminate Heq. }
  rewrite Hne. split; reflexivity.
Qed.

Lemma X21_invalid_key_rejected_witness :
  TipProxy.get_tip Sample.render Sample.failing_generator Sample.tip_request
                   None
  = TipProxy.Http401 "Invalid API key".
Proof.
  apply (X21_invalid_key_rejected Sample.render Sample.failing_generator
           Sample.tip_request None).
  discriminate.
Defined.

(** X22.  With the valid key the single-shot endpoint always answers with a
    tip that is not empty; when the generator returns and the filter keeps
    some lines, the tip is these lines joined by line feeds. *)
Theorem X22_authorized_tip_never_empty
    (render : Q -> string)
    (generator : string -> option (list (option string)))
    (req : TipProxy.TipRequest) :
  exists tip,
    TipProxy.get_tip render generator req (Some TipProxy.VALID_CLIENT_KEY)
    = TipProxy.Tip tip
    /\ PyStr.is_empty tip = false
    /\ (forall out,
          generator (TipProxy.build_prompt render req) = Some out ->
          TipProxy.select_best_tips (map (default "") out) <> [] ->
          tip = PyStr.join TipProxy.nl
                  (TipProxy.select_best_tips (map (default "") out))).
Proof.
  unfold TipProxy.get_tip. cbv zeta. cbn [default].
  rewrite String.eqb_refl. cbn [negb].
  unfold TipProxy.generate_tip.
  destruct (generator (TipProxy.build_prompt render req)) as [out|] eqn:Hgen.
  - cbv zeta.
    destruct (TipProxy.select_best_tips (map (default "") out))
      as [|tip1 rest] eqn:Hsel.
    + eexists. split; [reflexivity|]. split.
      * unfold TipProxy.fallback.
        repeat destruct (PyNum.geb _ _); reflexivity.
      * intros out' [= <-] Hne. congruence.
    + eexists. split; [reflexivity|].
      assert (Hfull : take 3 (tip1 :: rest) = tip1 :: rest).
      { apply take_ge. rewrite <- Hsel. apply selected_length. }
      rewrite Hfull. split.
      * apply join_not_empty; [discriminate|].
        intros x Hx. rewrite <- Hsel in Hx.
        destruct (selected_accepted _ _ Hx) as [Hd _].
        apply (discarded_false _ Hd).
      * intros out' [= <-] _. congruence.
  - eexists. split; [reflexivity|]. split.
    + unfold TipProxy.fallback.
      repeat destruct (PyNum.geb _ _); reflexivity.
    + intros out' H. discriminate H.
Qed.

(** X23.  With the valid key the batch endpoint answers with three tips at
    most, although fifty candidates are asked for: the tips are those of
    the filter, and the list is empty when the generator raises. *)
Theorem X23_batch_returns_at_most_three
    (render : Q -> string)
    (generator : string -> option (list (option string)))
    (req : TipProxy.TipRequest) :
  exists tips,
    TipProxy.get_tip_batch render generator req
                           (Some TipProxy.VALID_CLIENT_KEY)
    = TipProxy.Tips tips
    /\ (length tips <= 3)%nat
    /\ (generator (TipProxy.build_prompt render req) = None -> tips = [])
    /\ (forall out,
          generator (TipProxy.build_prompt render req) = Some out ->
          tips = TipProxy.select_best_tips (map (default "") out)).
Proof.
  unfold TipProxy.get_tip_batch. cbv zeta. cbn [default].
  rewrite String.eqb_refl. cbn [negb].
  destruct (generator (TipProxy.build_prompt render req)) as [out|] eqn:Hgen.
  - pose proof (selected_length (map (default "") out)) as Hlen.
    destruct (TipProxy.select_best_tips (map (default "") out))
      as [|tip1 rest] eqn:Hsel.
    + exists []. split; [reflexivity|]. split; [cbn; lia|].
      split; [reflexivity|]. intros out' [= <-]. congruence.
    + exists (tip1 :: rest). split; [reflexivity|]. split; [exact Hlen|].
      split; [discriminate|]. intros out' [= <-]. congruence.
  - exists []. split; [reflexivity|]. split; [cbn; lia|].
    split; [reflexivity | discriminate].
Qed.

(** X24.  A leading number is removed with its mark and the whitespace
    after it: a line made of digits, then [.] or [)], then a text, becomes
    the text without its leading whitespace; a line that does not start with
    a digit is left as it is. *)
Theorem X24_strip_numbering (digits rest : string) (mark : ascii) :
  (digits <> EmptyString ->
   Text.every PyStr.isdigit digits = true ->
   PyStr.mem_char mark ".)" = true ->
   TipProxy.strip_numbering (digits +:+ String mark rest)
   = PyStr.lstrip_by PyStr.isspace rest)
  /\ (forall c line, PyStr.isdigit c = false ->
        TipProxy.strip_numbering (String c line) = String c line)
  /\ TipProxy.strip_numbering EmptyString = EmptyString.
Proof.
  split; [|split; [|reflexivity]].
  - intros Hne Hdig Hmark.
    assert (Hm : PyStr.isdigit mark = false).
    { cbn in Hmark. rewrite orb_false_r in Hmark.
      apply orb_prop in Hmark.
      destruct Hmark as [H | H]; apply Ascii.eqb_eq in H; subst; reflexivity. }
    destruct digits as [|d ds]; [congruence|].
    assert (Hd : PyStr.isdigit d = true)
      by (cbn in Hdig; apply andb_prop in Hdig; tauto).
    unfold TipProxy.strip_numbering.
    rewrite (lstrip_prefix _ _ _ Hdig).
    rewrite append_cons, Hd.
    cbn [PyStr.lstrip_by]. rewrite Hm, Hmark. reflexivity.
  - intros c line Hc. unfold TipProxy.strip_numbering. rewrite Hc.
    reflexivity.
Qed.

Lemma X24_strip_numbering_witness :
  TipProxy.strip_numbering ("12" +:+ String ")" "  Take a short walk")
  = "Take a short walk".
Proof.
  apply (proj1 (X24_strip_numbering "12" "  Take a short walk" ")")).
  - discriminate.
  - reflexivity.
  - reflexivity.
Defined.

(** ** Order and fixed points of the prediction *)

Section PredictionOrder.
Local Open Scope Q_scope.


End PredictionOrder.

(** X25.  The prediction follows the order of the raw outputs: of two raw
    outputs of the model, the greater never gets the smaller answer. *)
Theorem X25_prediction_monotone (raw1 raw2 : Q) :
  (raw1 <= raw2)%Q ->
  (Serve.np_round1 (Serve.np_clip raw1 0 10)
   <= Serve.np_round1 (Serve.np_clip raw2 0 10))%Q.
Proof. intros H. apply np_round1_mono, np_clip_mono, H. Qed.

Lemma X25_prediction_monotone_witness :
  (Serve.np_round1 (Serve.np_clip (37 # 10) 0 10)
   <= Serve.np_round1 (Serve.np_clip (142 # 10) 0 10))%Q.
Proof.
  apply (X25_prediction_monotone (37 # 10) (142 # 10)).
  vm_compute. discriminate.
Defined.



(** ** The static tips *)

Section StaticTipsFacts.

Lemma dedupe_all limit tips :
  forall (seen : gset string) unique_tips,
    (forall x, x ∈ seen <-> x ∈ unique_tips) ->
    NoDup (unique_tips ++ tips) ->
    (length (unique_tips ++ tips) <= limit)%nat ->
    StaticTips.dedupe limit tips seen unique_tips = unique_tips ++ tips.
Proof.
  induction tips as [|t rest IH]; intros seen uniq Hseen Hnd Hlen.
  - cbn. rewrite app_nil_r. reflexivity.
  - cbn [StaticTips.dedupe]. cbv zeta.
    assert (Ht : t ∉ uniq).
    { apply NoDup_app in Hnd. destruct Hnd as (_ & Hd & _).
      intros Hin. apply (Hd t Hin). left. }
    rewrite bool_decide_eq_false_2 by (rewrite Hseen; exact Ht).
    rewrite length_app in Hlen. cbn [length] in Hlen.
    destruct (limit <=? length (uniq ++ [t]))%nat eqn:Hfull.
    + apply Nat.leb_le in Hfull. rewrite length_app in Hfull.
      cbn [length] in Hfull.
      assert (rest = []) by (destruct rest; [reflexivity | cbn in Hlen; lia]).
      subst rest. reflexivity.
    + rewrite (IH ({[ t ]} ∪ seen) (uniq ++ [t])).
      * rewrite <- app_assoc. reflexivity.
      * intros x. rewrite elem_of_union, elem_of_singleton, elem_of_app,
          list_elem_of_singleton, Hseen. tauto.
      * rewrite <- app_assoc. exact Hnd.
      * rewrite !length_app. cbn [length]. lia.
Qed.

Lemma dedupe_shape limit tips :
  forall (seen : gset string) unique_tips,
    (forall x, x ∈ seen <-> x ∈ unique_tips) ->
    NoDup unique_tips ->
    let r := StaticTips.dedupe limit tips seen unique_tips in
    NoDup r
    /\ (forall x, x ∈ r -> x ∈ unique_tips \/ x ∈ tips)
    /\ (length r <= Nat.max limit (S (length unique_tips)))%nat.
Proof.
  induction tips as [|t rest IH]; intros seen uniq Hseen Hnd.
  - cbn. split; [exact Hnd|]. split; [tauto | lia].
  - cbn [StaticTips.dedupe]. cbv zeta.
    destruct (bool_decide (t ∈ seen)) eqn:Hin.
    + destruct (limit <=? length uniq)%nat eqn:Hfull.
      * split; [exact Hnd|]. split; [tauto | lia].
      * apply Nat.leb_gt in Hfull.
        destruct (IH seen uniq Hseen Hnd) as (H1 & H2 & H3).
        split; [exact H1|]. split; [|exact H3].
        intros x Hx. destruct (H2 x Hx); [left | right; right]; assumption.
    + apply bool_decide_eq_false in Hin. rewrite Hseen in Hin.
      assert (Hnd' : NoDup (uniq ++ [t])).
      { apply NoDup_app. split; [exact Hnd|]. split.
        - intros x Hx Hx'. apply list_elem_of_singleton in Hx'. subst.
          contradiction.
        - apply NoDup_singleton. }
      destruct (limit <=? length (uniq ++ [t]))%nat eqn:Hfull.
      * split; [exact Hnd'|]. split.
        -- intros x Hx. apply elem_of_app in Hx.
           destruct Hx as [Hx | Hx]; [left; exact Hx|].
           apply list_elem_of_singleton in Hx. subst. right. left.
        -- rewrite length_app. cbn. lia.
      * apply Nat.leb_gt in Hfull.
        assert (Hseen' : forall x, x ∈ ({[ t ]} ∪ seen : gset string)
                                   <-> x ∈ uniq ++ [t]).
        { intros x. rewrite elem_of_union, elem_of_singleton, elem_of_app,
            list_elem_of_singleton, Hseen. tauto. }
        destruct (IH _ _ Hseen' Hnd') as (H1 & H2 & H3).
        split; [exact H1|]. split.
        -- intros x Hx. destruct (H2 x Hx) as [Hu | Hr]; [|right; right; exact Hr].
           apply elem_of_app in Hu.
           destruct Hu as [Hu | Hu]; [left; exact Hu|].
           apply list_elem_of_singleton in Hu. subst. right. left.
        -- rewrite length_app in *. cbn [length] in *. lia.
Qed.

End StaticTipsFacts.

(** X27.  The loop that removes repeated tips returns tips of its input
    without a repeat, [limit] of them at most (one when [limit] is 0), and
    returns its input as it is when the input has no repeat and no more than
    [limit] items.  The built-in tables give 150 different tips, fewer than
    the limit of 200, so [generate_tips] returns every combination of a
    phrase, an action and a duration, in the order of the loops. *)
Theorem X27_static_tips :
  (forall limit tips,
      let r := StaticTips.dedupe limit tips ∅ [] in
      NoDup r
      /\ (forall x, x ∈ r -> x ∈ tips)
      /\ (length r <= Nat.max limit 1)%nat
      /\ (NoDup tips -> (length tips <= limit)%nat -> r = tips))
  /\ StaticTips.generate_tips = StaticTips.all_tips
  /\ length StaticTips.generate_tips = 150%nat
  /\ NoDup StaticTips.generate_tips.
Proof.
  assert (Hempty : forall x : string, x ∈ (∅ : gset string) <-> x ∈ @nil string).
  { intros x. rewrite elem_of_empty. split; [tauto | intros H; inversion H]. }
  assert (Hnd : NoDup StaticTips.all_tips) by by_evaluation.
  assert (Hgen : StaticTips.generate_tips = StaticTips.all_tips).
  { unfold StaticTips.generate_tips.
    apply (dedupe_all 200 StaticTips.all_tips ∅ [] Hempty Hnd).
    vm_compute. lia. }
  split; [|split; [exact Hgen | split]].
  - intros limit tips.
    destruct (dedupe_shape limit tips ∅ [] Hempty (NoDup_nil_2 (A:=string)))
      as (H1 & H2 & H3).
    cbv zeta. split; [exact H1|]. split; [|split; [exact H3|]].
    + intros x Hx. destruct (H2 x Hx) as [H | H]; [inversion H | exact H].
    + intros Hn Hl. apply (dedupe_all limit tips ∅ [] Hempty Hn Hl).
  - rewrite Hgen. reflexivity.
  - rewrite Hgen. exact Hnd.
Qed.
